(** * Medagg Excel dashboard: filtering, counting, caching and serialising

    A shallow embedding of the three deployment variants of the dashboard
    back end,

    - [App]     : [Excel Dashboard/app.py]
    - [Api]     : [Excel Dashboard/api/index.py]
    - [Netlify] : [Excel Dashboard/netlify/functions/api.py]

    together with the part of Python and pandas they rely on ([Py], [Pandas]).
    Tables live in a store of objects addressed by references, because
    [filter_df] assigns to a column of the table it is handed. *)

From Stdlib Require Import ZArith Lia List Ascii String DecimalString.
From stdpp Require Import base list strings gmap sorting.

Local Open Scope Z_scope.

(** ** Python values used by the code: strings, dates, clocks *)

Module Py.

(** Text.  A [str] is a sequence of code points; a [string] holds those
    below U+0100, one per character, which is the text the model covers.

    [str.lower()], character by character: the capitals are A to Z and
    U+00C0 to U+00DE but for the multiplication sign U+00D7, each 32 below
    its small letter. *)
Definition lower_ascii (c : ascii) : ascii :=
  let n := nat_of_ascii c in
  if (((65 <=? n) && (n <=? 90)) ||
      ((192 <=? n) && (n <=? 222) && negb (n =? 215)))%nat
  then ascii_of_nat (n + 32) else c.

Fixpoint lower (s : string) : string :=
  match s with
  | EmptyString => EmptyString
  | String c r => String (lower_ascii c) (lower r)
  end.

(** The characters [str.strip()] removes, those for which [str.isspace]
    holds: U+0009 to U+000D, U+001C to U+0020, the next-line control U+0085
    and the no-break space U+00A0. *)
Definition is_space (c : ascii) : bool :=
  let n := nat_of_ascii c in
  (((9 <=? n) && (n <=? 13)) || ((28 <=? n) && (n <=? 32)) ||
   (n =? 133) || (n =? 160))%nat.

Fixpoint lstrip (s : string) : string :=
  match s with
  | EmptyString => EmptyString
  | String c r => if is_space c then lstrip r else s
  end.

Fixpoint rstrip (s : string) : string :=
  match s with
  | EmptyString => EmptyString
  | String c r =>
      match rstrip r with
      | EmptyString => if is_space c then EmptyString else String c EmptyString
      | r' => String c r'
      end
  end.

Definition strip (s : string) : string := rstrip (lstrip s).

(** [needle in hay] *)
Fixpoint contains (needle hay : string) {struct hay} : bool :=
  if String.prefix needle hay then true
  else match hay with
       | EmptyString => false
       | String _ r => contains needle r
       end.

(** [s.replace(old, new)] for a non-empty [old]: occurrences are replaced
    from the left and do not overlap; [skip] counts the characters of the
    occurrence being replaced that are still to be dropped. *)
Fixpoint replace_from (old new s : string) (skip : nat) : string :=
  match s with
  | EmptyString => EmptyString
  | String c r =>
      match skip with
      | S k => replace_from old new r k
      | O => if String.prefix old s
             then new +:+ replace_from old new r (String.length old - 1)
             else String c (replace_from old new r 0)
      end
  end.

Definition replace (old new s : string) : string := replace_from old new s 0.

(** Truth value of an optional string ([None] and [""] are false). *)
Definition truthy (o : option string) : bool :=
  match o with
  | Some (String _ _) => true
  | _ => false
  end.

(** A [dict] with string keys and values, in insertion order:
    [d[k] = v] keeps the place of a key already present. *)
Fixpoint dict_set (k v : string) (d : list (string * string)) : list (string * string) :=
  match d with
  | [] => [(k, v)]
  | (k', v') :: r => if String.eqb k' k then (k', v) :: r else (k', v') :: dict_set k v r
  end.

Definition dict_get (k : string) (d : list (string * string)) : option string :=
  snd <$> List.find (fun kv => String.eqb (fst kv) k) d.

(** *** Calendar dates

    A [date] is the number of days since 1970-01-01 in the proleptic
    Gregorian calendar; [days_from_civil] and [civil_from_days] convert
    from and to year, month and day. *)

Definition date := Z.

Definition days_from_civil (y m d : Z) : date :=
  let y' := if m <=? 2 then y - 1 else y in
  let era := y' / 400 in
  let yoe := y' - era * 400 in
  let mp := (m + 9) mod 12 in
  let doy := (153 * mp + 2) / 5 + d - 1 in
  let doe := yoe * 365 + yoe / 4 - yoe / 100 + doy in
  era * 146097 + doe - 719468.

Definition civil_from_days (z : date) : Z * Z * Z :=
  let z' := z + 719468 in
  let era := z' / 146097 in
  let doe := z' - era * 146097 in
  let yoe := (doe - doe / 1460 + doe / 36524 - doe / 146096) / 365 in
  let y := yoe + era * 400 in
  let doy := doe - (365 * yoe + yoe / 4 - yoe / 100) in
  let mp := (5 * doy + 2) / 153 in
  let d := doy - (153 * mp + 2) / 5 + 1 in
  let m := if mp <? 10 then mp + 3 else mp - 9 in
  (if m <=? 2 then y + 1 else y, m, d).

(** The triples [date(y, m, d)] accepts, years apart. *)
Definition is_leap (y : Z) : bool :=
  ((y mod 4 =? 0) && negb (y mod 100 =? 0)) || (y mod 400 =? 0).

Definition days_in_month (y m : Z) : Z :=
  if m =? 2 then (if is_leap y then 29 else 28)
  else if (m =? 4) || (m =? 6) || (m =? 9) || (m =? 11) then 30
  else 31.

Definition valid_date (y m d : Z) : bool :=
  (1 <=? m) && (m <=? 12) && (1 <=? d) && (d <=? days_in_month y m).

Definition year (t : date) : Z := fst (fst (civil_from_days t)).
Definition month (t : date) : Z := snd (fst (civil_from_days t)).
Definition day (t : date) : Z := snd (civil_from_days t).

(** [date.weekday()]: Monday is 0; 1970-01-01 was a Thursday. *)
Definition weekday (t : date) : Z := (t + 3) mod 7.

(** [t.replace(day=1)] *)
Definition replace_day1 (t : date) : date := days_from_civil (year t) (month t) 1.

(** [t + relativedelta(months=1)] for a [t] that is the first of a month. *)
Definition add_month_first (t : date) : date :=
  if month t =? 12 then days_from_civil (year t + 1) 1 1
  else days_from_civil (year t) (month t + 1) 1.

(** *** Formatting *)

Definition digit (n : Z) : ascii := ascii_of_nat (48 + Z.to_nat (n mod 10)).

Definition pad2 (n : Z) : string :=
  String (digit (n / 10)) (String (digit n) EmptyString).

Definition pad4 (n : Z) : string :=
  String (digit (n / 1000)) (String (digit (n / 100)) (pad2 n)).

(** [d.strftime("%Y-%m-%d")] *)
Definition strftime_ymd (t : date) : string :=
  pad4 (year t) +:+ "-" +:+ pad2 (month t) +:+ "-" +:+ pad2 (day t).

(** [str(n)] for an integer. *)
Definition str_int (n : Z) : string := NilZero.string_of_int (Z.to_int n).

(** *** Clocks

    A [datetime] is a number of microseconds since the epoch, a [timedelta]
    a number of microseconds.  [timedelta.seconds] is the seconds field of
    the normalised (days, seconds, microseconds) triple, between 0 and
    86399; [timedelta.total_seconds()] is not what it returns. *)

Definition datetime := Z.
Definition timedelta := Z.

Definition td_seconds (d : timedelta) : Z := (d / 1000000) mod 86400.
Definition td_of_seconds (s : Z) : timedelta := s * 1000000.
Definition td_of_minutes (m : Z) : timedelta := m * 60 * 1000000.

End Py.

(** ** The part of pandas the code uses *)

Module Pandas.

Inductive Dtype := DObject | DInt64 | DFloat64 | DBool | DDatetime.

(** A cell value.  [CNone], [CNaN] and [CNaT] are the three missing-value
    markers; a [CTimestamp] counts nanoseconds since the epoch; numbers are
    integers. *)
Inductive Cell :=
| CNone
| CNaN
| CNaT
| CStr (s : string)
| CInt (n : Z)
| CBool (b : bool)
| CTimestamp (ns : Z)
| CTime (h m s : Z).

#[global] Instance Dtype_eq_dec : EqDecision Dtype.
Proof. solve_decision. Defined.

#[global] Instance Cell_eq_dec : EqDecision Cell.
Proof. solve_decision. Defined.

(** A table: the header gives, from left to right, each column's name and
    dtype; every row has one cell per column. *)
Record DataFrame := mkDF {
  header : list (string * Dtype);
  rows : list (list Cell)
}.

Definition columns (df : DataFrame) : list string := map fst (header df).

(** [len(df)] *)
Definition len (df : DataFrame) : Z := Z.of_nat (length (rows df)).

(** Position of the column called [name] ([name in df.columns] when it is
    [Some]). *)
Fixpoint index_of (name : string) (names : list string) : option nat :=
  match names with
  | [] => None
  | c :: cs => if String.eqb c name then Some O else S <$> index_of name cs
  end.

Definition col_index (name : string) (df : DataFrame) : option nat :=
  index_of name (columns df).

Definition cell (r : list Cell) (i : nat) : Cell := default CNaN (r !! i).

(** [df[col]] and [df[col].dtype], for the column at position [i]. *)
Definition series (df : DataFrame) (i : nat) : list Cell :=
  map (fun r => cell r i) (rows df).

Definition dtype (df : DataFrame) (i : nat) : Dtype :=
  default DObject (snd <$> header df !! i).

(** [df[col] = values], for an existing column at position [i]. *)
Definition assign_column (i : nat) (dt : Dtype) (values : list Cell)
    (df : DataFrame) : DataFrame :=
  {| header := alter (fun h => (fst h, dt)) i (header df);
     rows := zip_with (fun r v => <[i := v]> r) (rows df) values |}.

(** [df.loc[mask]] and [df[mask]] for a boolean mask. *)
Fixpoint select_rows (rs : list (list Cell)) (mask : list bool) : list (list Cell) :=
  match rs, mask with
  | r :: rs', b :: mask' => if b then r :: select_rows rs' mask' else select_rows rs' mask'
  | _, _ => []
  end.

Definition loc_mask (df : DataFrame) (mask : list bool) : DataFrame :=
  {| header := header df; rows := select_rows (rows df) mask |}.

(** [pd.isnull] on a cell. *)
Definition isna (c : Cell) : bool :=
  match c with
  | CNone | CNaN | CNaT => true
  | _ => false
  end.

(** *** Timestamps *)

Definition ns_per_day : Z := 86400 * 1000000000.

(** [ts.date()]: the calendar day, time of day dropped. *)
Definition ts_date (ns : Z) : Py.date := ns / ns_per_day.

Definition timestamp (y m d : Z) : Z := Py.days_from_civil y m d * ns_per_day.

(** [series.dt.date], elementwise; [NaT] stays missing. *)
Definition dt_date (c : Cell) : option Py.date :=
  match c with
  | CTimestamp ns => Some (ts_date ns)
  | _ => None
  end.

(** [(dates >= start) & (dates <= end)], elementwise; a comparison with a
    missing date is false. *)
Definition in_range (start end_ : Py.date) (d : option Py.date) : bool :=
  match d with
  | Some t => (start <=? t) && (t <=? end_)
  | None => false
  end.

(** [series.dt.strftime("%Y-%m-%d")], elementwise; [NaT] becomes [NaN]. *)
Definition dt_strftime_ymd (c : Cell) : Cell :=
  match c with
  | CTimestamp ns => CStr (Py.strftime_ymd (ts_date ns))
  | _ => CNaN
  end.

(** [t.strftime("%H:%M:%S")] *)
Definition strftime_hms (h m s : Z) : string :=
  Py.pad2 h +:+ ":" +:+ Py.pad2 m +:+ ":" +:+ Py.pad2 s.

(** [series.astype(str)], elementwise: [str] of the value, which is what
    pandas gives for a column of dtype object.  A timestamp is printed to
    the second; pandas prints a datetime column whose times are all
    midnight by the day alone, and a float with its decimal point, which
    cells do not have here.  What is printed for a number or a date starts
    with a digit or a minus sign in either case. *)
Definition astype_str (c : Cell) : string :=
  match c with
  | CNone => "None"
  | CNaN => "nan"
  | CNaT => "NaT"
  | CStr s => s
  | CInt n => Py.str_int n
  | CBool b => if b then "True" else "False"
  | CTimestamp ns =>
      let sec := (ns mod ns_per_day) / 1000000000 in
      Py.strftime_ymd (ts_date ns) +:+ " " +:+
      strftime_hms (sec / 3600) ((sec / 60) mod 60) (sec mod 60)
  | CTime h m s => strftime_hms h m s
  end.

(** [(series == label).sum()] *)
Definition count_eq (s : list string) (label : string) : Z :=
  Z.of_nat (length (List.filter (String.eqb label) s)).

(** [series.astype(str).str.strip().str.lower()] *)
Definition clean (c : Cell) : string := Py.lower (Py.strip (astype_str c)).

Definition cleaned (df : DataFrame) (i : nat) : list string :=
  map clean (series df i).

(** [series.isin(labels)] on strings. *)
Definition isin (labels : list string) (s : string) : bool :=
  existsb (String.eqb s) labels.

(** [series.dropna().unique().tolist()]: the values present, each once, in
    the order of their first appearance. *)
Fixpoint unique_from (seen l : list Cell) : list Cell :=
  match l with
  | [] => []
  | c :: r => if bool_decide (c ∈ seen) then unique_from seen r
              else c :: unique_from (c :: seen) r
  end.

Definition dropna_unique (l : list Cell) : list Cell :=
  unique_from [] (List.filter (fun c => negb (isna c)) l).

(** [df.to_dict(orient="records")] *)
Definition to_dict_records (df : DataFrame) : list (list (string * Cell)) :=
  map (fun r => zip (columns df) r) (rows df).


Section Coercion.

(** The date parser behind [pd.to_datetime] for a string: the timestamp
    read, or nothing when the text is no date.  pandas settles on one way
    of reading for a whole column (it infers a format from the first text
    of the column), so this is the parser of the column being coerced; no
    computation of the program coerces more than one column. *)
Variable parse_datetime : string -> option Z.

(** [pd.to_datetime(series, errors="coerce")], elementwise: timestamps
    are kept, strings parsed, integers read as nanoseconds since the
    epoch, and whatever is left becomes [NaT]. *)
Definition to_datetime (c : Cell) : Cell :=
  match c with
  | CTimestamp ns => CTimestamp ns
  | CStr s => match parse_datetime s with
              | Some ns => CTimestamp ns
              | None => CNaT
              end
  | CInt n => CTimestamp n
  | _ => CNaT
  end.

(** [df[col] = pd.to_datetime(df[col], errors="coerce")] *)
Definition coerce_column (i : nat) (df : DataFrame) : DataFrame :=
  assign_column i DDatetime (map to_datetime (series df i)) df.

End Coercion.




End Pandas.

(** ** Objects, exceptions and the outside world *)

Module Runtime.
Import Pandas.

Inductive Exn :=
| RequestException (msg : string)  (* requests: no answer, or an error status *)
| ExcelError (msg : string)        (* read_excel: not a workbook *)
| ValueError (msg : string)
| IndexError
| AttributeError
| KeyError (key : string)
| BadReference.                    (* a reference to no object: never built by the code *)

Inductive Outcome (A : Type) :=
| Return (a : A)
| Raise (e : Exn).
Arguments Return {A} a.
Arguments Raise {A} e.

(** Tables are objects: a [ref] is the position of a table in the heap. *)
Definition ref := nat.

Record Request := mkRequest {
  req_url : string;
  req_headers : list (string * string)
}.

(** The module-level state of one variant, the tables alive, and the HTTP
    requests sent so far. *)
Record World := mkWorld {
  heap : list DataFrame;
  df_cache : option ref;
  last_fetched : option Py.datetime;
  requests : list Request
}.

(** What lies outside the program: the answer to the [n]-th HTTP request
    (its body, or the exception of [requests.get] and [raise_for_status]),
    and the workbook parser. *)
Record Net := mkNet {
  http_get : nat -> Request -> Outcome string;
  read_excel : string -> Outcome DataFrame
}.

Definition M (A : Type) : Type := World -> Outcome A * World.

Definition ret {A} (a : A) : M A := fun w => (Return a, w).

Definition raise {A} (e : Exn) : M A := fun w => (Raise e, w).

Definition bind {A B} (c : M A) (k : A -> M B) : M B :=
  fun w => match c w with
           | (Return a, w') => k a w'
           | (Raise e, w') => (Raise e, w')
           end.

(** [try: c except Exception: h]; what [c] did to the world stays done. *)
Definition catch {A} (c : M A) (h : Exn -> M A) : M A :=
  fun w => match c w with
           | (Return a, w') => (Return a, w')
           | (Raise e, w') => h e w'
           end.

Definition lift {A} (o : Outcome A) : M A := fun w => (o, w).

Definition get_world : M World := fun w => (Return w, w).

(** A new table object. *)
Definition new_object (df : DataFrame) : M ref :=
  fun w => (Return (length (heap w)),
            mkWorld (heap w ++ [df]) (df_cache w) (last_fetched w) (requests w)).

Definition deref (l : ref) : M DataFrame :=
  fun w => match heap w !! l with
           | Some df => (Return df, w)
           | None => (Raise BadReference, w)
           end.

(** In-place update of the table at [l]. *)
Definition update (l : ref) (df : DataFrame) : M unit :=
  fun w => (Return tt,
            mkWorld (<[l := df]> (heap w)) (df_cache w) (last_fetched w) (requests w)).

(** [_df_cache = l; _last_fetched = t] *)
Definition set_cache (l : ref) (t : Py.datetime) : M unit :=
  fun w => (Return tt, mkWorld (heap w) (Some l) (Some t) (requests w)).

(** [requests.get(url, headers=...)] followed by [raise_for_status()]. *)
Definition requests_get (net : Net) (url : string) (headers : list (string * string))
    : M string :=
  fun w => let r := mkRequest url headers in
           (http_get net (length (requests w)) r,
            mkWorld (heap w) (df_cache w) (last_fetched w) (requests w ++ [r])).

(** [df.copy()] *)
Definition copy (l : ref) : M ref := bind (deref l) new_object.

(** [df[col].dt.date]: only a datetime column has the [.dt] accessor. *)
Definition dt_dates (df : DataFrame) (i : nat) : M (list (option Py.date)) :=
  match dtype df i with
  | DDatetime => ret (map dt_date (series df i))
  | _ => raise AttributeError
  end.

(** [df[df[name].astype(str).str.lower() == query.lower()]]: the rows whose
    cell in column [name], printed and lowered, is the lowered [query]. *)
Definition select_equal (out : ref) (name query : string) : M ref :=
  bind (deref out) (fun o =>
    match col_index name o with
    | Some i =>
        new_object
          (loc_mask o (map (fun c => String.eqb (Py.lower (astype_str c)) (Py.lower query))
                           (series o i)))
    | None => raise (KeyError name)
    end).

(** Query parameters of a request. *)
Record Args := mkArgs {
  arg_type : option string;
  arg_start : option string;
  arg_end : option string;
  arg_field : option string;
  arg_q : option string
}.

(** A value of the dict [/api/counts] answers with: a counter, or the
    [success] flag.  A counter is written as the number it is. *)
Inductive JsonVal :=
| JInt (n : Z)
| JBool (b : bool).

(** JSON answers: rows with counts, counts alone, a 400 or a 500. *)
Inductive Response (C : Type) :=
| RowsOk (counts : C) (data : list (list (string * Cell)))
| CountsOk (counts : C)
| BadRequest (error : string)
| ServerError (e : Exn).
Arguments RowsOk {C} counts data.
Arguments CountsOk {C} counts.
Arguments BadRequest {C} error.
Arguments ServerError {C} e.

(** The [try: ... except Exception as e: return ..., 500] of a route. *)
Definition route {C} (body : M (Response C)) : World -> Response C * World :=
  fun w => match body w with
           | (Return r, w') => (r, w')
           | (Raise e, w') => (ServerError e, w')
           end.

(** The table a reference denotes. *)
Definition table_at (w : World) (l : ref) : option DataFrame := heap w !! l.

(** The cache entry: the cached table and the time it was fetched. *)
Definition cache_entry (w : World) : option DataFrame * option Py.datetime :=
  (df_cache w ≫= table_at w, last_fetched w).

End Runtime.

Declare Scope py_scope.
Delimit Scope py_scope with py.
Notation "'let*' x ':=' c 'in' k" := (Runtime.bind c (fun x => k))
  (at level 10, x name, c at level 100, k at level 200) : py_scope.

(** ** [app.py] *)

Module App.
Import Pandas Runtime.
Local Open Scope py_scope.
Local Open Scope string_scope.
Local Open Scope Z_scope.

Definition CACHE_SECONDS : Z := 60.

(** *** [_to_export_url] *)

Definition is_id_char (c : ascii) : bool :=
  let n := nat_of_ascii c in
  (((48 <=? n) && (n <=? 57)) || ((65 <=? n) && (n <=? 90)) ||
   ((97 <=? n) && (n <=? 122)) || (n =? 95) || (n =? 45))%nat.

(** The longest run of identifier characters at the head of [s], and what
    follows it. *)
Fixpoint span_id (s : string) : string * string :=
  match s with
  | String c r =>
      if is_id_char c then let (a, b) := span_id r in (String c a, b)
      else (EmptyString, s)
  | EmptyString => (EmptyString, EmptyString)
  end.

Definition match_sheet_id (s : string) : option string :=
  if String.prefix "/d/" s then
    let (sheet_id, rest) := span_id (String.substring 3 (String.length s - 3) s) in
    match sheet_id with
    | EmptyString => None
    | _ => if String.prefix "/" rest then Some sheet_id else None
    end
  else None.

(** [re.search(r"/d/([a-zA-Z0-9_-]+)/", url)]: group 1 of the leftmost
    match. *)
Fixpoint search_sheet_id (s : string) : option string :=
  match match_sheet_id s with
  | Some sheet_id => Some sheet_id
  | None => match s with
            | EmptyString => None
            | String _ r => search_sheet_id r
            end
  end.

Definition _to_export_url (url : string) : string :=
  if negb (Py.contains "docs.google.com/spreadsheets" url) || Py.contains "/export" url
  then url
  else match search_sheet_id url with
       | Some sheet_id =>
           "https://docs.google.com/spreadsheets/d/" +:+ sheet_id +:+ "/export?format=xlsx"
       | None => url
       end.

Section Configured.

(** Environment: [EXCEL_URL], [EXCEL_API_KEY] and [DATE_COLUMN] (a table's
    column of dates, "Date" unless set), the network, and the date
    parsers of pandas and of [datetime.strptime(s, "%Y-%m-%d")]. *)
Variables EXCEL_URL API_KEY DATE_COLUMN_NAME : string.
Variable net : Net.
Variable parse_datetime : string -> option Z.
Variable strptime_ymd : string -> option Py.date.

(** *** [fetch_excel]; [now] is what [datetime.now(timezone.utc)] reads *)

Definition cache_fresh (now : Py.datetime) (w : World) : option ref :=
  match df_cache w, last_fetched w with
  | Some c, Some t =>
      if Py.td_seconds (now - t) <? CACHE_SECONDS then Some c else None
  | _, _ => None
  end.

Definition fetch_excel (now : Py.datetime) : M ref :=
  let* w := get_world in
  match cache_fresh now w with
  | Some c => ret c
  | None =>
      let headers :=
        if negb (String.eqb API_KEY "") && negb (String.eqb API_KEY "YOUR_API_KEY")
        then [("Authorization", "Bearer " +:+ API_KEY)] else [] in
      let resolved_url := _to_export_url EXCEL_URL in
      let* content := requests_get net resolved_url headers in
      let* parsed := lift (read_excel net content) in
      let* df := new_object parsed in
      let* _ :=
        match col_index DATE_COLUMN_NAME parsed with
        | Some i => update df (coerce_column parse_datetime i parsed)
        | None => ret tt
        end in
      let* _ := set_cache df now in
      ret df
  end.

(** *** [filter_df] *)

Definition filter_df (df : ref) (start end_ : option Py.date) : M ref :=
  let* d := deref df in
  match col_index DATE_COLUMN_NAME d, start, end_ with
  | Some i, Some s, Some e =>
      catch
        (let* _ :=
           match dtype d i with
           | DObject => update df (coerce_column parse_datetime i d)
           | _ => ret tt
           end in
         let* d1 := deref df in
         let* dates := dt_dates d1 i in
         let mask := map (in_range s e) dates in
         new_object (loc_mask d1 mask))
        (fun _ => ret df)
  | _, _, _ => ret df
  end.

(** *** [get_range]; [today] is what [date.today()] reads *)

Definition get_range (today : Py.date) (filter_type : string)
    : option Py.date * option Py.date :=
  if String.eqb filter_type "today" then (Some today, Some today)
  else if String.eqb filter_type "yesterday" then
    let y := today - 1 in (Some y, Some y)
  else if String.eqb filter_type "tomorrow" then
    let t := today + 1 in (Some t, Some t)
  else if String.eqb filter_type "last7" then (Some (today - 6), Some today)
  else if String.eqb filter_type "last30" then (Some (today - 29), Some today)
  else if String.eqb filter_type "next7" then (Some today, Some (today + 7))
  else if String.eqb filter_type "next30" then (Some today, Some (today + 30))
  else if String.eqb filter_type "thisweek" then
    let start := today - Py.weekday today in
    (Some start, Some (start + 6))
  else if String.eqb filter_type "thismonth" then
    let start := Py.replace_day1 today in
    (Some start, Some (Py.add_month_first start - 1))
  else if String.eqb filter_type "thisyear" then
    (Some (Py.days_from_civil (Py.year today) 1 1),
     Some (Py.days_from_civil (Py.year today) 12 31))
  else (None, None).

(** *** [calculate_counts] *)

Definition calculate_counts (df : DataFrame) : Outcome (gmap string Z) :=
  let counts : gmap string Z :=
    list_to_map [("opd_count", 0); ("ipd_count", 0); ("surgery_suggested", 0);
                 ("diagnostic_suggested", 0); ("surgery_not_suggested", 0);
                 ("total_records", len df)] in
  let counts :=
    match col_index "OPD&IPD" df with
    | Some i =>
        let cleaned_series := cleaned df i in
        <["ipd_count" := count_eq cleaned_series "ipd completed"]>
          (<["opd_count" := count_eq cleaned_series "opd completed"]> counts)
    | None => counts
    end in
  let counts :=
    match col_index "IPD Status" df with
    | Some j =>
        if counts !!! "ipd_count" =? 0 then
          let ipd_completed_count := count_eq (cleaned df j) "completed" in
          if 0 <? ipd_completed_count
          then <["ipd_count" := ipd_completed_count]> counts
          else counts
        else counts
    | None => counts
    end in
  let counts :=
    match col_index " Status" df with
    | Some k =>
        let cleaned_status := cleaned df k in
        let df_filtered :=
          loc_mask df (map (isin ["surgery suggested"; "diagnostic suggested"])
                           cleaned_status) in
        <["surgery_not_suggested" := count_eq cleaned_status "surgery not suggested"]>
          (<["diagnostic_suggested" :=
               count_eq (cleaned df_filtered k) "diagnostic suggested"]>
             (<["surgery_suggested" :=
                  count_eq (cleaned df_filtered k) "surgery suggested"]> counts))
    | None => counts
    end in
  Return counts.

(** *** [_df_to_records] *)

(** [out[col] = out[col].dt.strftime("%Y-%m-%d")] for the columns that
    [select_dtypes] finds, which are those of datetime dtype. *)
Definition format_dates (out : DataFrame) : DataFrame :=
  fold_left
    (fun o i =>
       match dtype o i with
       | DDatetime => assign_column i DObject (map dt_strftime_ymd (series o i)) o
       | _ => o
       end)
    (seq 0 (length (header out))) out.

Definition is_time (c : Cell) : bool :=
  match c with CTime _ _ _ => true | _ => false end.

Definition format_time (c : Cell) : Cell :=
  match c with CTime h m s => CStr (strftime_hms h m s) | _ => c end.

Definition format_times (out : DataFrame) : DataFrame :=
  fold_left
    (fun o i =>
       match dtype o i with
       | DObject =>
           if existsb is_time (series o i)
           then assign_column i DObject (map format_time (series o i)) o
           else o
       | _ => o
       end)
    (seq 0 (length (header out))) out.

(** [out.astype(object).where(pd.notnull(out), None)] *)
Definition none_if_null (c : Cell) : Cell := if isna c then CNone else c.

Definition nulls_to_none (out : DataFrame) : DataFrame :=
  {| header := map (fun h => (fst h, DObject)) (header out);
     rows := map (map none_if_null) (rows out) |}.

Definition _df_to_records (df : DataFrame) : list (list (string * Cell)) :=
  to_dict_records (nulls_to_none (format_times (format_dates df))).

(** *** Routes

    [date_bounds] is the block of [api_filter] and [api_counts] that reads
    [type], [start] and [end]: the range to filter by, or nothing when a
    given date does not parse (the 400 answer). *)

Definition date_bounds (today : Py.date) (args : Args)
    : option (option Py.date * option Py.date) :=
  let filter_type := Py.lower (default "" (arg_type args)) in
  if Py.truthy (arg_start args) && Py.truthy (arg_end args) then
    match arg_start args ≫= strptime_ymd, arg_end args ≫= strptime_ymd with
    | Some s, Some e => Some (Some s, Some e)
    | _, _ => None
    end
  else if Py.truthy (Some filter_type) then Some (get_range today filter_type)
  else Some (None, None).

(** [if start_date and end_date: out = filter_df(out, start_date, end_date)] *)
Definition date_block (out : ref) (b : option Py.date * option Py.date) : M ref :=
  match b with
  | (Some s, Some e) => filter_df out (Some s) (Some e)
  | _ => ret out
  end.

(** The [if field and query:] block of [api_filter]. *)
Definition field_block_filter (out : ref) (field query : option string) : M ref :=
  match field, query with
  | Some f, Some q =>
      if Py.truthy field && Py.truthy query then
        let* o := deref out in
        match List.find (fun col_name => String.eqb (Py.lower col_name) (Py.lower f))
                        (columns o) with
        | Some actual_field_name =>
            if Py.truthy (Some actual_field_name)
            then select_equal out actual_field_name q
            else ret out
        | None => ret out
        end
      else ret out
  | _, _ => ret out
  end.

Definition known_map : list (string * string) :=
  [("bd", "BD"); ("city", "City"); ("hospital", "Hospital"); ("state", "State")].

(** [{c.lower(): c for c in out.columns}] *)
Definition columns_lower (o : DataFrame) : list (string * string) :=
  fold_left (fun d c => Py.dict_set (Py.lower c) c d) (columns o) [].

Definition target_column (o : DataFrame) (field : string) : option string :=
  let df_columns_lower := columns_lower o in
  let field_lower := Py.lower field in
  match Py.dict_get field_lower known_map with
  | Some mapped =>
      let mapped_name := Py.lower mapped in
      snd <$> List.find (fun kv => Py.contains mapped_name (fst kv)) df_columns_lower
  | None => Py.dict_get field_lower df_columns_lower
  end.

(** The [if field and query:] block of [api_counts]. *)
Definition field_block_counts (out : ref) (field query : option string) : M ref :=
  match field, query with
  | Some f, Some q =>
      if Py.truthy field && Py.truthy query then
        let* o := deref out in
        let target := target_column o f in
        match target with
        | Some t =>
            if Py.truthy target then
              if negb (String.eqb (Py.lower f) "bd" && String.eqb (Py.lower q) "all_bd")
              then select_equal out t q
              else ret out
            else ret out
        | None => ret out
        end
      else ret out
  | _, _ => ret out
  end.

Definition api_data (now : Py.datetime) : World -> Response (gmap string Z) * World :=
  route (let* df := fetch_excel now in
         let* d := deref df in
         let data := _df_to_records d in
         let* counts := lift (calculate_counts d) in
         ret (RowsOk counts data)).

Definition api_filter (now : Py.datetime) (today : Py.date) (args : Args)
    : World -> Response (gmap string Z) * World :=
  route (let* df := fetch_excel now in
         let* out := copy df in
         match date_bounds today args with
         | None => ret (BadRequest "Invalid date format. Use YYYY-MM-DD.")
         | Some b =>
             let* out := date_block out b in
             let* out := field_block_filter out (arg_field args) (arg_q args) in
             let* o := deref out in
             let* filtered_counts := lift (calculate_counts o) in
             ret (RowsOk filtered_counts (_df_to_records o))
         end).

(** The answer is the summary itself with [counts["success"] = True]. *)
Definition api_counts (now : Py.datetime) (today : Py.date) (args : Args)
    : World -> Response (gmap string JsonVal) * World :=
  route (let* df := fetch_excel now in
         let* out := copy df in
         match date_bounds today args with
         | None => ret (BadRequest "Invalid date format. Use YYYY-MM-DD.")
         | Some b =>
             let* out := date_block out b in
             let* out := field_block_counts out (arg_field args) (arg_q args) in
             let* o := deref out in
             let* counts := lift (calculate_counts o) in
             let counts := <["success" := JBool true]> (JInt <$> counts) in
             ret (CountsOk counts)
         end).

End Configured.

End App.

(** ** [api/index.py] *)

Module Api.
Import Pandas Runtime.
Local Open Scope py_scope.
Local Open Scope string_scope.
Local Open Scope Z_scope.

Definition CACHE_DURATION : Py.timedelta := Py.td_of_minutes 5.

Definition _to_export_url (url : string) : string :=
  if Py.contains "google.com/spreadsheets/d/" url && Py.contains "/edit" url
  then Py.replace "/edit" "/export?format=xlsx" url
  else url.

Section Configured.

(** Environment: [EXCEL_SHEET_URL] when set, the network, and the two
    date parsers. *)
Variable EXCEL_SHEET_URL : option string.
Variable net : Net.
Variable parse_datetime : string -> option Z.
Variable strptime_ymd : string -> option Py.date.

(** [df.replace({pd.NaT: None, pd.NA: None})]: the routes are followed for
    any such function; [Pandas.replace_nat_na] is the one pandas has. *)
Variable replace_missing : DataFrame -> DataFrame.

(** *** [_df_to_records] *)

Definition empty (df : DataFrame) : bool :=
  match header df, rows df with
  | [], _ | _, [] => true
  | _, _ => false
  end.

Definition _df_to_records (df : DataFrame) : list (list (string * Cell)) :=
  if empty df then []
  else to_dict_records (replace_missing (App.format_dates df)).

(** *** [fetch_excel]; [now] is the clock read by the freshness test,
    [now'] the one read once the workbook is parsed *)

Definition cache_fresh (now : Py.datetime) (w : World) : option ref :=
  match df_cache w, last_fetched w with
  | Some c, Some t => if now - t <? CACHE_DURATION then Some c else None
  | _, _ => None
  end.

Definition fetch_excel (now now' : Py.datetime) : M ref :=
  let* w := get_world in
  match cache_fresh now w with
  | Some c => copy c
  | None =>
      match EXCEL_SHEET_URL with
      | Some (String a r) =>
          let sheet_url := String a r in
          let export_url := _to_export_url sheet_url in
          let* content := requests_get net export_url [] in
          let* parsed := lift (read_excel net content) in
          let* df := new_object parsed in
          let* _ := set_cache df now' in
          copy df
      | _ => raise (ValueError "EXCEL_SHEET_URL environment variable not set.")
      end
  end.

(** *** [filter_df] *)

Definition filter_df (df : ref) (start end_ : option Py.date) : M ref :=
  match start, end_ with
  | Some s, Some e =>
      let* d := deref df in
      match List.find (fun c => Py.contains "date" (Py.lower c)) (columns d) with
      | Some date_col =>
          if Py.truthy (Some date_col) then
            match col_index date_col d with
            | Some i =>
                let* coerced :=
                  catch (let* _ := update df (coerce_column parse_datetime i d) in
                         ret true)
                        (fun _ => ret false) in
                if coerced : bool then
                  let* d1 := deref df in
                  let* dates := dt_dates d1 i in
                  new_object (loc_mask d1 (map (in_range s e) dates))
                else ret df
            | None => raise (KeyError date_col)
            end
          else ret df
      | None => ret df
      end
  | _, _ => ret df
  end.

(** *** [get_range] *)

Definition get_range (today : Py.date) (filter_type : string)
    : option Py.date * option Py.date :=
  if String.eqb filter_type "today" then (Some today, Some today)
  else if String.eqb filter_type "yesterday" then
    let yesterday := today - 1 in (Some yesterday, Some yesterday)
  else if String.eqb filter_type "last_7_days" then (Some (today - 6), Some today)
  else if String.eqb filter_type "last_30_days" then (Some (today - 29), Some today)
  else if String.eqb filter_type "this_month" then
    (Some (Py.days_from_civil (Py.year today) (Py.month today) 1), Some today)
  else if String.eqb filter_type "this_year" then
    (Some (Py.days_from_civil (Py.year today) 1 1),
     Some (Py.days_from_civil (Py.year today) 12 31))
  else (None, None).

(** *** [calculate_counts]; [df.columns[0]] needs a first column *)

Definition calculate_counts (df : DataFrame) : Outcome (gmap string Z) :=
  let counts : gmap string Z :=
    list_to_map [("opd_count", 0); ("ipd_count", 0); ("surgery_suggested", 0);
                 ("diagnostic_suggested", 0); ("total_records", len df)] in
  let counts :=
    match col_index "OPD&IPD" df with
    | Some i =>
        let cleaned_series := cleaned df i in
        <["ipd_count" := count_eq cleaned_series "ipd completed"]>
          (<["opd_count" := count_eq cleaned_series "opd completed"]> counts)
    | None => counts
    end in
  let counts :=
    match col_index "IPD Status" df with
    | Some j =>
        if counts !!! "ipd_count" =? 0 then
          let ipd_completed_count := count_eq (cleaned df j) "completed" in
          if 0 <? ipd_completed_count
          then <["ipd_count" := ipd_completed_count]> counts
          else counts
        else counts
    | None => counts
    end in
  match columns df with
  | [] => Raise IndexError
  | status_col :: _ =>
      let cleaned_status := cleaned df 0 in
      let surgery_count := count_eq cleaned_status "surgery suggested" in
      let diagnostic_count := count_eq cleaned_status "diagnostic suggested" in
      Return (<["diagnostic_suggested" := diagnostic_count]>
                (<["surgery_suggested" := surgery_count]> counts))
  end.

(** *** [api_filter] *)

(** The date block: [custom] reads [start] and [end] ([strptime] raises
    [ValueError] on a bad date), any other type but [all] is a preset. *)
Definition date_bounds (today : Py.date) (args : Args)
    : Outcome (option Py.date * option Py.date) :=
  match arg_type args with
  | Some filter_type =>
      if String.eqb filter_type "custom" && Py.truthy (arg_start args)
         && Py.truthy (arg_end args) then
        match arg_start args ≫= strptime_ymd with
        | Some s =>
            match arg_end args ≫= strptime_ymd with
            | Some e => Return (Some s, Some e)
            | None => Raise (ValueError "time data does not match format '%Y-%m-%d'")
            end
        | None => Raise (ValueError "time data does not match format '%Y-%m-%d'")
        end
      else if Py.truthy (Some filter_type) && negb (String.eqb filter_type "all")
      then Return (get_range today filter_type)
      else Return (None, None)
  | None => Return (None, None)
  end.

Definition date_block (out : ref) (b : option Py.date * option Py.date) : M ref :=
  match b with
  | (Some s, Some e) => filter_df out (Some s) (Some e)
  | _ => ret out
  end.

(** The [if field and query and query.lower() != 'all_bd':] block. *)
Definition field_block (out : ref) (field query : option string) : M ref :=
  match field, query with
  | Some f, Some q =>
      if Py.truthy field && Py.truthy query && negb (String.eqb (Py.lower q) "all_bd")
      then
        let* o := deref out in
        let target_column :=
          List.find (fun col => Py.contains (Py.lower f) (Py.lower col)) (columns o) in
        match target_column with
        | Some t => if Py.truthy target_column then select_equal out t q else ret out
        | None => ret out
        end
      else ret out
  | _, _ => ret out
  end.

(** The answer carries [total_counts] and [counts]. *)
Definition api_filter (now now' : Py.datetime) (today : Py.date) (args : Args)
    : World -> Response (gmap string Z * gmap string Z) * World :=
  route (let* df := fetch_excel now now' in
         let* d := deref df in
         let* total_counts := lift (calculate_counts d) in
         let* out := copy df in
         let* b := lift (date_bounds today args) in
         let* out := date_block out b in
         let* out := field_block out (arg_field args) (arg_q args) in
         let* o := deref out in
         let* filtered_counts := lift (calculate_counts o) in
         ret (RowsOk (total_counts, filtered_counts) (_df_to_records o))).

Definition api_data (now now' : Py.datetime)
    : World -> Response (gmap string Z) * World :=
  route (let* df := fetch_excel now now' in
         let* d := deref df in
         let* counts := lift (calculate_counts d) in
         ret (RowsOk counts (_df_to_records d))).

Definition api_counts (now now' : Py.datetime)
    : World -> Response (gmap string Z) * World :=
  route (let* df := fetch_excel now now' in
         let* d := deref df in
         let* counts := lift (calculate_counts d) in
         ret (CountsOk counts)).

End Configured.

End Api.

(** ** [netlify/functions/api.py]

    [_df_to_records], [_to_export_url], [fetch_excel], [filter_df] and
    [get_range] of this file are those of [app.py], line for line, and so are
    its date block and the field block of its two filtering routes (the one
    of [App.api_counts]); [calculate_counts] and the answers differ. *)

Module Netlify.
Import Pandas Runtime.
Local Open Scope py_scope.
Local Open Scope string_scope.
Local Open Scope Z_scope.

(** Values of the summary: a counter, the [success] flag that [api_counts]
    adds, or the nested [debug_info] dict with its [status_column_used] and
    [unique_values]. *)
Inductive PyVal :=
| VInt (n : Z)
| VBool (b : bool)
| VDebugInfo (status_column_used : option string) (unique_values : list Cell).

(** The status column: the first one called [opd&ipd] once stripped and
    lowered, else the first with [status] in its name. *)
Definition find_status_col (names : list string) : option string :=
  let status_col :=
    List.find (fun col => String.eqb (Py.lower (Py.strip col)) "opd&ipd") names in
  if negb (Py.truthy status_col)
  then List.find (fun col => Py.contains "status" (Py.lower (Py.strip col))) names
  else status_col.

Definition calculate_counts (df : DataFrame) : Outcome (gmap string PyVal) :=
  let status_col := find_status_col (columns df) in
  let found := if Py.truthy status_col then status_col ≫= fun c => col_index c df
               else None in
  let opd_count :=
    match found with
    | Some i => count_eq (cleaned df i) "opd completed"
    | None => 0
    end in
  let ipd_count :=
    match found with
    | Some i => count_eq (cleaned df i) "ipd completed"
    | None => 0
    end in
  Return
    (list_to_map
       [("opd_count", VInt opd_count);
        ("ipd_count", VInt ipd_count);
        ("total_records", VInt (len df));
        ("debug_info",
         VDebugInfo status_col
                    match found with
                    | Some i => dropna_unique (series df i)
                    | None => []
                    end)]).

Record FilterInfo := mkFilterInfo {
  fi_total_records : Z;
  fi_start_date : option string;
  fi_end_date : option string;
  fi_field_filter : option string
}.

Section Configured.

Variables EXCEL_URL API_KEY DATE_COLUMN_NAME : string.
Variable net : Net.
Variable parse_datetime : string -> option Z.
Variable strptime_ymd : string -> option Py.date.

Definition fetch_excel : Py.datetime -> M ref :=
  App.fetch_excel EXCEL_URL API_KEY DATE_COLUMN_NAME net parse_datetime.

Definition filter_df : ref -> option Py.date -> option Py.date -> M ref :=
  App.filter_df DATE_COLUMN_NAME parse_datetime.

Definition date_block : ref -> option Py.date * option Py.date -> M ref :=
  App.date_block DATE_COLUMN_NAME parse_datetime.

Definition field_block : ref -> option string -> option string -> M ref :=
  App.field_block_counts.

Definition api_data (now : Py.datetime)
    : World -> Response (gmap string PyVal) * World :=
  route (let* df := fetch_excel now in
         let* d := deref df in
         let data := App._df_to_records d in
         let* counts := lift (calculate_counts d) in
         ret (RowsOk counts data)).

Definition api_filter (now : Py.datetime) (today : Py.date) (args : Args)
    : World -> Response (gmap string PyVal * FilterInfo) * World :=
  route (let* df := fetch_excel now in
         let* out := copy df in
         match App.date_bounds strptime_ymd today args with
         | None => ret (BadRequest "Invalid date format. Use YYYY-MM-DD.")
         | Some b =>
             let* out := date_block out b in
             let* out := field_block out (arg_field args) (arg_q args) in
             let* o := deref out in
             let* counts := lift (calculate_counts o) in
             let info :=
               mkFilterInfo (len o)
                 (Py.strftime_ymd <$> fst b)
                 (Py.strftime_ymd <$> snd b)
                 (match arg_field args, arg_q args with
                  | Some f, Some q =>
                      if Py.truthy (Some f) && Py.truthy (Some q)
                      then Some (f +:+ ": " +:+ q) else None
                  | _, _ => None
                  end) in
             ret (RowsOk (counts, info) (App._df_to_records o))
         end).

Definition api_counts (now : Py.datetime) (today : Py.date) (args : Args)
    : World -> Response (gmap string PyVal) * World :=
  route (let* df := fetch_excel now in
         let* out := copy df in
         match App.date_bounds strptime_ymd today args with
         | None => ret (BadRequest "Invalid date format. Use YYYY-MM-DD.")
         | Some b =>
             let* out := date_block out b in
             let* out := field_block out (arg_field args) (arg_q args) in
             let* o := deref out in
             let* counts := lift (calculate_counts o) in
             let counts := <["success" := VBool true]> counts in
             ret (CountsOk counts)
         end).

End Configured.

End Netlify.

(** ** [app.py]: the route [/api/unique/<field_name>] *)

Module Unique.
Import Pandas Runtime.
Local Open Scope py_scope.
Local Open Scope string_scope.
Local Open Scope Z_scope.

(** Text order of [str]: by code point, the shorter of two strings first
    when it is a prefix of the other. *)
Definition str_le (a b : string) : Prop := String.leb a b = true.

#[global] Instance str_le_dec (a b : string) : Decision (str_le a b).
Proof. unfold str_le. apply _. Defined.

(** [sorted(values)] *)
Definition sorted (values : list string) : list string := merge_sort str_le values.

(** The answer: the list of values, or the 404 with its message. *)
Inductive Answer :=
| Values (unique_values : list string)
| NotFound (error : string).

(** The loop over [df.columns]: the first column whose lowered name
    contains the lowered name looked for, which is the alias target of
    [field_name] when it is one of [bd], [city], [hospital] and [state],
    and [field_name] lowered otherwise. *)
Definition preferred (columns : list string) (field_name : string) : option string :=
  let keyword := Py.lower field_name in
  let col_to_find := default keyword (Py.dict_get keyword App.known_map) in
  List.find (fun c => Py.contains (Py.lower col_to_find) (Py.lower c)) columns.

Section Configured.

Variables EXCEL_URL API_KEY DATE_COLUMN_NAME : string.
Variable net : Net.
Variable parse_datetime : string -> option Z.

(** [array.astype(str)] on the array that [unique()] returns; how a
    timestamp is printed there depends on the version of pandas. *)
Variable array_astype_str : list Cell -> list string.

(** The route has no [try]: what [fetch_excel] raises leaves the function. *)
Definition api_unique_values (now : Py.datetime) (field_name : string) : M Answer :=
  let* df := App.fetch_excel EXCEL_URL API_KEY DATE_COLUMN_NAME net parse_datetime now in
  let* d := deref df in
  match preferred (columns d) field_name with
  | Some p =>
      if Py.truthy (Some p) then
        match col_index p d with
        | Some i => ret (Values (sorted (array_astype_str (dropna_unique (series d i)))))
        | None => raise (KeyError p)
        end
      else ret (NotFound ("Column for '" +:+ field_name +:+ "' not found"))
  | None => ret (NotFound ("Column for '" +:+ field_name +:+ "' not found"))
  end.

End Configured.

End Unique.

(** ** Vocabulary of the specification *)

Module Spec.
Import Pandas Runtime.
Local Open Scope string_scope.
Local Open Scope Z_scope.

(** The number of rows whose cell in column [i], trimmed and case-folded,
    is exactly [label]. *)
Definition count_at (df : DataFrame) (i : nat) (label : string) : Z :=
  Z.of_nat (length (List.filter (fun r => String.eqb (clean (cell r i)) label) (rows df))).

(** The same for the column called [col]; zero when there is none. *)
Definition label_count (df : DataFrame) (col label : string) : Z :=
  match col_index col df with
  | Some i => count_at df i label
  | None => 0
  end.

(** The IPD counter of [app.py] and [api/index.py]: the rows labelled
    "ipd completed" in [OPD&IPD], and when there are none the rows labelled
    "completed" in [IPD Status]. *)
Definition ipd_count_of (df : DataFrame) : Z :=
  let n := label_count df "OPD&IPD" "ipd completed" in
  if n =? 0 then label_count df "IPD Status" "completed" else n.

(** The counter of [netlify/functions/api.py] for [label], read in the
    status column that [find_status_col] picks. *)
Definition status_count (df : DataFrame) (label : string) : Z :=
  match Netlify.find_status_col (columns df) with
  | Some c => label_count df c label
  | None => 0
  end.


(** A world with another heap. *)
Definition with_heap (w : World) (h : list DataFrame) : World :=
  mkWorld h (df_cache w) (last_fetched w) (requests w).

(** The rows of [d] whose cell in column [i] is a timestamp of a day in
    [[s, e]]. *)
Definition filtered (d : DataFrame) (i : nat) (s e : Py.date) : DataFrame :=
  {| header := header d;
     rows := List.filter (fun r => in_range s e (dt_date (cell r i))) (rows d) |}.

(** A cell of the date column read as a timestamp: itself in a datetime
    column, its coercion otherwise. *)
Definition as_datetime (parse : string -> option Z) (dt : Dtype) (c : Cell) : Cell :=
  match dt with
  | DDatetime => c
  | _ => to_datetime parse c
  end.

(** The calendar day of that cell, nothing when it is null or no date. *)
Definition cell_date (parse : string -> option Z) (dt : Dtype) (c : Cell) : option Py.date :=
  dt_date (as_datetime parse dt c).

(** The row is within the inclusive range [[s, e]] by its cell in column [i]. *)
Definition keeps (parse : string -> option Z) (dt : Dtype) (i : nat) (s e : Py.date)
    (r : list Cell) : bool :=
  in_range s e (cell_date parse dt (cell r i)).

(** The row as the filter hands it back: its date cell read as a timestamp. *)
Definition date_row (parse : string -> option Z) (dt : Dtype) (i : nat)
    (r : list Cell) : list Cell :=
  match dt with
  | DDatetime => r
  | _ => <[i := to_datetime parse (cell r i)]> r
  end.

(** The position of the column [Api.filter_df] takes as date column: the
    first whose lowered name contains "date". *)
Definition date_column_index (df : DataFrame) : option nat :=
  List.find (fun c => Py.contains "date" (Py.lower c)) (columns df)
  ≫= fun c => col_index c df.



(** What the serialiser of [app.py] makes of a cell in a column of dtype
    [dt]. *)
Definition render (dt : Dtype) (c : Cell) : Cell :=
  App.none_if_null
    match dt with
    | DDatetime => dt_strftime_ymd c
    | DObject => App.format_time c
    | _ => c
    end.

Definition render_row (h : list (string * Dtype)) (r : list Cell) : list (string * Cell) :=
  zip_with (fun hd c => (fst hd, render (snd hd) c)) h r.

(** The stages of the serialiser on one cell: dates of a datetime column
    are printed (the column becomes an object column), then times of an
    object column. *)
Definition date_cell (dt : Dtype) (c : Cell) : Cell :=
  match dt with DDatetime => dt_strftime_ymd c | _ => c end.

Definition date_dtype (dt : Dtype) : Dtype :=
  match dt with DDatetime => DObject | _ => dt end.

Definition time_cell (dt : Dtype) (c : Cell) : Cell :=
  match dt with DObject => App.format_time c | _ => c end.

(** One pass of a loop over the columns: column [i] of [o] gets dtype
    [hd] of its dtype and its cells pass through [g]. *)
Definition column_step (g : Dtype -> Cell -> Cell) (hd : Dtype -> Dtype)
    (o : DataFrame) (i : nat) : DataFrame :=
  assign_column i (hd (dtype o i)) (map (g (dtype o i)) (series o i)) o.

(** The table once the loop has passed the first [k] columns. *)
Definition columns_upto (k : nat) (g : Dtype -> Cell -> Cell) (hd : Dtype -> Dtype)
    (df : DataFrame) : DataFrame :=
  {| header := imap (fun j h => if (j <? k)%nat then (fst h, hd (snd h)) else h) (header df);
     rows := map (imap (fun j c => if (j <? k)%nat then g (dtype df j) c else c)) (rows df) |}.

(** The preset names that [get_range] knows. *)
Definition app_presets : list string :=
  ["today"; "yesterday"; "tomorrow"; "last7"; "last30"; "next7"; "next30";
   "thisweek"; "thismonth"; "thisyear"].

Definition api_presets : list string :=
  ["today"; "yesterday"; "last_7_days"; "last_30_days"; "this_month"; "this_year"].

(** The request with its date parameters removed. *)
Definition without_dates (a : Args) : Args :=
  mkArgs None None None (arg_field a) (arg_q a).



(** Modelled from the spec: the cells of a date-bearing column, by its
    dtype.  A datetime column holds timestamps and [NaT]; an object column
    bears dates as text, as timestamps or as missing values; a numeric
    column bears dates only when it holds no value at all, every cell
    [NaN], which is how a blank column of a workbook is read. *)
Definition reads_dates (dt : Dtype) (c : Cell) : bool :=
  match dt, c with
  | DDatetime, (CTimestamp _ | CNaT) => true
  | DObject, (CStr _ | CTimestamp _ | CNone | CNaN | CNaT) => true
  | (DInt64 | DFloat64), CNaN => true
  | _, _ => false
  end.

(** Modelled from the spec: a date-bearing column holds such cells only. *)
Definition date_bearing (df : DataFrame) (i : nat) : Prop :=
  Forall (fun r => reads_dates (dtype df i) (cell r i) = true) (rows df).

(** Modelled from the spec: the moment a cell of the date column stands
    for, in nanoseconds since the epoch.  A timestamp stands for itself, a
    text for what the column's reading of dates makes of it, if anything; a
    missing value stands for no moment. *)
Inductive moment (reading : string -> option Z) : Cell -> Z -> Prop :=
| moment_timestamp ns : moment reading (CTimestamp ns) ns
| moment_text s ns : reading s = Some ns -> moment reading (CStr s) ns.

(** Modelled from the spec: the date of the row, its cell in column [i]
    truncated to the day, lies within [[s, e]], both ends included. *)
Definition within (reading : string -> option Z) (i : nat) (s e : Py.date)
    (r : list Cell) : Prop :=
  exists ns, moment reading (cell r i) ns /\ s <= ns / ns_per_day <= e.

(** Modelled from the spec: [kept] holds exactly the rows of [rs] that
    satisfy [P], in their order and as often as they occur. *)
Inductive sieve (P : list Cell -> Prop) : list (list Cell) -> list (list Cell) -> Prop :=
| sieve_nil : sieve P [] []
| sieve_in r rs kept : P r -> sieve P rs kept -> sieve P (r :: rs) (r :: kept)
| sieve_out r rs kept : ~ P r -> sieve P rs kept -> sieve P (r :: rs) kept.

(** Modelled from the spec: [r'] is the row [r] with its date written as
    the timestamp it stands for. *)
Definition stamped (reading : string -> option Z) (i : nat) (r r' : list Cell) : Prop :=
  exists ns, moment reading (cell r i) ns /\ r' = <[i := CTimestamp ns]> r.

End Spec.

(** ** Labels, as the specification reads them *)

Module Labels.
Import Pandas.
Local Open Scope string_scope.
Local Open Scope Z_scope.

(** Modelled from the spec: "count rows whose case-folded, trimmed value
    equals each of a fixed set of recognized literal labels".  The blanks
    that trimming removes, by code point. *)
Definition blanks : list nat := [9; 10; 11; 12; 13; 28; 29; 30; 31; 32; 133; 160]%nat.

Definition blank (c : ascii) : Prop := In (nat_of_ascii c) blanks.

Fixpoint all_blank (s : string) : Prop :=
  match s with
  | EmptyString => True
  | String c r => blank c /\ all_blank r
  end.

(** Modelled from the spec: the capital letters, A to Z and U+00C0 to
    U+00DE but for U+00D7, and the small letter of a capital, 32 above. *)
Definition capital (c : ascii) : Prop :=
  let n := nat_of_ascii c in
  ((65 <= n /\ n <= 90) \/ (192 <= n /\ n <= 222 /\ n <> 215))%nat.

Definition small_of (c l : ascii) : Prop :=
  capital c /\ nat_of_ascii l = (nat_of_ascii c + 32)%nat.

(** Modelled from the spec: one letter, whatever the case. *)
Definition same_letter (c l : ascii) : Prop :=
  c = l \/ small_of c l \/ small_of l c.

Fixpoint same_text (s label : string) : Prop :=
  match s, label with
  | EmptyString, EmptyString => True
  | String c r, String l r' => same_letter c l /\ same_text r r'
  | _, _ => False
  end.

(** Modelled from the spec: [text] reads as [label] when it is the letters
    of [label], in any case, between blanks. *)
Definition reads_as (label text : string) : Prop :=
  exists a core b,
    text = a +:+ core +:+ b /\ all_blank a /\ all_blank b /\ same_text core label.

(** Modelled from the spec: a cell reads as [label] when it holds text that
    does; a number, a date or a missing value reads as no label. *)
Definition cell_reads_as (label : string) (c : Cell) : Prop :=
  exists text, c = CStr text /\ reads_as label text.

(** Modelled from the spec: [n] is the number of elements of [l] that
    satisfy [P]. *)
Inductive tally {A : Type} (P : A -> Prop) : list A -> Z -> Prop :=
| tally_nil : tally P [] 0
| tally_in x l n : P x -> tally P l n -> tally P (x :: l) (n + 1)
| tally_out x l n : ~ P x -> tally P l n -> tally P (x :: l) n.

(** Modelled from the spec: [n] rows of [df] read as [label] in the column
    at position [i], or in the column called [col], where a column that is
    not there has no such row. *)
Definition labelled_at (df : DataFrame) (i : nat) (label : string) (n : Z) : Prop :=
  tally (fun r => cell_reads_as label (cell r i)) (rows df) n.

Definition labelled (df : DataFrame) (col label : string) (n : Z) : Prop :=
  match col_index col df with
  | Some i => labelled_at df i label n
  | None => n = 0
  end.

(** A label as the code writes them: no capital, no blank at either end,
    and nothing a number, a date or a missing value is printed as. *)
Fixpoint no_capital (s : string) : Prop :=
  match s with
  | EmptyString => True
  | String c r => ~ capital c /\ no_capital r
  end.

Fixpoint ends_unblank (s : string) : Prop :=
  match s with
  | EmptyString => False
  | String c EmptyString => ~ blank c
  | String _ r => ends_unblank r
  end.

Definition starts_with_letter (s : string) : Prop :=
  match s with
  | String c _ => (97 <= nat_of_ascii c /\ nat_of_ascii c <= 122)%nat
  | EmptyString => False
  end.

Definition wordy (label : string) : Prop :=
  starts_with_letter label /\ ends_unblank label /\ no_capital label /\
  ~ In label ["none"; "nan"; "nat"; "true"; "false"].

(** A digit or the minus sign: the first character of the text that
    [str] gives for an integer, a timestamp or a time of day. *)
Definition figure (c : ascii) : Prop :=
  (48 <= nat_of_ascii c /\ nat_of_ascii c <= 57)%nat \/ nat_of_ascii c = 45%nat.

End Labels.

(** ** What a computation leaves in place *)

Module Invariants.
Import Pandas Runtime.
Local Open Scope string_scope.

(** [w'] keeps the globals and the request log of [w] and every table of
    [w] below [n]; tables may have been added. *)
Definition frame (n : nat) (w w' : World) : Prop :=
  df_cache w' = df_cache w /\ last_fetched w' = last_fetched w /\
  requests w' = requests w /\
  (length (heap w) <= length (heap w'))%nat /\
  forall l, (l < n)%nat -> table_at w' l = table_at w l.

(** The configured date column, when present, has dtype datetime. *)
Definition date_ready (DATE : string) (d : DataFrame) : Prop :=
  forall i, col_index DATE d = Some i -> dtype d i = DDatetime.

(** The cached table, when there is one, is date-ready. *)
Definition cache_ready (DATE : string) (w : World) : Prop :=
  forall d, fst (cache_entry w) = Some d -> date_ready DATE d.

(** [o'] has the columns of [o] and no more rows. *)
Definition narrows (o o' : DataFrame) : Prop :=
  columns o' = columns o /\ (length (rows o') <= length (rows o))%nat.

(** A refetch that fails: the request raises [e] (no answer, or an error
    status), or it is answered and the workbook parser raises [e]. *)
Definition refetch_fails (net : Net) (sent : nat) (r : Request) (e : Exn) : Prop :=
  http_get net sent r = Raise e \/
  exists content, http_get net sent r = Return content /\ read_excel net content = Raise e.

(** The request [fetch_excel] of [app.py] sends. *)
Definition app_request (EXCEL_URL API_KEY : string) : Request :=
  mkRequest (App._to_export_url EXCEL_URL)
            (if negb (String.eqb API_KEY "") && negb (String.eqb API_KEY "YOUR_API_KEY")
             then [("Authorization", "Bearer " +:+ API_KEY)] else []).

(** The request [fetch_excel] of [api/index.py] sends. *)
Definition api_request (sheet_url : string) : Request :=
  mkRequest (Api._to_export_url sheet_url) [].

(** The world once a request has been logged. *)
Definition with_request (w : World) (r : Request) : World :=
  mkWorld (heap w) (df_cache w) (last_fetched w) (requests w ++ [r])%list.

End Invariants.

(** ** Concrete tables, worlds and networks *)

Module Examples.
Import Pandas Runtime.
Local Open Scope string_scope.
Local Open Scope Z_scope.

(** Date parsers that know the dates of the scenarios. *)
Definition parse_iso (s : string) : option Z :=
  if String.eqb s "2024-01-15" then Some (timestamp 2024 1 15)
  else if String.eqb s "2024-02-01" then Some (timestamp 2024 2 1)
  else None.

Definition strptime (s : string) : option Py.date :=
  if String.eqb s "2024-01-01" then Some (Py.days_from_civil 2024 1 1)
  else if String.eqb s "2024-01-31" then Some (Py.days_from_civil 2024 1 31)
  else None.

Definition jan01 : Py.date := Py.days_from_civil 2024 1 1.
Definition jan31 : Py.date := Py.days_from_civil 2024 1 31.

(** The status column of the counting scenario. *)
Definition status_table : DataFrame :=
  mkDF [("OPD&IPD", DObject)]
       [[CStr "OPD Completed"]; [CStr "ipd completed"]; [CStr "Pending"];
        [CStr "OPD Completed"]].

(** No row is "ipd completed", one is "Completed" in [IPD Status]. *)
Definition fallback_table : DataFrame :=
  mkDF [("OPD&IPD", DObject); ("IPD Status", DObject)]
       [[CStr "Pending"; CStr "Completed"]].


(** Labels between blanks and in capitals: a no-break space and a tab
    are trimmed, a blank inside the label and a letter too many are not
    forgiven. *)
Definition spaced_table : DataFrame :=
  mkDF [("OPD&IPD", DObject)]
       [[CStr "  OPD Completed "];
        [CStr (String "160"%char "opd completed" +:+ String "009"%char "")];
        [CStr "IPD COMPLETED"];
        [CStr "opd  completed"];
        [CStr "OPD Completed."];
        [CInt 7]].

(** The date scenario: a datetime column [Date], and a [BD] column. *)
Definition dated_table : DataFrame :=
  mkDF [("Date", DDatetime); ("BD", DObject)]
       [[CTimestamp (timestamp 2024 1 15); CStr "Alice"];
        [CTimestamp (timestamp 2024 2 1); CStr "Bob"]].

(** The same dates as text, with one cell that is no date. *)
Definition text_dates : DataFrame :=
  mkDF [("Date", DObject)] [[CStr "2024-01-15"]; [CStr "2024-02-01"]; [CStr "n/a"]].

(** A [Date] column with no value at all, which pandas reads as floats. *)
Definition blank_dates : DataFrame := mkDF [("Date", DFloat64)] [[CNaN]].



Definition holding (df : DataFrame) : World := mkWorld [df] None None [].

(** A world whose cache was filled at time 0 with [dated_table]. *)
Definition cached : World := mkWorld [dated_table] (Some 0%nat) (Some 0) [].

(** A network that serves [status_table], one that is down, and one that
    serves what is no workbook. *)
Definition net_up : Net :=
  mkNet (fun _ _ => Return "xlsx") (fun _ => Return status_table).

Definition net_down : Net :=
  mkNet (fun _ _ => Raise (RequestException "connection refused"))
        (fun _ => Return status_table).

Definition net_garbled : Net :=
  mkNet (fun _ _ => Return "<html>") (fun _ => Raise (ExcelError "not a zip file")).

(** A network that serves the workbook whose [Date] column is blank. *)
Definition net_blank : Net :=
  mkNet (fun _ _ => Return "xlsx") (fun _ => Return blank_dates).

(** A world in which nothing was fetched yet. *)
Definition started : World := mkWorld [] None None [].

(** The request for the January of the scenarios. *)
Definition january : Args :=
  mkArgs (Some "custom") (Some "2024-01-01") (Some "2024-01-31") None None.

Definition sheet_url : string :=
  "https://docs.google.com/spreadsheets/d/1JJFy0SjFGoJuYPSjwg/edit?usp=sharing".

(** One day and ten seconds. *)
Definition day_and_ten_seconds : Py.timedelta := Py.td_of_seconds 86410.

Definition show_all_bd : Args := mkArgs None None None (Some "bd") (Some "all_bd").
Definition no_filter : Args := mkArgs None None None None None.
Definition bogus_preset : Args := mkArgs (Some "fortnight") None None None None.

End Examples.

(** * Properties *)

Import Pandas Runtime Spec Labels Invariants Examples.
Local Open Scope string_scope.
Local Open Scope Z_scope.

(** ** Lists, masks and columns *)

Lemma select_rows_map (p : list Cell -> bool) (rs : list (list Cell)) :
  select_rows rs (map p rs) = List.filter p rs.
Proof.
  induction rs as [|r rs IH]; simpl; [reflexivity|].
  destruct (p r); rewrite IH; reflexivity.
Qed.

Lemma filter_length_map {A B} (f : A -> B) (p : B -> bool) (l : list A) :
  length (List.filter p (map f l)) = length (List.filter (fun a => p (f a)) l).
Proof.
  induction l as [|a l IH]; simpl; [reflexivity|].
  destruct (p (f a)); simpl; rewrite IH; reflexivity.
Qed.

Lemma filter_map_commute {A B} (f : A -> B) (p : B -> bool) (l : list A) :
  List.filter p (map f l) = map f (List.filter (fun a => p (f a)) l).
Proof.
  induction l as [|a l IH]; simpl; [reflexivity|].
  destruct (p (f a)); simpl; rewrite IH; reflexivity.
Qed.

Lemma index_of_lookup name names i :
  index_of name names = Some i -> names !! i = Some name.
Proof.
  revert i. induction names as [|c cs IH]; intros i; simpl; [discriminate|].
  destruct (String.eqb c name) eqn:E.
  - intros [= <-]. apply String.eqb_eq in E. subst. reflexivity.
  - destruct (index_of name cs) as [j|]; simpl; [|discriminate].
    intros [= <-]. simpl. apply IH. reflexivity.
Qed.

Lemma col_index_lt name df i :
  col_index name df = Some i -> (i < length (header df))%nat.
Proof.
  intros H. apply index_of_lookup in H. apply lookup_lt_Some in H.
  unfold columns in H. rewrite length_map in H. exact H.
Qed.

Lemma dtype_assign_column i dt vals df :
  (i < length (header df))%nat -> dtype (assign_column i dt vals df) i = dt.
Proof.
  intros Hlt. unfold dtype, assign_column. simpl.
  destruct (lookup_lt_is_Some_2 (header df) i Hlt) as [h Hh].
  rewrite list_lookup_alter_eq, Hh. reflexivity.
Qed.

Lemma rows_assign_map i dt (f : Cell -> Cell) df :
  rows (assign_column i dt (map f (series df i)) df) =
  map (fun r => <[i := f (cell r i)]> r) (rows df).
Proof.
  unfold assign_column, series. simpl.
  induction (rows df) as [|r rs IH]; simpl; [reflexivity|]. rewrite IH. reflexivity.
Qed.

Lemma cell_insert_same (r : list Cell) i v :
  (i < length r)%nat -> cell (<[i := v]> r) i = v.
Proof. intros H. unfold cell. rewrite list_lookup_insert_eq by exact H. reflexivity. Qed.

Lemma cell_short (r : list Cell) i : (length r <= i)%nat -> cell r i = CNaN.
Proof. intros H. unfold cell. rewrite lookup_ge_None_2 by exact H. reflexivity. Qed.

Lemma cell_insert_short (r : list Cell) i v :
  (length r <= i)%nat -> cell (<[i := v]> r) i = CNaN.
Proof.
  intros H. rewrite list_insert_ge by exact H. apply cell_short. exact H.
Qed.

Lemma loc_mask_dates d i s e :
  loc_mask d (map (in_range s e) (map dt_date (series d i))) = filtered d i s e.
Proof.
  unfold loc_mask, filtered, series. f_equal. rewrite !map_map.
  apply (select_rows_map (fun r => in_range s e (dt_date (cell r i)))).
Qed.

(** ** Counting *)

Lemma count_eq_cleaned (df : DataFrame) (i : nat) (label : string) :
  count_eq (cleaned df i) label = count_at df i label.
Proof.
  unfold count_eq, count_at, cleaned, series. rewrite map_map, filter_length_map.
  f_equal. f_equal. apply List.filter_ext. intros r. apply String.eqb_sym.
Qed.

Lemma label_count_found df col label i :
  col_index col df = Some i -> count_eq (cleaned df i) label = label_count df col label.
Proof. intros H. unfold label_count. rewrite H. apply count_eq_cleaned. Qed.

Lemma label_count_absent df col label :
  col_index col df = None -> label_count df col label = 0.
Proof. intros H. unfold label_count. rewrite H. reflexivity. Qed.

Lemma label_count_nonneg df col label : 0 <= label_count df col label.
Proof. unfold label_count, count_at. destruct (col_index col df); lia. Qed.

(** Counting a label of the selection inside the selection is counting it
    in the whole table. *)
Lemma count_in_selection (df : DataFrame) (k : nat) (labels : list string) (label : string) :
  In label labels ->
  count_eq (cleaned (loc_mask df (map (isin labels) (cleaned df k))) k) label =
  count_eq (cleaned df k) label.
Proof.
  intros Hin. rewrite !count_eq_cleaned. unfold count_at, loc_mask, cleaned, series. simpl.
  rewrite !map_map.
  rewrite (select_rows_map (fun r => isin labels (clean (cell r k)))).
  f_equal.
  induction (rows df) as [|r rs IH]; simpl; [reflexivity|].
  destruct (String.eqb (clean (cell r k)) label) eqn:E.
  - apply String.eqb_eq in E.
    assert (isin labels (clean (cell r k)) = true) as ->.
    { unfold isin. apply existsb_exists. exists label. split; [assumption|].
      rewrite E. apply String.eqb_refl. }
    simpl. rewrite E, String.eqb_refl. simpl. f_equal. exact IH.
  - destruct (isin labels (clean (cell r k))); simpl; rewrite ?E; exact IH.
Qed.

Lemma list_to_map_cons_Z (k : string) (v : Z) (l : list (string * Z)) :
  (list_to_map ((k, v) :: l) : gmap string Z) = <[k := v]> (list_to_map l).
Proof. reflexivity. Qed.

Lemma list_to_map_nil_Z : (list_to_map [] : gmap string Z) = ∅.
Proof. reflexivity. Qed.

(** Lookups in a dict built by insertions under literal keys. *)
Ltac gmap_lookup :=
  rewrite ?list_to_map_cons_Z, ?list_to_map_nil_Z;
  repeat first
    [ rewrite lookup_insert_eq
    | rewrite lookup_insert_ne by (intro; discriminate)
    | rewrite lookup_empty ];
  try reflexivity.

Lemma lookup_total_insert_same (m : gmap string Z) k v : (<[k := v]> m) !!! k = v.
Proof. unfold lookup_total, map_lookup_total. rewrite lookup_insert_eq. reflexivity. Qed.

Lemma lookup_total_of_lookup (m : gmap string Z) k v : m !! k = Some v -> m !!! k = v.
Proof. intros H. unfold lookup_total, map_lookup_total. rewrite H. reflexivity. Qed.

(** What [App.calculate_counts] returns, key by key. *)
Lemma App_calculate_counts_spec (df : DataFrame) :
  exists c : gmap string Z,
    App.calculate_counts df = Return c /\
    c !! "opd_count" = Some (label_count df "OPD&IPD" "opd completed") /\
    c !! "ipd_count" = Some (ipd_count_of df) /\
    c !! "surgery_suggested" = Some (label_count df " Status" "surgery suggested") /\
    c !! "diagnostic_suggested" = Some (label_count df " Status" "diagnostic suggested") /\
    c !! "surgery_not_suggested" = Some (label_count df " Status" "surgery not suggested") /\
    c !! "total_records" = Some (len df).
Proof.
  unfold App.calculate_counts, ipd_count_of.
  eexists; split; [reflexivity|].
  pose proof (label_count_nonneg df "IPD Status" "completed") as Hnn.
  destruct (col_index "OPD&IPD" df) as [i|] eqn:Hi;
    destruct (col_index "IPD Status" df) as [j|] eqn:Hj;
    destruct (col_index " Status" df) as [k|] eqn:Hk;
    rewrite ?(count_in_selection df k) by (simpl; tauto);
    rewrite ?(label_count_found df _ _ _ Hi), ?(label_count_found df _ _ _ Hj),
            ?(label_count_found df _ _ _ Hk);
    rewrite ?(label_count_absent df _ _ Hi), ?(label_count_absent df _ _ Hj),
            ?(label_count_absent df _ _ Hk) in *.
  all: rewrite ?lookup_total_insert_same;
    rewrite ?(lookup_total_of_lookup _ "ipd_count" 0) by gmap_lookup.
  all: repeat match goal with
           | |- context [if ?b then _ else _] => destruct b eqn:?
           end.
  all: repeat split; gmap_lookup; try (f_equal; lia).
Qed.

(** What [Api.calculate_counts] returns: it raises exactly when the table
    has no column to take as status column. *)
Lemma Api_calculate_counts_spec (df : DataFrame) :
  match Api.calculate_counts df with
  | Return c =>
      columns df <> [] /\
      c !! "opd_count" = Some (label_count df "OPD&IPD" "opd completed") /\
      c !! "ipd_count" = Some (ipd_count_of df) /\
      c !! "surgery_suggested" = Some (count_at df 0 "surgery suggested") /\
      c !! "diagnostic_suggested" = Some (count_at df 0 "diagnostic suggested") /\
      c !! "total_records" = Some (len df)
  | Raise e => e = IndexError /\ columns df = []
  end.
Proof.
  unfold Api.calculate_counts, ipd_count_of.
  destruct (columns df) as [|c0 cs] eqn:Hc; [split; reflexivity|].
  split; [discriminate|].
  pose proof (label_count_nonneg df "IPD Status" "completed") as Hnn.
  rewrite !count_eq_cleaned.
  destruct (col_index "OPD&IPD" df) as [i|] eqn:Hi;
    destruct (col_index "IPD Status" df) as [j|] eqn:Hj;
    rewrite <- ?count_eq_cleaned;
    rewrite ?(label_count_found df _ _ _ Hi), ?(label_count_found df _ _ _ Hj) in *;
    rewrite ?(label_count_absent df _ _ Hi), ?(label_count_absent df _ _ Hj) in *;
    rewrite ?count_eq_cleaned;
    rewrite ?lookup_total_insert_same;
    rewrite ?(lookup_total_of_lookup _ "ipd_count" 0) by (simpl; gmap_lookup);
    repeat match goal with
           | |- context [if ?b then _ else _] => destruct b eqn:?
           end;
    simpl; gmap_lookup; repeat split; gmap_lookup; try (f_equal; lia).
Qed.

Lemma contains_status_nonempty (c : string) :
  Py.contains "status" (Py.lower (Py.strip c)) = true -> Py.truthy (Some c) = true.
Proof. destruct c; [discriminate | reflexivity]. Qed.

Lemma find_status_col_truthy (names : list string) (c : string) :
  Netlify.find_status_col names = Some c -> Py.truthy (Some c) = true.
Proof.
  unfold Netlify.find_status_col.
  destruct (Py.truthy (List.find _ names)) eqn:Ht; simpl.
  - intros H. rewrite H in Ht. exact Ht.
  - intros H. apply List.find_some in H. destruct H as [_ H].
    apply contains_status_nonempty. exact H.
Qed.

(** What [Netlify.calculate_counts] returns: it has no surgery or
    diagnostic counter. *)
Lemma Netlify_calculate_counts_spec (df : DataFrame) :
  exists c : gmap string Netlify.PyVal,
    Netlify.calculate_counts df = Return c /\
    c !! "opd_count" = Some (Netlify.VInt (status_count df "opd completed")) /\
    c !! "ipd_count" = Some (Netlify.VInt (status_count df "ipd completed")) /\
    c !! "total_records" = Some (Netlify.VInt (len df)) /\
    is_Some (c !! "debug_info") /\
    c !! "surgery_suggested" = None /\
    c !! "diagnostic_suggested" = None.
Proof.
  unfold Netlify.calculate_counts, status_count.
  eexists; split; [reflexivity|].
  destruct (Netlify.find_status_col (columns df)) as [c|] eqn:Hf.
  - rewrite (find_status_col_truthy _ _ Hf). simpl. unfold label_count.
    destruct (col_index c df) as [i|]; rewrite ?count_eq_cleaned;
      gmap_lookup; repeat split; gmap_lookup; eexists; gmap_lookup.
  - simpl. gmap_lookup; repeat split; gmap_lookup; eexists; gmap_lookup.
Qed.

(** C3.  For every table, the summary of [calculate_counts] has
    [total_records] equal to the number of rows of the table: in [app.py] and
    in [netlify/functions/api.py] for every table, and in [api/index.py]
    whenever a summary is returned (it raises only on a table without
    columns). *)
Theorem total_records_is_row_count (df : DataFrame) :
  (exists c, App.calculate_counts df = Return c /\
             c !! "total_records" = Some (Z.of_nat (length (rows df)))) /\
  (exists c, Netlify.calculate_counts df = Return c /\
             c !! "total_records" = Some (Netlify.VInt (Z.of_nat (length (rows df))))) /\
  match Api.calculate_counts df with
  | Return c => c !! "total_records" = Some (Z.of_nat (length (rows df)))
  | Raise _ => columns df = []
  end.
Proof.
  split; [|split].
  - destruct (App_calculate_counts_spec df) as (c & Hc & H). exists c. split; [exact Hc|].
    apply H.
  - destruct (Netlify_calculate_counts_spec df) as (c & Hc & H). exists c. split; [exact Hc|].
    apply H.
  - pose proof (Api_calculate_counts_spec df) as H.
    destruct (Api.calculate_counts df); apply H.
Qed.

(** ** Trimming and case folding *)

Lemma append_cons (c : ascii) (a s : string) : String c a +:+ s = String c (a +:+ s).
Proof. reflexivity. Qed.

Lemma blank_is_space (c : ascii) : blank c <-> Py.is_space c = true.
Proof.
  unfold blank, blanks, Py.is_space. cbv zeta.
  generalize (nat_of_ascii c). intros n. split.
  - intros H. cbn [In] in H.
    repeat (destruct H as [H|H]; [rewrite <- H; reflexivity|]). destruct H.
  - intros H. rewrite !orb_true_iff, !andb_true_iff, !Nat.leb_le, !Nat.eqb_eq in H.
    cbn [In]. lia.
Qed.

Lemma unblank_is_space (c : ascii) : ~ blank c -> Py.is_space c = false.
Proof.
  intros H. destruct (Py.is_space c) eqn:E; [|reflexivity].
  exfalso. apply H. apply blank_is_space. exact E.
Qed.

Lemma capital_dec (c : ascii) : capital c \/ ~ capital c.
Proof. unfold capital. cbv zeta. lia. Qed.

Lemma lower_capital (c : ascii) :
  capital c -> Py.lower_ascii c = ascii_of_nat (nat_of_ascii c + 32).
Proof.
  unfold capital, Py.lower_ascii. cbv zeta. intros H.
  match goal with |- (if ?b then _ else _) = _ => assert (b = true) as -> end;
    [|reflexivity].
  rewrite orb_true_iff, !andb_true_iff, !Nat.leb_le, negb_true_iff, Nat.eqb_neq. lia.
Qed.

Lemma lower_not_capital (c : ascii) : ~ capital c -> Py.lower_ascii c = c.
Proof.
  unfold capital, Py.lower_ascii. cbv zeta. intros H.
  match goal with |- (if ?b then _ else _) = _ => assert (b = false) as -> end;
    [|reflexivity].
  rewrite orb_false_iff, !andb_false_iff, !Nat.leb_gt, negb_false_iff, Nat.eqb_eq. lia.
Qed.

Lemma capital_small (c : ascii) : capital c -> small_of c (Py.lower_ascii c).
Proof.
  intros H. split; [exact H|]. rewrite (lower_capital c H).
  apply nat_ascii_embedding. unfold capital in H. cbv zeta in H. lia.
Qed.

Lemma same_letter_lower (c : ascii) : same_letter c (Py.lower_ascii c).
Proof.
  destruct (capital_dec c) as [H|H].
  - right. left. apply capital_small. exact H.
  - left. symmetry. apply lower_not_capital. exact H.
Qed.

Lemma lower_same_letter (c l : ascii) :
  same_letter c l -> ~ capital l -> Py.lower_ascii c = l.
Proof.
  intros [->|[[Hc Hn]|[Hl _]]] Hno.
  - apply lower_not_capital. exact Hno.
  - rewrite (lower_capital c Hc), <- Hn. apply ascii_nat_embedding.
  - contradiction.
Qed.

Lemma same_text_lower (s : string) : same_text s (Py.lower s).
Proof.
  induction s as [|c s IH]; simpl; [exact I|]. split; [apply same_letter_lower | exact IH].
Qed.

Lemma lower_same_text (s label : string) :
  same_text s label -> no_capital label -> Py.lower s = label.
Proof.
  revert label. induction s as [|c s IH]; intros [|l label]; simpl; try tauto.
  intros [Hc Hs] [Hl Hno]. rewrite (lower_same_letter c l Hc Hl), (IH label Hs Hno).
  reflexivity.
Qed.

Lemma capital_unblank (c : ascii) : capital c -> ~ blank c.
Proof. unfold capital, blank, blanks. cbv zeta. cbn [In]. lia. Qed.

Lemma same_letter_unblank (c l : ascii) :
  same_letter c l -> ~ capital l -> ~ blank l -> ~ blank c.
Proof.
  intros [->|[[Hc _]|[Hl _]]] Hno Hb.
  - exact Hb.
  - apply capital_unblank. exact Hc.
  - contradiction.
Qed.

Lemma lstrip_blank (a s : string) : all_blank a -> Py.lstrip (a +:+ s) = Py.lstrip s.
Proof.
  induction a as [|c a IH]; [reflexivity|]. intros [Hc Ha].
  rewrite append_cons. cbn [Py.lstrip].
  rewrite (proj1 (blank_is_space c) Hc). exact (IH Ha).
Qed.

Lemma lstrip_unblank (c : ascii) (r : string) :
  ~ blank c -> Py.lstrip (String c r) = String c r.
Proof. intros H. cbn [Py.lstrip]. rewrite (unblank_is_space c H). reflexivity. Qed.

Lemma rstrip_all_blank (b : string) : all_blank b -> Py.rstrip b = "".
Proof.
  induction b as [|c b IH]; [reflexivity|]. intros [Hc Hb].
  cbn [Py.rstrip]. rewrite (IH Hb), (proj1 (blank_is_space c) Hc). reflexivity.
Qed.

Lemma rstrip_blank (s b : string) : all_blank b -> Py.rstrip (s +:+ b) = Py.rstrip s.
Proof.
  intros Hb. induction s as [|c s IH].
  - apply rstrip_all_blank. exact Hb.
  - rewrite append_cons. cbn [Py.rstrip]. rewrite IH. reflexivity.
Qed.

Lemma rstrip_ends_unblank (s : string) : ends_unblank s -> Py.rstrip s = s.
Proof.
  induction s as [|c s IH]; [intros []|].
  destruct s as [|c' s'].
  - intros H. cbn [Py.rstrip]. rewrite (unblank_is_space c H). reflexivity.
  - intros H. change (ends_unblank (String c' s')) in H.
    cbn [Py.rstrip] in *. rewrite (IH H). reflexivity.
Qed.

Lemma lstrip_decompose (s : string) :
  exists a, s = a +:+ Py.lstrip s /\ all_blank a.
Proof.
  induction s as [|c s (a & Ha & Hb)].
  - exists "". split; [reflexivity | exact I].
  - cbn [Py.lstrip]. destruct (Py.is_space c) eqn:E.
    + exists (String c a). rewrite append_cons, <- Ha. split; [reflexivity|].
      split; [apply blank_is_space; exact E | exact Hb].
    + exists "". split; [reflexivity | exact I].
Qed.

Lemma rstrip_decompose (s : string) :
  exists b, s = Py.rstrip s +:+ b /\ all_blank b.
Proof.
  induction s as [|c s (b & Hs & Hb)].
  - exists "". split; [reflexivity | exact I].
  - cbn [Py.rstrip]. destruct (Py.rstrip s) as [|c' r'].
    + destruct (Py.is_space c) eqn:E.
      * exists (String c b). change ("" +:+ b) with b in Hs. rewrite Hs.
        split; [reflexivity|]. split; [apply blank_is_space; exact E | exact Hb].
      * exists b. change ("" +:+ b) with b in Hs. rewrite append_cons. rewrite Hs at 1.
        split; [reflexivity | exact Hb].
    + exists b. rewrite append_cons, <- Hs. split; [reflexivity | exact Hb].
Qed.

Lemma strip_decompose (s : string) :
  exists a b, s = a +:+ Py.strip s +:+ b /\ all_blank a /\ all_blank b.
Proof.
  destruct (lstrip_decompose s) as (a & Ha & Hab).
  destruct (rstrip_decompose (Py.lstrip s)) as (b & Hb & Hbb).
  exists a, b. unfold Py.strip. rewrite <- Hb, <- Ha. auto.
Qed.

Lemma same_text_ends (s label : string) :
  same_text s label -> no_capital label -> ends_unblank label -> ends_unblank s.
Proof.
  revert label. induction s as [|c s IH]; intros [|l label]; try (simpl; tauto).
  intros [Hc Hs] [Hl Hno]. destruct label as [|l' label'].
  - destruct s; [|destruct Hs]. cbn [ends_unblank].
    apply same_letter_unblank; assumption.
  - destruct s as [|c' s']; [destruct Hs|].
    intros H. change (ends_unblank (String l' label')) in H.
    change (ends_unblank (String c' s')). exact (IH _ Hs Hno H).
Qed.

Lemma same_text_starts (s label : string) :
  same_text s label -> starts_with_letter label ->
  exists c r, s = String c r /\ ~ blank c.
Proof.
  destruct s as [|c r], label as [|l label]; simpl; try tauto.
  intros [Hc _] Hl. exists c, r. split; [reflexivity|].
  destruct Hc as [->|[[Hc _]|[Hcap _]]].
  - unfold blank, blanks. cbn [In]. lia.
  - apply capital_unblank. exact Hc.
  - unfold capital in Hcap. cbv zeta in Hcap. lia.
Qed.

(** The code reads a text as [label] exactly when the text is the letters
    of the label, in any case, between blanks. *)
Lemma clean_text_reads_as (label text : string) :
  wordy label -> (Py.lower (Py.strip text) = label <-> reads_as label text).
Proof.
  intros (Hstart & Hend & Hno & _). split.
  - intros H. destruct (strip_decompose text) as (a & b & Ht & Ha & Hb).
    exists a, (Py.strip text), b. split; [exact Ht|]. split; [exact Ha|].
    split; [exact Hb|]. rewrite <- H. apply same_text_lower.
  - intros (a & core & b & -> & Ha & Hb & Hs).
    destruct (same_text_starts _ _ Hs Hstart) as (c & r & Hcore & Hc).
    assert (Py.strip (a +:+ core +:+ b) = core) as ->.
    { unfold Py.strip. rewrite (lstrip_blank a _ Ha).
      rewrite Hcore, append_cons, (lstrip_unblank c _ Hc), <- append_cons, <- Hcore.
      rewrite (rstrip_blank core b Hb).
      apply rstrip_ends_unblank. exact (same_text_ends _ _ Hs Hno Hend). }
    apply lower_same_text; assumption.
Qed.

(** *** What is no text is no label *)

Lemma strip_head (c : ascii) (r : string) :
  ~ blank c -> exists r', Py.strip (String c r) = String c r'.
Proof.
  intros H. unfold Py.strip. rewrite (lstrip_unblank c r H). cbn [Py.rstrip].
  destruct (Py.rstrip r); [|eexists; reflexivity].
  rewrite (unblank_is_space c H). eexists; reflexivity.
Qed.

Lemma figure_heads_no_label (label s : string) (c : ascii) (r : string) :
  s = String c r -> figure c -> starts_with_letter label ->
  Py.lower (Py.strip s) <> label.
Proof.
  intros -> Hc Hl.
  assert (~ blank c) as Hb by (unfold figure, blank, blanks in *; cbn [In]; lia).
  assert (~ capital c) as Hcap by (unfold figure, capital in *; cbv zeta; lia).
  destruct (strip_head c r Hb) as [r' ->]. cbn [Py.lower].
  rewrite (lower_not_capital c Hcap).
  destruct label as [|l label]; [discriminate|].
  intros [= -> _]. unfold figure, starts_with_letter in *. lia.
Qed.

Lemma digit_figure (n : Z) : figure (Py.digit n).
Proof.
  unfold Py.digit, figure. left.
  assert (0 <= n mod 10 < 10) as H by (apply Z.mod_pos_bound; lia).
  rewrite nat_ascii_embedding by lia. lia.
Qed.

Lemma str_int_head (n : Z) :
  exists c r, Py.str_int n = String c r /\ figure c.
Proof.
  unfold Py.str_int, NilZero.string_of_int, Z.to_int.
  destruct n as [|p|p].
  - eexists _, _. split; [reflexivity|]. left. vm_compute. lia.
  - unfold NilZero.string_of_uint.
    destruct (Pos.to_uint p); eexists _, _; (split; [reflexivity|]);
      left; vm_compute; lia.
  - eexists _, _. split; [reflexivity|]. right. reflexivity.
Qed.

Lemma pad2_head (n : Z) : exists r, Py.pad2 n = String (Py.digit (n / 10)) r.
Proof. eexists. reflexivity. Qed.

Lemma timestamp_head (ns : Z) :
  exists c r, astype_str (CTimestamp ns) = String c r /\ figure c.
Proof.
  eexists _, _. split; [|apply (digit_figure (Py.year (ts_date ns) / 1000))].
  reflexivity.
Qed.

Lemma time_head (h m s : Z) :
  exists c r, astype_str (CTime h m s) = String c r /\ figure c.
Proof.
  eexists _, _. split; [|apply (digit_figure (h / 10))]. reflexivity.
Qed.

(** The code reads a cell as [label] exactly when the cell holds text that
    is the label between blanks, in any case. *)
Lemma clean_cell_reads_as (label : string) (c : Cell) :
  wordy label -> (clean c = label <-> cell_reads_as label c).
Proof.
  intros Hw. pose proof Hw as (Hstart & _ & _ & Hnot).
  unfold clean. destruct c as [| | |s|n|b|ns|h m s].
  - split; [intros <-; exfalso; apply Hnot; vm_compute; tauto|].
    intros (text & [=] & _).
  - split; [intros <-; exfalso; apply Hnot; vm_compute; tauto|].
    intros (text & [=] & _).
  - split; [intros <-; exfalso; apply Hnot; vm_compute; tauto|].
    intros (text & [=] & _).
  - cbn [astype_str]. rewrite (clean_text_reads_as label s Hw). split.
    + intros H. exists s. split; [reflexivity | exact H].
    + intros (text & [= <-] & H). exact H.
  - split; [|intros (text & [=] & _)].
    destruct (str_int_head n) as (c & r & E & Hc). intros H. exfalso.
    exact (figure_heads_no_label label _ c r E Hc Hstart H).
  - split; [|intros (text & [=] & _)].
    destruct b; intros <-; exfalso; apply Hnot; vm_compute; tauto.
  - split; [|intros (text & [=] & _)].
    destruct (timestamp_head ns) as (c & r & E & Hc). intros H. exfalso.
    exact (figure_heads_no_label label _ c r E Hc Hstart H).
  - split; [|intros (text & [=] & _)].
    destruct (time_head h m s) as (c & r & E & Hc). intros H. exfalso.
    exact (figure_heads_no_label label _ c r E Hc Hstart H).
Qed.

(** *** Counting *)

Lemma tally_filter {A} (P : A -> Prop) (p : A -> bool) (l : list A) :
  (forall x, p x = true <-> P x) ->
  tally P l (Z.of_nat (length (List.filter p l))).
Proof.
  intros H. induction l as [|x l IH]; simpl; [constructor|].
  destruct (p x) eqn:E.
  - cbn [length]. rewrite Nat2Z.inj_succ. unfold Z.succ.
    apply tally_in; [apply H; exact E | exact IH].
  - apply tally_out; [|exact IH]. intros HP. apply H in HP. congruence.
Qed.

Lemma tally_unique {A} (P : A -> Prop) (l : list A) (n m : Z) :
  tally P l n -> tally P l m -> n = m.
Proof.
  intros Hn. revert m. induction Hn; intros m Hm; inversion Hm; subst;
    try reflexivity; try contradiction.
  - f_equal. auto.
  - auto.
Qed.

Lemma labelled_at_count (df : DataFrame) (i : nat) (label : string) :
  wordy label -> labelled_at df i label (count_at df i label).
Proof.
  intros Hw. unfold labelled_at, count_at. apply tally_filter. intros r.
  rewrite String.eqb_eq. apply clean_cell_reads_as. exact Hw.
Qed.

Lemma labelled_count (df : DataFrame) (col label : string) :
  wordy label -> labelled df col label (label_count df col label).
Proof.
  intros Hw. unfold labelled, label_count.
  destruct (col_index col df); [apply labelled_at_count; exact Hw | reflexivity].
Qed.

Ltac wordy_label :=
  unfold wordy, capital, blank, blanks; cbv zeta;
  cbn [starts_with_letter ends_unblank no_capital In nat_of_ascii];
  repeat split; try (vm_compute; lia);
  try (vm_compute; intros H; intuition discriminate).

Lemma wordy_labels :
  Forall wordy ["opd completed"; "ipd completed"; "completed"; "surgery suggested";
                "diagnostic suggested"; "surgery not suggested"].
Proof. repeat apply List.Forall_cons; try apply List.Forall_nil; wordy_label. Qed.

Lemma wordy_label_in (label : string) :
  In label ["opd completed"; "ipd completed"; "completed"; "surgery suggested";
            "diagnostic suggested"; "surgery not suggested"] -> wordy label.
Proof. intros H. exact (proj1 (List.Forall_forall _ _) wordy_labels label H). Qed.

Lemma labelled_ipd (df : DataFrame) :
  exists n, labelled df "OPD&IPD" "ipd completed" n /\
            if n =? 0 then labelled df "IPD Status" "completed" (ipd_count_of df)
            else ipd_count_of df = n.
Proof.
  exists (label_count df "OPD&IPD" "ipd completed").
  split; [apply labelled_count, wordy_label_in; simpl; tauto|].
  unfold ipd_count_of.
  destruct (label_count df "OPD&IPD" "ipd completed" =? 0); [|reflexivity].
  apply labelled_count, wordy_label_in; simpl; tauto.
Qed.

(** C2, as the code has it.  On the table whose column [OPD&IPD] holds
    "OPD Completed", "ipd completed", "Pending", "OPD Completed",
    [calculate_counts] of [app.py] and of [api/index.py] return
    [opd_count = 2], [ipd_count = 1] and [total_records = 4]; blanks around a
    label (a tab, a no-break space) and capitals in it do not matter, a
    blank or a letter too many inside it does.  In general a counter is the
    number of rows whose cell holds text that reads as the counter's label,
    that is the letters of the label, in any case, between blanks:
    [opd_count] for "opd completed" in [OPD&IPD], the surgery and diagnostic
    counters for their labels in [ Status] ([app.py]) or in the first column
    ([api/index.py]).  [ipd_count] is that number for "ipd completed" in
    [OPD&IPD] unless it is zero: then it is the number of rows that read
    "completed" in [IPD Status]. *)
Theorem counters_count_exact_labels :
  (exists c, App.calculate_counts status_table = Return c /\
             c !! "opd_count" = Some 2 /\ c !! "ipd_count" = Some 1 /\
             c !! "total_records" = Some 4) /\
  (exists c, Api.calculate_counts status_table = Return c /\
             c !! "opd_count" = Some 2 /\ c !! "ipd_count" = Some 1 /\
             c !! "total_records" = Some 4) /\
  (exists c, App.calculate_counts spaced_table = Return c /\
             c !! "opd_count" = Some 2 /\ c !! "ipd_count" = Some 1 /\
             c !! "total_records" = Some 6) /\
  (exists c, Api.calculate_counts spaced_table = Return c /\
             c !! "opd_count" = Some 2 /\ c !! "ipd_count" = Some 1 /\
             c !! "total_records" = Some 6) /\
  (forall df, exists c opd ipd sur dia nsu,
      App.calculate_counts df = Return c /\
      c !! "opd_count" = Some opd /\ c !! "ipd_count" = Some ipd /\
      c !! "surgery_suggested" = Some sur /\ c !! "diagnostic_suggested" = Some dia /\
      c !! "surgery_not_suggested" = Some nsu /\
      labelled df "OPD&IPD" "opd completed" opd /\
      (exists n, labelled df "OPD&IPD" "ipd completed" n /\
                 if n =? 0 then labelled df "IPD Status" "completed" ipd else ipd = n) /\
      labelled df " Status" "surgery suggested" sur /\
      labelled df " Status" "diagnostic suggested" dia /\
      labelled df " Status" "surgery not suggested" nsu) /\
  (forall df,
      match Api.calculate_counts df with
      | Return c =>
          exists opd ipd sur dia,
            c !! "opd_count" = Some opd /\ c !! "ipd_count" = Some ipd /\
            c !! "surgery_suggested" = Some sur /\
            c !! "diagnostic_suggested" = Some dia /\
            labelled df "OPD&IPD" "opd completed" opd /\
            (exists n, labelled df "OPD&IPD" "ipd completed" n /\
                       if n =? 0 then labelled df "IPD Status" "completed" ipd
                       else ipd = n) /\
            labelled_at df 0 "surgery suggested" sur /\
            labelled_at df 0 "diagnostic suggested" dia
      | Raise e => e = IndexError /\ columns df = []
      end).
Proof.
  split; [|split; [|split; [|split; [|split]]]].
  - eexists. split; [reflexivity|]. repeat split; vm_compute; reflexivity.
  - eexists. split; [reflexivity|]. repeat split; vm_compute; reflexivity.
  - eexists. split; [reflexivity|]. repeat split; vm_compute; reflexivity.
  - eexists. split; [reflexivity|]. repeat split; vm_compute; reflexivity.
  - intros df.
    destruct (App_calculate_counts_spec df) as (c & Hc & H1 & H2 & H3 & H4 & H5 & _).
    exists c. eexists _, _, _, _, _. split; [exact Hc|].
    do 5 (split; [eassumption|]).
    split; [apply labelled_count, wordy_label_in; simpl; tauto|].
    split; [apply labelled_ipd|].
    repeat split; apply labelled_count, wordy_label_in; simpl; tauto.
  - intros df. pose proof (Api_calculate_counts_spec df) as H.
    destruct (Api.calculate_counts df) as [c|e]; [|exact H].
    destruct H as (_ & H1 & H2 & H3 & H4 & _).
    eexists _, _, _, _. do 4 (split; [eassumption|]).
    split; [apply labelled_count, wordy_label_in; simpl; tauto|].
    split; [apply labelled_ipd|].
    split; apply labelled_at_count, wordy_label_in; simpl; tauto.
Qed.

(** C2 fails as stated for [ipd_count]: no row of [fallback_table] reads
    "ipd completed", and [calculate_counts] of [app.py] and of
    [api/index.py] return [ipd_count = 1], the row that reads "Completed" in
    [IPD Status]. *)
Lemma ipd_count_counts_another_label :
  labelled fallback_table "OPD&IPD" "ipd completed" 0 /\
  (forall n, labelled fallback_table "OPD&IPD" "ipd completed" n -> n = 0) /\
  (exists c, App.calculate_counts fallback_table = Return c /\
             c !! "ipd_count" = Some 1) /\
  (exists c, Api.calculate_counts fallback_table = Return c /\
             c !! "ipd_count" = Some 1).
Proof.
  assert (labelled fallback_table "OPD&IPD" "ipd completed" 0) as H.
  { replace 0 with (label_count fallback_table "OPD&IPD" "ipd completed")
      by (vm_compute; reflexivity).
    apply labelled_count, wordy_label_in; simpl; tauto. }
  split; [exact H|]. split.
  - intros n Hn. unfold labelled in *. simpl in *.
    exact (tally_unique _ _ _ _ Hn H).
  - split; eexists; (split; [reflexivity | vm_compute; reflexivity]).
Qed.





(** ** [filter_df] *)

(** [App.filter_df] step by step: a table whose date column has dtype object
    is coerced in place and then filtered; one of dtype datetime is
    filtered; on any other dtype [.dt] raises and the guard hands the
    argument back. *)
Lemma App_filter_df_run (DATE : string) (parse : string -> option Z) w l df s e :
  table_at w l = Some df ->
  App.filter_df DATE parse l s e w =
  match col_index DATE df, s, e with
  | Some i, Some s', Some e' =>
      match dtype df i with
      | DObject =>
          let d1 := coerce_column parse i df in
          (Return (length (heap w)),
           with_heap w (<[l := d1]> (heap w) ++ [filtered d1 i s' e']))
      | DDatetime =>
          (Return (length (heap w)), with_heap w (heap w ++ [filtered df i s' e']))
      | _ => (Return l, w)
      end
  | _, _, _ => (Return l, w)
  end.
Proof.
  unfold table_at. intros Hl.
  unfold App.filter_df, bind, deref. rewrite Hl.
  destruct (col_index DATE df) as [i|] eqn:Hi; [|reflexivity].
  destruct s as [s'|]; [|reflexivity]. destruct e as [e'|]; [|reflexivity].
  pose proof (col_index_lt _ _ _ Hi) as Hlt.
  pose proof (lookup_lt_Some _ _ _ Hl) as Hll.
  unfold catch, bind, ret, update, deref, dt_dates, new_object, raise.
  destruct (dtype df i) eqn:Hdt; simpl; rewrite ?Hl, ?Hdt; simpl; try reflexivity.
  - rewrite list_lookup_insert_eq by exact Hll.
    unfold coerce_column at 1. rewrite dtype_assign_column by exact Hlt. simpl.
    rewrite loc_mask_dates. rewrite length_insert. reflexivity.
  - rewrite loc_mask_dates. reflexivity.
Qed.

Lemma index_of_In name names : In name names -> is_Some (index_of name names).
Proof.
  induction names as [|c cs IH]; simpl; [tauto|].
  intros [->|H].
  - rewrite String.eqb_refl. eexists; reflexivity.
  - destruct (String.eqb c name); [eexists; reflexivity|].
    destruct (IH H) as [j ->]. eexists; reflexivity.
Qed.

Lemma date_column_found df c :
  List.find (fun c => Py.contains "date" (Py.lower c)) (columns df) = Some c ->
  Py.truthy (Some c) = true /\ exists i, col_index c df = Some i /\ date_column_index df = Some i.
Proof.
  intros H. pose proof (List.find_some _ _ H) as [Hin Hc].
  split.
  - destruct c; [discriminate Hc | reflexivity].
  - destruct (index_of_In _ _ Hin) as [i Hi]. exists i. split; [exact Hi|].
    unfold date_column_index. rewrite H. exact Hi.
Qed.

(** [Api.filter_df] step by step: the date column is always coerced in
    place, whatever its dtype. *)
Lemma Api_filter_df_run (parse : string -> option Z) w l df s e :
  table_at w l = Some df ->
  Api.filter_df parse l s e w =
  match date_column_index df, s, e with
  | Some i, Some s', Some e' =>
      let d1 := coerce_column parse i df in
      (Return (length (heap w)),
       with_heap w (<[l := d1]> (heap w) ++ [filtered d1 i s' e']))
  | _, _, _ => (Return l, w)
  end.
Proof.
  unfold table_at. intros Hl.
  unfold Api.filter_df.
  destruct s as [s'|]; [|destruct (date_column_index df); reflexivity].
  destruct e as [e'|]; [|destruct (date_column_index df); reflexivity].
  unfold bind at 1, deref at 1. rewrite Hl.
  destruct (List.find _ (columns df)) as [c|] eqn:Hf.
  - destruct (date_column_found df c Hf) as (Ht & i & Hi & Hd).
    rewrite Ht, Hi, Hd.
    pose proof (col_index_lt _ _ _ Hi) as Hlt.
    pose proof (lookup_lt_Some _ _ _ Hl) as Hll.
    unfold catch, bind, ret, update, deref, dt_dates, new_object. simpl.
    rewrite list_lookup_insert_eq by exact Hll.
    unfold coerce_column at 1. rewrite dtype_assign_column by exact Hlt. simpl.
    rewrite loc_mask_dates, length_insert. reflexivity.
  - unfold date_column_index. rewrite Hf. reflexivity.
Qed.

Section DateFilter.
Variable parse : string -> option Z.

Lemma dt_date_coerced_cell (r : list Cell) (i : nat) :
  dt_date (cell (<[i := to_datetime parse (cell r i)]> r) i) =
  dt_date (to_datetime parse (cell r i)).
Proof.
  destruct (Nat.lt_ge_cases i (length r)) as [H|H].
  - rewrite cell_insert_same by exact H. reflexivity.
  - rewrite cell_insert_short, cell_short by exact H. reflexivity.
Qed.

Lemma rows_filtered_coerced df i s e :
  rows (filtered (coerce_column parse i df) i s e) =
  map (date_row parse DObject i) (List.filter (keeps parse DObject i s e) (rows df)).
Proof.
  unfold filtered. cbn [rows]. unfold coerce_column. rewrite rows_assign_map.
  rewrite filter_map_commute. unfold date_row. f_equal.
  apply List.filter_ext. intros r. unfold keeps, cell_date, as_datetime.
  rewrite dt_date_coerced_cell. reflexivity.
Qed.

Lemma rows_filtered_datetime df i s e :
  rows (filtered df i s e) =
  map (date_row parse DDatetime i) (List.filter (keeps parse DDatetime i s e) (rows df)).
Proof.
  unfold filtered, date_row. simpl. rewrite map_id. reflexivity.
Qed.

(** A row is kept exactly when its date cell, read as a timestamp, is a
    timestamp whose day, the time of day dropped, lies in [[s, e]]. *)
Lemma keeps_iff dt i s e (r : list Cell) :
  keeps parse dt i s e r = true <->
  exists ns, as_datetime parse dt (cell r i) = CTimestamp ns /\
             s <= ns / ns_per_day <= e.
Proof.
  unfold keeps, cell_date, dt_date, in_range, ts_date.
  destruct (as_datetime parse dt (cell r i)); split;
    try discriminate; try (intros (ns & [=] & _); fail).
  - intros H. apply andb_true_iff in H. destruct H as [H1 H2].
    exists ns. split; [reflexivity|]. lia.
  - intros (ns' & [= <-] & H). apply andb_true_iff. split; lia.
Qed.

Lemma null_date_not_kept dt i s e (r : list Cell) :
  isna (cell r i) = true -> keeps parse dt i s e r = false.
Proof.
  unfold keeps, cell_date, as_datetime.
  destruct (cell r i); try discriminate; intros _; destruct dt; reflexivity.
Qed.
End DateFilter.

Lemma columns_assign_column i dt vals df :
  columns (assign_column i dt vals df) = columns df.
Proof.
  unfold columns, assign_column. simpl. apply list_eq. intros j.
  rewrite !list_lookup_fmap, list_lookup_alter.
  case_decide; [subst|reflexivity].
  destruct (header df !! j); reflexivity.
Qed.

Lemma lookup_new_object (h : list DataFrame) (d : DataFrame) :
  (h ++ [d])%list !! length h = Some d.
Proof. apply list_lookup_middle. reflexivity. Qed.

(** *** The table [fetch_excel] hands on *)

Lemma App_fetch_excel_fresh EXCEL_URL API_KEY DATE net parse now w c :
  App.cache_fresh now w = Some c ->
  App.fetch_excel EXCEL_URL API_KEY DATE net parse now w = (Return c, w).
Proof. intros H. unfold App.fetch_excel, bind, get_world. rewrite H. reflexivity. Qed.

Lemma coerce_column_date_ready DATE parse (d : DataFrame) (i : nat) :
  col_index DATE d = Some i -> date_ready DATE (coerce_column parse i d).
Proof.
  intros Hi j Hj. unfold col_index, coerce_column in Hj.
  rewrite columns_assign_column in Hj. unfold col_index in Hi.
  rewrite Hi in Hj. injection Hj as <-.
  unfold coerce_column. rewrite dtype_assign_column; [reflexivity|].
  apply (col_index_lt DATE). exact Hi.
Qed.

Lemma App_fetch_excel_miss EXCEL_URL API_KEY DATE net parse now w df w1 :
  App.cache_fresh now w = None ->
  App.fetch_excel EXCEL_URL API_KEY DATE net parse now w = (Return df, w1) ->
  exists d, table_at w1 df = Some d /\ date_ready DATE d /\
            df_cache w1 = Some df /\ last_fetched w1 = Some now.
Proof.
  intros Hmiss. unfold App.fetch_excel, bind, get_world. rewrite Hmiss.
  unfold requests_get, lift, new_object, set_cache, ret. simpl.
  destruct (http_get net _ _) as [content|e1]; simpl; [|discriminate].
  destruct (read_excel net content) as [parsed|e2]; simpl; [|discriminate].
  destruct (col_index DATE parsed) as [i|] eqn:Hi; unfold update; simpl;
    intros [= <- <-]; unfold table_at; simpl.
  - exists (coerce_column parse i parsed).
    split; [apply list_lookup_insert_eq; rewrite length_app; simpl; lia|].
    split; [apply coerce_column_date_ready; exact Hi|]. split; reflexivity.
  - exists parsed. split; [apply lookup_new_object|].
    split; [|split; reflexivity].
    intros j Hj. congruence.
Qed.

(** *** The filter against the rows the specification retains *)

Lemma sieve_filter (P : list Cell -> Prop) (p : list Cell -> bool) rs :
  Forall (fun r => p r = true <-> P r) rs -> sieve P rs (List.filter p rs).
Proof.
  induction 1 as [|r rs H _ IH]; simpl; [constructor|].
  destruct (p r) eqn:E.
  - apply sieve_in; [apply H; reflexivity | exact IH].
  - apply sieve_out; [|exact IH]. intros HP. apply H in HP. congruence.
Qed.

Lemma sieve_unique (P : list Cell -> Prop) rs k1 k2 :
  sieve P rs k1 -> sieve P rs k2 -> k1 = k2.
Proof.
  intros H1. revert k2.
  induction H1 as [|r rs k Hr _ IH|r rs k Hr _ IH]; intros k2 H2; inversion H2; subst.
  - reflexivity.
  - f_equal. apply IH. assumption.
  - contradiction.
  - contradiction.
  - apply IH. assumption.
Qed.

Lemma null_has_no_moment reading c ns : isna c = true -> ~ moment reading c ns.
Proof. intros H Hm. inversion Hm; subst; discriminate. Qed.

Lemma null_not_within reading i s e r :
  isna (cell r i) = true -> ~ within reading i s e r.
Proof. intros H (ns & Hm & _). exact (null_has_no_moment _ _ _ H Hm). Qed.

(** On a cell of a date-bearing column the code reads the moment the cell
    stands for: as it is in a datetime column, by coercion otherwise. *)
Lemma as_datetime_moment parse dt dt' c ns :
  reads_dates dt c = true -> (dt' = DDatetime -> dt = DDatetime) ->
  as_datetime parse dt' c = CTimestamp ns <-> moment parse c ns.
Proof.
  intros Hc Hdt. split.
  - intros H. destruct dt'; cbn [as_datetime] in H.
    5: { rewrite (Hdt eq_refl) in Hc. subst c. constructor. }
    all: destruct c; cbn [to_datetime] in H; try discriminate H;
      try (destruct dt; discriminate Hc);
      try (injection H as <-; constructor);
      destruct (parse s) eqn:E; [injection H as <-; constructor; exact E | discriminate H].
  - intros Hm. inversion Hm as [ns'|s ns' Hs]; subst.
    + destruct dt'; reflexivity.
    + destruct dt'; cbn [as_datetime to_datetime]; rewrite ?Hs; try reflexivity.
      rewrite (Hdt eq_refl) in Hc. discriminate Hc.
Qed.

Lemma moment_lookup reading (r : list Cell) i ns :
  moment reading (cell r i) ns -> (i < length r)%nat.
Proof.
  intros Hm. destruct (Nat.lt_ge_cases i (length r)) as [H|H]; [exact H|].
  rewrite (cell_short r i H) in Hm. inversion Hm.
Qed.

(** A row the filter keeps is a row within the range, and comes back with
    its date as a timestamp. *)
Lemma kept_row parse dt dt' i s e r :
  reads_dates dt (cell r i) = true -> (dt' = DDatetime -> dt = DDatetime) ->
  keeps parse dt' i s e r = true ->
  stamped parse i r (date_row parse dt' i r) /\
  exists ns, cell (date_row parse dt' i r) i = CTimestamp ns /\ s <= ns / ns_per_day <= e.
Proof.
  intros Hc Hdt Hk. apply keeps_iff in Hk. destruct Hk as (ns & Ha & Hr).
  pose proof (proj1 (as_datetime_moment parse dt dt' _ ns Hc Hdt) Ha) as Hm.
  pose proof (moment_lookup _ _ _ _ Hm) as Hlt.
  assert (date_row parse dt' i r = <[i := CTimestamp ns]> r) as Hrow.
  { unfold date_row. unfold as_datetime in Ha.
    destruct dt'; rewrite ?Ha; try reflexivity.
    symmetry. apply list_insert_id. unfold cell in Ha.
    destruct (r !! i) as [c|]; simpl in Ha; [congruence | discriminate Ha]. }
  split.
  - exists ns. split; [exact Hm | exact Hrow].
  - exists ns. split; [|exact Hr]. rewrite Hrow. apply cell_insert_same. exact Hlt.
Qed.

Lemma keeps_within parse dt dt' i s e r :
  reads_dates dt (cell r i) = true -> (dt' = DDatetime -> dt = DDatetime) ->
  keeps parse dt' i s e r = true <-> within parse i s e r.
Proof.
  intros Hc Hdt. rewrite keeps_iff. unfold within.
  split; intros (ns & H & Hr); exists ns; (split; [|exact Hr]);
    apply (as_datetime_moment parse dt dt' _ ns Hc Hdt); exact H.
Qed.

Lemma filter_rows_retained parse dt dt' i s e (rs : list (list Cell)) :
  Forall (fun r => reads_dates dt (cell r i) = true) rs ->
  (dt' = DDatetime -> dt = DDatetime) ->
  let out := map (date_row parse dt' i) (List.filter (keeps parse dt' i s e) rs) in
  exists kept,
    sieve (within parse i s e) rs kept /\
    Forall2 (stamped parse i) kept out /\
    Forall (fun r => exists ns, cell r i = CTimestamp ns /\ s <= ns / ns_per_day <= e) out.
Proof.
  intros Hall Hdt out. exists (List.filter (keeps parse dt' i s e) rs).
  split.
  - apply sieve_filter. eapply Forall_impl; [exact Hall|].
    intros r Hr. cbv beta. apply (keeps_within parse dt dt'); assumption.
  - subst out. induction Hall as [|r rs Hr _ IH]; simpl;
      [split; constructor|].
    destruct (keeps parse dt' i s e r) eqn:Hk; [|exact IH].
    destruct IH as [IH1 IH2].
    destruct (kept_row parse dt dt' i s e r Hr Hdt Hk) as [Hs Hc].
    simpl. split; constructor; assumption.
Qed.

(** The table [fetch_excel] of [app.py] returns has a datetime date
    column, as long as the cached one has. *)
Lemma App_fetch_excel_date_ready EXCEL_URL API_KEY DATE net parse now w df w1 d :
  cache_ready DATE w ->
  App.fetch_excel EXCEL_URL API_KEY DATE net parse now w = (Return df, w1) ->
  table_at w1 df = Some d -> date_ready DATE d.
Proof.
  intros Hready Hf Hd.
  destruct (App.cache_fresh now w) as [c|] eqn:Hfresh.
  - rewrite (App_fetch_excel_fresh _ _ _ _ _ _ _ _ Hfresh) in Hf.
    injection Hf as <- <-. apply Hready.
    unfold cache_entry. cbn [fst].
    unfold App.cache_fresh in Hfresh.
    destruct (df_cache w) as [c'|]; [|discriminate Hfresh].
    destruct (last_fetched w); [|discriminate Hfresh].
    destruct (_ <? _); [|discriminate Hfresh].
    injection Hfresh as ->. exact Hd.
  - destruct (App_fetch_excel_miss _ _ _ _ _ _ _ _ _ Hfresh Hf) as (d' & Hd' & Hr & _).
    rewrite Hd in Hd'. injection Hd' as <-. exact Hr.
Qed.

(** C4.  [filter_df] retains exactly the rows whose date lies in the
    range.  Given a table with a date-bearing column (the configured date
    column in [app.py], of dtype datetime or object; the first column whose
    name contains "date" in [api/index.py]) and both ends of a range,
    [filter_df] returns a table with the same columns whose rows are, in
    their order, exactly the rows of the argument whose cell in that column,
    truncated to the day, lies in [[s, e]], each with that cell as a
    timestamp; no returned row has a missing date, and a row whose date is
    missing is never within a range.  The texts of a column are read the
    way pandas settles on for that column.  Every table [fetch_excel] of
    [app.py] returns, of which the routes filter a copy, has its configured
    date column of dtype datetime once the cached table has, and so has the
    table that is cached from a workbook whose [Date] column is blank:
    [/api/filter] answers that workbook and the range of January with no
    row.  Filtering the [Date] column holding 2024-01-15 and 2024-02-01 by
    2024-01-01..2024-01-31 keeps only the first row, whether the column
    holds timestamps or text. *)
Theorem filter_df_keeps_rows_in_range :
  (forall DATE (reading : list Cell -> string -> option Z) w l df i s e,
      let parse := reading (series df i) in
      table_at w l = Some df ->
      col_index DATE df = Some i ->
      dtype df i = DObject \/ dtype df i = DDatetime ->
      date_bearing df i ->
      exists out w' d' kept,
        App.filter_df DATE parse l (Some s) (Some e) w = (Return out, w') /\
        table_at w' out = Some d' /\
        columns d' = columns df /\
        sieve (within parse i s e) (rows df) kept /\
        Forall2 (stamped parse i) kept (rows d') /\
        Forall (fun r => exists ns, cell r i = CTimestamp ns /\ s <= ns / ns_per_day <= e)
               (rows d')) /\
  (forall (reading : list Cell -> string -> option Z) w l df i s e,
      let parse := reading (series df i) in
      table_at w l = Some df ->
      date_column_index df = Some i ->
      date_bearing df i ->
      exists out w' d' kept,
        Api.filter_df parse l (Some s) (Some e) w = (Return out, w') /\
        table_at w' out = Some d' /\
        columns d' = columns df /\
        sieve (within parse i s e) (rows df) kept /\
        Forall2 (stamped parse i) kept (rows d') /\
        Forall (fun r => exists ns, cell r i = CTimestamp ns /\ s <= ns / ns_per_day <= e)
               (rows d')) /\
  (forall P rs kept kept', sieve P rs kept -> sieve P rs kept' -> kept = kept') /\
  (forall parse i s e r, isna (cell r i) = true -> ~ within parse i s e r) /\
  (forall EXCEL_URL API_KEY DATE net parse now w df w1 d,
      cache_ready DATE w ->
      App.fetch_excel EXCEL_URL API_KEY DATE net parse now w = (Return df, w1) ->
      table_at w1 df = Some d ->
      date_ready DATE d) /\
  (let answer := App.api_filter sheet_url "YOUR_API_KEY" "Date" net_blank parse_iso strptime
                                0 jan31 january started in
   fst (cache_entry (snd answer)) = Some (mkDF [("Date", DDatetime)] [[CNaT]]) /\
   match fst answer with
   | RowsOk counts data => data = [] /\ counts !! "total_records" = Some 0
   | _ => False
   end) /\
  (exists out w',
      Api.filter_df parse_iso 0%nat (Some jan01) (Some jan31) (holding blank_dates)
        = (Return out, w') /\
      table_at w' out = Some (mkDF [("Date", DDatetime)] [])) /\
  (exists out w',
      App.filter_df "Date" parse_iso 0%nat (Some jan01) (Some jan31) (holding dated_table)
        = (Return out, w') /\
      table_at w' out =
        Some (mkDF (header dated_table) [[CTimestamp (timestamp 2024 1 15); CStr "Alice"]])) /\
  (exists out w',
      Api.filter_df parse_iso 0%nat (Some jan01) (Some jan31) (holding dated_table)
        = (Return out, w') /\
      table_at w' out =
        Some (mkDF (header dated_table) [[CTimestamp (timestamp 2024 1 15); CStr "Alice"]])) /\
  (exists out w',
      App.filter_df "Date" parse_iso 0%nat (Some jan01) (Some jan31) (holding text_dates)
        = (Return out, w') /\
      table_at w' out =
        Some (mkDF [("Date", DDatetime)] [[CTimestamp (timestamp 2024 1 15)]])) /\
  (exists out w',
      Api.filter_df parse_iso 0%nat (Some jan01) (Some jan31) (holding text_dates)
        = (Return out, w') /\
      table_at w' out =
        Some (mkDF [("Date", DDatetime)] [[CTimestamp (timestamp 2024 1 15)]])).
Proof.
  split; [|split; [|split; [|split; [|split]]]].
  - intros DATE reading w l df i s e parse Hl Hi Hdt Hb.
    rewrite (App_filter_df_run DATE parse w l df _ _ Hl), Hi.
    destruct Hdt as [Hdt|Hdt]; rewrite Hdt.
    + destruct (filter_rows_retained parse (dtype df i) DObject i s e (rows df) Hb
                  ltac:(discriminate)) as (kept & Hk & Hs & Hn).
      rewrite <- rows_filtered_coerced in Hs, Hn.
      eexists _, _, _, kept. split; [reflexivity|]. unfold table_at, with_heap. simpl.
      split; [|split; [|split; [|split]]].
      * rewrite <- (length_insert (heap w) l (coerce_column parse i df)).
        apply lookup_new_object.
      * apply columns_assign_column.
      * exact Hk.
      * exact Hs.
      * exact Hn.
    + destruct (filter_rows_retained parse (dtype df i) DDatetime i s e (rows df) Hb
                  ltac:(intros _; exact Hdt)) as (kept & Hk & Hs & Hn).
      rewrite <- (rows_filtered_datetime parse df) in Hs, Hn.
      eexists _, _, _, kept. split; [reflexivity|]. unfold table_at, with_heap. simpl.
      split; [apply lookup_new_object|]. split; [reflexivity|].
      split; [exact Hk|]. split; [exact Hs | exact Hn].
  - intros reading w l df i s e parse Hl Hi Hb.
    rewrite (Api_filter_df_run parse w l df _ _ Hl), Hi.
    destruct (filter_rows_retained parse (dtype df i) DObject i s e (rows df) Hb
                ltac:(discriminate)) as (kept & Hk & Hs & Hn).
    rewrite <- rows_filtered_coerced in Hs, Hn.
    eexists _, _, _, kept. split; [reflexivity|]. unfold table_at, with_heap. simpl.
    split; [|split; [|split; [|split]]].
    + rewrite <- (length_insert (heap w) l (coerce_column parse i df)).
      apply lookup_new_object.
    + apply columns_assign_column.
    + exact Hk.
    + exact Hs.
    + exact Hn.
  - exact sieve_unique.
  - exact null_not_within.
  - exact App_fetch_excel_date_ready.
  - split; [vm_compute; split; [reflexivity | split; reflexivity]|].
    split; [eexists _, _; split; vm_compute; reflexivity|].
    split; [eexists _, _; split; vm_compute; reflexivity|].
    split; [eexists _, _; split; vm_compute; reflexivity|].
    split; eexists _, _; split; vm_compute; reflexivity.
Qed.

Lemma filter_df_keeps_rows_in_range_witness :
  (table_at (holding text_dates) 0%nat = Some text_dates /\
   col_index "Date" text_dates = Some 0%nat /\
   (dtype text_dates 0 = DObject \/ dtype text_dates 0 = DDatetime) /\
   date_bearing text_dates 0 /\
   exists out w' d' kept,
     App.filter_df "Date" parse_iso 0%nat (Some jan01) (Some jan31) (holding text_dates)
       = (Return out, w') /\
     table_at w' out = Some d' /\
     columns d' = columns text_dates /\
     sieve (within parse_iso 0 jan01 jan31) (rows text_dates) kept /\
     Forall2 (stamped parse_iso 0) kept (rows d') /\
     Forall (fun r => exists ns, cell r 0 = CTimestamp ns /\ jan01 <= ns / ns_per_day <= jan31)
            (rows d')) /\
  (table_at (holding blank_dates) 0%nat = Some blank_dates /\
   date_column_index blank_dates = Some 0%nat /\
   date_bearing blank_dates 0 /\
   exists out w' d' kept,
     Api.filter_df parse_iso 0%nat (Some jan01) (Some jan31) (holding blank_dates)
       = (Return out, w') /\
     table_at w' out = Some d' /\
     columns d' = columns blank_dates /\
     sieve (within parse_iso 0 jan01 jan31) (rows blank_dates) kept /\
     Forall2 (stamped parse_iso 0) kept (rows d') /\
     Forall (fun r => exists ns, cell r 0 = CTimestamp ns /\ jan01 <= ns / ns_per_day <= jan31)
            (rows d')) /\
  (cache_ready "Date" cached /\
   App.fetch_excel sheet_url "YOUR_API_KEY" "Date" net_up parse_iso (Py.td_of_seconds 10) cached
     = (Return 0%nat, cached) /\
   table_at cached 0%nat = Some dated_table /\
   date_ready "Date" dated_table).
Proof.
  pose proof filter_df_keeps_rows_in_range as (HApp & HApi & _ & _ & Hfetch & _).
  assert (date_bearing text_dates 0) as Hb1 by (repeat constructor).
  assert (date_bearing blank_dates 0) as Hb2 by (repeat constructor).
  assert (cache_ready "Date" cached) as Hc.
  { intros d [= <-] i [= <-]. reflexivity. }
  split; [|split].
  - split; [reflexivity|]. split; [reflexivity|]. split; [left; reflexivity|].
    split; [exact Hb1|].
    exact (HApp "Date" (fun _ => parse_iso) (holding text_dates) 0%nat text_dates 0%nat
                jan01 jan31 eq_refl eq_refl (or_introl eq_refl) Hb1).
  - split; [reflexivity|]. split; [reflexivity|]. split; [exact Hb2|].
    exact (HApi (fun _ => parse_iso) (holding blank_dates) 0%nat blank_dates 0%nat
                jan01 jan31 eq_refl eq_refl Hb2).
  - split; [exact Hc|]. split; [reflexivity|]. split; [reflexivity|].
    exact (Hfetch sheet_url "YOUR_API_KEY" "Date" net_up parse_iso (Py.td_of_seconds 10)
                  cached 0%nat cached dated_table Hc eq_refl eq_refl).
Defined.










(** ** [fetch_excel] *)

(** The cache entry of a world depends on its heap and its two globals. *)
Lemma cache_entry_same w w' :
  heap w' = heap w -> df_cache w' = df_cache w -> last_fetched w' = last_fetched w ->
  cache_entry w' = cache_entry w.
Proof.
  intros H1 H2 H3. unfold cache_entry, table_at. rewrite H1, H2, H3. reflexivity.
Qed.

Lemma App_fetch_excel_raise EXCEL_URL API_KEY DATE net parse now w e w' :
  App.fetch_excel EXCEL_URL API_KEY DATE net parse now w = (Raise e, w') ->
  heap w' = heap w /\ df_cache w' = df_cache w /\ last_fetched w' = last_fetched w.
Proof.
  unfold App.fetch_excel, bind, get_world.
  destruct (App.cache_fresh now w) as [c|]; [discriminate|].
  unfold requests_get, lift, new_object, set_cache, ret. simpl.
  destruct (http_get net _ _) as [content|e1]; simpl.
  - destruct (read_excel net content) as [parsed|e2]; simpl.
    + destruct (col_index DATE parsed); unfold update; simpl; discriminate.
    + intros [= <- <-]. simpl. auto.
  - intros [= <- <-]. simpl. auto.
Qed.

Lemma Api_fetch_excel_raise SHEET net now now' w e w' :
  Api.fetch_excel SHEET net now now' w = (Raise e, w') ->
  heap w' = heap w /\ df_cache w' = df_cache w /\ last_fetched w' = last_fetched w.
Proof.
  unfold Api.fetch_excel, bind, get_world.
  destruct (Api.cache_fresh now w) as [c|].
  - unfold copy, bind, deref, new_object.
    destruct (heap w !! c); [discriminate|]. intros [= <- <-]. auto.
  - destruct SHEET as [[|a r]|]; try (unfold raise; intros [= <- <-]; auto; fail).
    unfold requests_get, lift, new_object, set_cache, copy, bind, deref. simpl.
    destruct (http_get net _ _) as [content|e1]; simpl.
    + destruct (read_excel net content) as [parsed|e2]; simpl.
      * rewrite lookup_new_object. discriminate.
      * intros [= <- <-]. simpl. auto.
    + intros [= <- <-]. simpl. auto.
Qed.

(** A refetch of [app.py] that fails raises the error it met and leaves
    the world as it was but for the request logged. *)
Lemma App_fetch_excel_fails EXCEL_URL API_KEY DATE net parse now w e :
  App.cache_fresh now w = None ->
  refetch_fails net (length (requests w)) (app_request EXCEL_URL API_KEY) e ->
  App.fetch_excel EXCEL_URL API_KEY DATE net parse now w =
    (Raise e, with_request w (app_request EXCEL_URL API_KEY)).
Proof.
  intros Hstale Hfail. unfold App.fetch_excel, bind at 1, get_world. rewrite Hstale.
  unfold bind, requests_get, lift. fold (app_request EXCEL_URL API_KEY).
  destruct Hfail as [H|(content & H & Hp)]; rewrite H; [reflexivity|].
  cbn [fst snd]. rewrite Hp. reflexivity.
Qed.

Lemma Api_fetch_excel_fails a u net now now' w e :
  Api.cache_fresh now w = None ->
  refetch_fails net (length (requests w)) (api_request (String a u)) e ->
  Api.fetch_excel (Some (String a u)) net now now' w =
    (Raise e, with_request w (api_request (String a u))).
Proof.
  intros Hstale Hfail. unfold Api.fetch_excel, bind at 1, get_world. rewrite Hstale.
  unfold bind, requests_get, lift. fold (api_request (String a u)).
  destruct Hfail as [H|(content & H & Hp)]; rewrite H; [reflexivity|].
  cbn [fst snd]. rewrite Hp. reflexivity.
Qed.

Lemma cache_entry_with_request w r : cache_entry (with_request w r) = cache_entry w.
Proof. reflexivity. Qed.

(** C5.  A refetch that fails leaves the cache entry as it was.  When the
    entry is missing or stale and the request fails (no answer, an error
    status) or its answer is no workbook, [fetch_excel] raises that very
    error, in [app.py] and in [api/index.py]; the cached reference, the
    table it denotes, the fetch timestamp and every table of the heap are
    what they were, and the request log has grown by the one request sent.
    In [api/index.py] a missing [EXCEL_SHEET_URL] raises [ValueError] before
    anything is sent.  Whenever [fetch_excel] raises, whatever the reason,
    the cache entry and the heap are unchanged. *)
Theorem failed_fetch_keeps_cache_entry :
  (forall EXCEL_URL API_KEY DATE net parse now w e,
      App.cache_fresh now w = None ->
      refetch_fails net (length (requests w)) (app_request EXCEL_URL API_KEY) e ->
      exists w',
        App.fetch_excel EXCEL_URL API_KEY DATE net parse now w = (Raise e, w') /\
        cache_entry w' = cache_entry w /\
        df_cache w' = df_cache w /\ last_fetched w' = last_fetched w /\
        heap w' = heap w /\
        requests w' = (requests w ++ [app_request EXCEL_URL API_KEY])%list) /\
  (forall a u net now now' w e,
      Api.cache_fresh now w = None ->
      refetch_fails net (length (requests w)) (api_request (String a u)) e ->
      exists w',
        Api.fetch_excel (Some (String a u)) net now now' w = (Raise e, w') /\
        cache_entry w' = cache_entry w /\
        df_cache w' = df_cache w /\ last_fetched w' = last_fetched w /\
        heap w' = heap w /\
        requests w' = (requests w ++ [api_request (String a u)])%list) /\
  (forall SHEET net now now' w,
      Api.cache_fresh now w = None -> SHEET = None \/ SHEET = Some "" ->
      Api.fetch_excel SHEET net now now' w =
        (Raise (ValueError "EXCEL_SHEET_URL environment variable not set."), w)) /\
  (forall EXCEL_URL API_KEY DATE net parse now w e w',
      App.fetch_excel EXCEL_URL API_KEY DATE net parse now w = (Raise e, w') ->
      cache_entry w' = cache_entry w /\
      df_cache w' = df_cache w /\ last_fetched w' = last_fetched w /\
      heap w' = heap w) /\
  (forall SHEET net now now' w e w',
      Api.fetch_excel SHEET net now now' w = (Raise e, w') ->
      cache_entry w' = cache_entry w /\
      df_cache w' = df_cache w /\ last_fetched w' = last_fetched w /\
      heap w' = heap w).
Proof.
  split; [|split; [|split; [|split]]].
  - intros EXCEL_URL API_KEY DATE net parse now w e Hstale Hfail.
    eexists. split; [exact (App_fetch_excel_fails _ _ _ _ _ _ _ _ Hstale Hfail)|].
    repeat split; reflexivity.
  - intros a u net now now' w e Hstale Hfail.
    eexists. split; [exact (Api_fetch_excel_fails _ _ _ _ _ _ _ Hstale Hfail)|].
    repeat split; reflexivity.
  - intros SHEET net now now' w Hstale HS.
    unfold Api.fetch_excel, bind, get_world. rewrite Hstale.
    destruct HS as [->| ->]; reflexivity.
  - intros EXCEL_URL API_KEY DATE net parse now w e w' H.
    apply App_fetch_excel_raise in H. destruct H as (H1 & H2 & H3).
    split; [apply cache_entry_same; assumption|]. auto.
  - intros SHEET net now now' w e w' H.
    apply Api_fetch_excel_raise in H. destruct H as (H1 & H2 & H3).
    split; [apply cache_entry_same; assumption|]. auto.
Qed.

Lemma failed_fetch_keeps_cache_entry_witness :
  let down := App.fetch_excel sheet_url "YOUR_API_KEY" "Date" net_down parse_iso
                              (Py.td_of_seconds 61) cached in
  let garbled := Api.fetch_excel (Some sheet_url) net_garbled (Py.td_of_seconds 301)
                                 (Py.td_of_seconds 302) cached in
  (App.cache_fresh (Py.td_of_seconds 61) cached = None /\
   refetch_fails net_down (length (requests cached)) (app_request sheet_url "YOUR_API_KEY")
                 (RequestException "connection refused") /\
   fst down = Raise (RequestException "connection refused") /\
   cache_entry (snd down) = cache_entry cached /\
   cache_entry cached = (Some dated_table, Some 0)) /\
  (Api.cache_fresh (Py.td_of_seconds 301) cached = None /\
   refetch_fails net_garbled (length (requests cached)) (api_request sheet_url)
                 (ExcelError "not a zip file") /\
   fst garbled = Raise (ExcelError "not a zip file") /\
   cache_entry (snd garbled) = cache_entry cached).
Proof.
  intros down garbled.
  assert (App.cache_fresh (Py.td_of_seconds 61) cached = None) as S1 by reflexivity.
  assert (refetch_fails net_down (length (requests cached))
            (app_request sheet_url "YOUR_API_KEY") (RequestException "connection refused"))
    as F1 by (left; reflexivity).
  assert (Api.cache_fresh (Py.td_of_seconds 301) cached = None) as S2 by reflexivity.
  assert (refetch_fails net_garbled (length (requests cached)) (api_request sheet_url)
            (ExcelError "not a zip file"))
    as F2 by (right; exists "<html>"; split; reflexivity).
  destruct (proj1 failed_fetch_keeps_cache_entry sheet_url "YOUR_API_KEY" "Date" net_down
              parse_iso (Py.td_of_seconds 61) cached _ S1 F1) as (w1 & R1 & E1 & _).
  destruct (proj1 (proj2 failed_fetch_keeps_cache_entry) "h"%char
              "ttps://docs.google.com/spreadsheets/d/1JJFy0SjFGoJuYPSjwg/edit?usp=sharing"
              net_garbled (Py.td_of_seconds 301) (Py.td_of_seconds 302) cached _ S2 F2)
    as (w2 & R2 & E2 & _).
  split.
  - split; [exact S1|]. split; [exact F1|]. unfold down. rewrite R1.
    split; [reflexivity|]. split; [exact E1 | reflexivity].
  - split; [exact S2|]. split; [exact F2|]. unfold garbled.
    change (Some sheet_url)
      with (Some (String "h"%char
             "ttps://docs.google.com/spreadsheets/d/1JJFy0SjFGoJuYPSjwg/edit?usp=sharing")).
    rewrite R2. split; [reflexivity | exact E2].
Defined.

(** Within the window [app.py] serves the cache and sends nothing. *)
Lemma App_cache_fresh_within_window w c t now :
  df_cache w = Some c -> last_fetched w = Some t ->
  0 <= now - t < App.CACHE_SECONDS * 1000000 ->
  App.cache_fresh now w = Some c.
Proof.
  intros Hc Ht H. unfold App.cache_fresh, Py.td_seconds, App.CACHE_SECONDS in *.
  rewrite Hc, Ht.
  assert (0 <= (now - t) / 1000000 < 60) as Hq.
  { split; [apply Z.div_pos; lia | apply Z.div_lt_upper_bound; lia]. }
  rewrite Z.mod_small by lia.
  destruct ((now - t) / 1000000 <? 60) eqn:E; [reflexivity|]. lia.
Qed.


(** Past the window [app.py] fetches again as long as the entry is less than
    a day old. *)
Lemma App_cache_expired_within_a_day w c t now :
  df_cache w = Some c -> last_fetched w = Some t ->
  App.CACHE_SECONDS * 1000000 <= now - t < 86400 * 1000000 ->
  App.cache_fresh now w = None.
Proof.
  intros Hc Ht H. unfold App.cache_fresh, Py.td_seconds, App.CACHE_SECONDS in *.
  rewrite Hc, Ht.
  assert (60 <= (now - t) / 1000000 < 86400) as Hq.
  { split; [apply Z.div_le_lower_bound; lia | apply Z.div_lt_upper_bound; lia]. }
  rewrite Z.mod_small by lia.
  destruct ((now - t) / 1000000 <? 60) eqn:E; [lia|reflexivity].
Qed.

(** The seconds field forgets whole days: an entry that is [k] days and less
    than a minute old passes for fresh, however large [k] is. *)
Lemma App_cache_fresh_days_later w c t now k r :
  df_cache w = Some c -> last_fetched w = Some t ->
  now - t = k * (86400 * 1000000) + r -> 0 <= r < App.CACHE_SECONDS * 1000000 ->
  App.cache_fresh now w = Some c.
Proof.
  intros Hc Ht Hk H. unfold App.cache_fresh, Py.td_seconds, App.CACHE_SECONDS in *.
  rewrite Hc, Ht, Hk.
  replace (k * (86400 * 1000000) + r) with (r + (k * 86400) * 1000000) by lia.
  rewrite Z.div_add by lia.
  replace (r / 1000000 + k * 86400) with (r / 1000000 + k * 86400) by lia.
  rewrite Z.mod_add by lia.
  assert (0 <= r / 1000000 < 60) as Hq.
  { split; [apply Z.div_pos; lia | apply Z.div_lt_upper_bound; lia]. }
  rewrite Z.mod_small by lia.
  destruct (r / 1000000 <? 60) eqn:E; [reflexivity|]. lia.
Qed.

(** [api/index.py] compares the whole age: within the window it hands out a
    copy of the cached table and sends nothing. *)
Lemma Api_fetch_excel_fresh SHEET net now now' w c t d :
  df_cache w = Some c -> last_fetched w = Some t -> table_at w c = Some d ->
  now - t < Api.CACHE_DURATION ->
  Api.fetch_excel SHEET net now now' w =
    (Return (length (heap w)), with_heap w (heap w ++ [d])).
Proof.
  intros Hc Ht Hd H. unfold Api.fetch_excel, bind, get_world, Api.cache_fresh.
  rewrite Hc, Ht.
  destruct (now - t <? Api.CACHE_DURATION) eqn:E; [|lia].
  unfold copy, bind, deref. unfold table_at in Hd. rewrite Hd. reflexivity.
Qed.

(** At or past the window it fetches, and a fetch that succeeds replaces the
    entry. *)
Lemma Api_fetch_excel_expired a u net now now' w c t content parsed :
  df_cache w = Some c -> last_fetched w = Some t ->
  Api.CACHE_DURATION <= now - t ->
  http_get net (length (requests w)) (mkRequest (Api._to_export_url (String a u)) [])
    = Return content ->
  read_excel net content = Return parsed ->
  Api.fetch_excel (Some (String a u)) net now now' w =
    (Return (S (length (heap w))),
     mkWorld (heap w ++ [parsed] ++ [parsed]) (Some (length (heap w))) (Some now')
             (requests w ++ [mkRequest (Api._to_export_url (String a u)) []])).
Proof.
  intros Hc Ht H Hget Hread. unfold Api.fetch_excel, bind, get_world, Api.cache_fresh.
  rewrite Hc, Ht.
  destruct (now - t <? Api.CACHE_DURATION) eqn:E; [lia|].
  unfold requests_get, lift, new_object, set_cache, copy, bind, deref. simpl.
  rewrite Hget. simpl. rewrite Hread. simpl.
  rewrite lookup_new_object. simpl.
  unfold new_object. simpl.
  rewrite length_app, <- app_assoc. simpl. rewrite Nat.add_1_r. reflexivity.
Qed.

(** C1 at its failing input in [app.py].  The cache was filled at time 0;
    one day and ten seconds later, well past the sixty seconds of the cache
    duration, [fetch_excel] still returns the cached table and sends no
    request, because it compares the seconds field of the age.
    [api/index.py], which compares the age itself, fetches at the same
    point and replaces the entry. *)
Theorem fetch_excel_serves_day_old_cache :
  App.CACHE_SECONDS * 1000000 <= day_and_ten_seconds - 0 /\
  App.fetch_excel sheet_url "YOUR_API_KEY" "Date" net_up parse_iso
                  day_and_ten_seconds cached = (Return 0%nat, cached) /\
  exists w',
    Api.fetch_excel (Some sheet_url) net_up day_and_ten_seconds day_and_ten_seconds cached
      = (Return 2%nat, w') /\
    length (requests w') = 1%nat /\
    cache_entry w' = (Some status_table, Some day_and_ten_seconds).
Proof.
  split; [vm_compute; discriminate|].
  split; [vm_compute; reflexivity|].
  eexists. split; [vm_compute; reflexivity|].
  split; vm_compute; reflexivity.
Qed.

(** ** The field filter and [all_bd] *)

(** In [api_counts] of [app.py] (and in both filtering routes of
    [netlify/functions/api.py], which share the block) the pair [bd],
    [all_bd] leaves the table alone. *)
Lemma field_block_counts_all_bd w out o :
  table_at w out = Some o ->
  App.field_block_counts out (Some "bd") (Some "all_bd") w = (Return out, w).
Proof.
  unfold table_at. intros H. unfold App.field_block_counts, bind, deref. simpl.
  rewrite H. destruct (App.target_column o "bd") as [t|]; [|reflexivity].
  destruct (Py.truthy (Some t)); reflexivity.
Qed.

Lemma Netlify_field_block_all_bd w out o :
  table_at w out = Some o ->
  Netlify.field_block out (Some "bd") (Some "all_bd") w = (Return out, w).
Proof. apply field_block_counts_all_bd. Qed.

(** In [api_filter] of [api/index.py] the value [all_bd] switches the field
    filter off for every field. *)
Lemma Api_field_block_all_bd w out field :
  Api.field_block out field (Some "all_bd") w = (Return out, w).
Proof.
  unfold Api.field_block. destruct field as [f|]; [|reflexivity].
  simpl. rewrite andb_false_r. reflexivity.
Qed.

(** In [api_filter] of [app.py] the block has no such test: with a column
    called [BD], the rows are compared with "all_bd" like with any value. *)
Lemma field_block_filter_all_bd_selects w out o i :
  table_at w out = Some o ->
  List.find (fun c => String.eqb (Py.lower c) "bd") (columns o) = Some "BD" ->
  col_index "BD" o = Some i ->
  App.field_block_filter out (Some "bd") (Some "all_bd") w =
    (Return (length (heap w)),
     with_heap w (heap w ++
       [loc_mask o (map (fun c => String.eqb (Py.lower (astype_str c)) "all_bd")
                        (series o i))])).
Proof.
  unfold table_at. intros H Hf Hi.
  unfold App.field_block_filter, bind, deref.
  cbn [Py.truthy andb]. rewrite H.
  change (Py.lower "bd") with "bd". rewrite Hf. cbn [Py.truthy].
  unfold select_equal, bind, deref. rewrite H, Hi. reflexivity.
Qed.

(** C9 at its failing input in [app.py].  The cached table has a column
    [BD] holding "Alice" and "Bob".  [/api/filter?field=bd&q=all_bd] answers
    with no row and [total_records = 0], where the same request without the
    field filter answers with both rows: in [api_filter] of [app.py] the pair
    is not a no-op.  [api_counts] of the same file treats it as one. *)
Theorem api_filter_all_bd_drops_every_row :
  match fst (App.api_filter sheet_url "YOUR_API_KEY" "Date" net_up parse_iso strptime
                            (Py.td_of_seconds 10) jan01 show_all_bd cached) with
  | RowsOk counts data => data = [] /\ counts !! "total_records" = Some 0
  | _ => False
  end /\
  match fst (App.api_filter sheet_url "YOUR_API_KEY" "Date" net_up parse_iso strptime
                            (Py.td_of_seconds 10) jan01 no_filter cached) with
  | RowsOk counts data =>
      data = [[("Date", CStr "2024-01-15"); ("BD", CStr "Alice")];
              [("Date", CStr "2024-02-01"); ("BD", CStr "Bob")]] /\
      counts !! "total_records" = Some 2
  | _ => False
  end /\
  match fst (App.api_counts sheet_url "YOUR_API_KEY" "Date" net_up parse_iso strptime
                            (Py.td_of_seconds 10) jan01 show_all_bd cached) with
  | CountsOk counts => counts !! "total_records" = Some (JInt 2)
  | _ => False
  end.
Proof. vm_compute. repeat split; reflexivity. Qed.

(** ** Presets *)

Ltac not_preset H :=
  repeat match goal with
         | |- context [String.eqb ?a ?b] =>
             let E := fresh "E" in
             destruct (String.eqb a b) eqn:E;
             [apply String.eqb_eq in E; subst; exfalso; apply H; simpl; tauto|]
         end.

Lemma App_get_range_unknown today ft :
  ~ In ft app_presets -> App.get_range today ft = (None, None).
Proof. intros H. unfold App.get_range. not_preset H. reflexivity. Qed.

Lemma Api_get_range_unknown today ft :
  ~ In ft api_presets -> Api.get_range today ft = (None, None).
Proof. intros H. unfold Api.get_range. not_preset H. reflexivity. Qed.

Lemma App_date_bounds_unknown strp today args :
  ~ In (Py.lower (default "" (arg_type args))) app_presets ->
  Py.truthy (arg_start args) && Py.truthy (arg_end args) = false ->
  App.date_bounds strp today args = Some (None, None).
Proof.
  intros H Hse. unfold App.date_bounds. rewrite Hse.
  rewrite (App_get_range_unknown _ _ H).
  destruct (Py.truthy (Some (Py.lower (default "" (arg_type args))))); reflexivity.
Qed.

Lemma App_date_bounds_without_dates strp today args :
  App.date_bounds strp today (without_dates args) = Some (None, None).
Proof. reflexivity. Qed.

Lemma Api_date_bounds_unknown strp today args ft :
  arg_type args = Some ft -> ~ In ft api_presets ->
  String.eqb ft "custom" && Py.truthy (arg_start args) && Py.truthy (arg_end args) = false ->
  Api.date_bounds strp today args = Return (None, None).
Proof.
  intros Ht H Hc. unfold Api.date_bounds. rewrite Ht, Hc.
  rewrite (Api_get_range_unknown _ _ H).
  destruct (Py.truthy (Some ft) && negb (String.eqb ft "all")); reflexivity.
Qed.

(** C10.  For every filter type that is none of the preset names,
    [get_range] returns [(None, None)], in [app.py] and in [api/index.py].
    Consequently a route that reads its range from such a type (no custom
    [start] and [end] take precedence) applies no date filter: the date block
    hands its table on untouched, without calling [filter_df], and the answer
    is that of the same request without any date parameter. *)
Theorem unknown_preset_disables_date_filter (today : Py.date) (ft : string) :
  (~ In ft app_presets ->
   App.get_range today ft = (None, None) /\
   forall EXCEL_URL API_KEY DATE net parse strp now args out w,
     Py.lower (default "" (arg_type args)) = ft ->
     Py.truthy (arg_start args) && Py.truthy (arg_end args) = false ->
     App.date_bounds strp today args = Some (App.get_range today ft) /\
     App.date_block DATE parse out (App.get_range today ft) w = (Return out, w) /\
     App.api_filter EXCEL_URL API_KEY DATE net parse strp now today args w =
       App.api_filter EXCEL_URL API_KEY DATE net parse strp now today (without_dates args) w /\
     App.api_counts EXCEL_URL API_KEY DATE net parse strp now today args w =
       App.api_counts EXCEL_URL API_KEY DATE net parse strp now today (without_dates args) w) /\
  (~ In ft api_presets ->
   Api.get_range today ft = (None, None) /\
   forall SHEET net parse strp replace_missing now now' args out w,
     arg_type args = Some ft ->
     String.eqb ft "custom" && Py.truthy (arg_start args) && Py.truthy (arg_end args)
       = false ->
     Api.date_bounds strp today args = Return (Api.get_range today ft) /\
     Api.date_block parse out (Api.get_range today ft) w = (Return out, w) /\
     Api.api_filter SHEET net parse strp replace_missing now now' today args w =
       Api.api_filter SHEET net parse strp replace_missing now now' today
                      (without_dates args) w).
Proof.
  split.
  - intros H. pose proof (App_get_range_unknown today ft H) as Hr.
    split; [exact Hr|].
    intros EXCEL_URL API_KEY DATE net parse strp now args out w Hft Hse.
    assert (App.date_bounds strp today args = Some (None, None)) as Hb.
    { apply App_date_bounds_unknown; [rewrite Hft; exact H | exact Hse]. }
    rewrite Hr. split; [exact Hb|]. split; [reflexivity|].
    unfold App.api_filter, App.api_counts.
    rewrite Hb, App_date_bounds_without_dates. split; reflexivity.
  - intros H. pose proof (Api_get_range_unknown today ft H) as Hr.
    split; [exact Hr|].
    intros SHEET net parse strp replace_missing now now' args out w Hft Hc.
    assert (Api.date_bounds strp today args = Return (None, None)) as Hb.
    { eapply Api_date_bounds_unknown; eassumption. }
    rewrite Hr. split; [exact Hb|]. split; [reflexivity|].
    unfold Api.api_filter. rewrite Hb. reflexivity.
Qed.

Lemma unknown_preset_disables_date_filter_witness :
  ~ In "fortnight" app_presets /\
  ~ In "fortnight" api_presets /\
  App.get_range jan01 "fortnight" = (None, None) /\
  Api.get_range jan01 "fortnight" = (None, None) /\
  App.api_filter sheet_url "YOUR_API_KEY" "Date" net_up parse_iso strptime
                 (Py.td_of_seconds 10) jan01 bogus_preset cached =
    App.api_filter sheet_url "YOUR_API_KEY" "Date" net_up parse_iso strptime
                   (Py.td_of_seconds 10) jan01 (without_dates bogus_preset) cached.
Proof.
  assert (~ In "fortnight" app_presets) as Happ.
  { simpl. intros H. repeat (destruct H as [H|H]; [discriminate H|]). exact H. }
  assert (~ In "fortnight" api_presets) as Hapi.
  { simpl. intros H. repeat (destruct H as [H|H]; [discriminate H|]). exact H. }
  split; [exact Happ|]. split; [exact Hapi|].
  destruct (unknown_preset_disables_date_filter jan01 "fortnight") as [HA HB].
  destruct (HA Happ) as [Hr Hroute]. destruct (HB Hapi) as [Hr' _].
  split; [exact Hr|]. split; [exact Hr'|].
  apply (Hroute sheet_url "YOUR_API_KEY" "Date" net_up parse_iso strptime
                (Py.td_of_seconds 10) bogus_preset 0%nat cached); reflexivity.
Defined.

(** ** The calendar *)

Lemma yoe_recovered yoe doy :
  0 <= yoe <= 399 -> 0 <= doy ->
  (doy <= 364 \/
   (doy = 365 /\ (yoe + 1) mod 4 = 0 /\ ((yoe + 1) mod 100 <> 0 \/ yoe = 399))) ->
  let doe := yoe * 365 + yoe / 4 - yoe / 100 + doy in
  (doe - doe / 1460 + doe / 36524 - doe / 146096) / 365 = yoe.
Proof.
  intros Hy Hd Hl doe. subst doe.
  Z.div_mod_to_equations; lia.
Qed.

Lemma civil_from_days_decomposed z era doe yoe doy mp :
  z + 719468 = era * 146097 + doe -> 0 <= doe < 146097 ->
  (doe - doe / 1460 + doe / 36524 - doe / 146096) / 365 = yoe ->
  doe - (365 * yoe + yoe / 4 - yoe / 100) = doy ->
  (5 * doy + 2) / 153 = mp ->
  Py.civil_from_days z =
    (if (if mp <? 10 then mp + 3 else mp - 9) <=? 2
     then yoe + era * 400 + 1 else yoe + era * 400,
     if mp <? 10 then mp + 3 else mp - 9,
     doy - (153 * mp + 2) / 5 + 1).
Proof.
  intros Hz Hdoe Hyoe Hdoy Hmp. unfold Py.civil_from_days. cbv zeta.
  assert ((z + 719468) / 146097 = era) as He.
  { symmetry. apply (Z.div_unique _ _ _ doe); lia. }
  rewrite He. replace (z + 719468 - era * 146097) with doe by lia.
  rewrite Hyoe, Hdoy, Hmp. reflexivity.
Qed.

Lemma civil_roundtrip_prop y m d :
  1 <= m <= 12 -> 1 <= d <= 31 ->
  (m = 4 \/ m = 6 \/ m = 9 \/ m = 11 -> d <= 30) ->
  (m = 2 -> d <= 29 /\ (d = 29 -> y mod 4 = 0 /\ (y mod 100 <> 0 \/ y mod 400 = 0))) ->
  Py.civil_from_days (Py.days_from_civil y m d) = (y, m, d).
Proof.
  intros Hm Hd H30 Hfeb.
  set (y' := if m <=? 2 then y - 1 else y).
  set (era := y' / 400).
  set (yoe := y' - era * 400).
  set (mp := (m + 9) mod 12).
  set (doy := (153 * mp + 2) / 5 + d - 1).
  set (doe := yoe * 365 + yoe / 4 - yoe / 100 + doy).
  assert (0 <= yoe <= 399) as Hyoe by (subst yoe era; Z.div_mod_to_equations; lia).
  assert (mp = if m <=? 2 then m + 9 else m - 3) as Hmp.
  { subst mp. destruct (Z.leb_spec m 2); Z.div_mod_to_equations; lia. }
  assert (0 <= doy /\
          (doy <= 364 \/
           (doy = 365 /\ (yoe + 1) mod 4 = 0 /\ ((yoe + 1) mod 100 <> 0 \/ yoe = 399))))
    as [Hdoy Hleap].
  { subst doy. rewrite Hmp. subst yoe era y'.
    destruct (Z.leb_spec m 2); Z.div_mod_to_equations; lia. }
  assert (0 <= doe < 146097) as Hdoe.
  { subst doe. Z.div_mod_to_equations; lia. }
  rewrite (civil_from_days_decomposed _ era doe yoe doy mp).
  - assert (doy - (153 * mp + 2) / 5 + 1 = d) as -> by (subst doy; lia).
    rewrite Hmp. subst yoe y'.
    destruct (Z.leb_spec m 2).
    + destruct (Z.ltb_spec (m + 9) 10); [lia|].
      destruct (Z.leb_spec (m + 9 - 9) 2); [|lia].
      apply pair_equal_spec; split; [apply pair_equal_spec; split|]; lia.
    + destruct (Z.ltb_spec (m - 3) 10); [|lia].
      destruct (Z.leb_spec (m - 3 + 3) 2); [lia|].
      apply pair_equal_spec; split; [apply pair_equal_spec; split|]; lia.
  - unfold Py.days_from_civil. cbv zeta. fold y' era yoe mp doy doe. lia.
  - exact Hdoe.
  - apply yoe_recovered; assumption.
  - subst doe. lia.
  - subst doy. rewrite Hmp.
    destruct (Z.leb_spec m 2); Z.div_mod_to_equations; lia.
Qed.

(** ** The serialiser *)

Lemma DataFrame_eq (a b : DataFrame) :
  header a = header b -> rows a = rows b -> a = b.
Proof. destruct a, b. simpl. intros -> ->. reflexivity. Qed.

Lemma columns_upto_0 g hd df : columns_upto 0 g hd df = df.
Proof.
  apply DataFrame_eq; simpl.
  - apply list_eq. intros j. rewrite list_lookup_imap. destruct (header df !! j); reflexivity.
  - erewrite map_ext; [apply map_id|]. intros r. simpl.
    apply list_eq. intros j. rewrite list_lookup_imap. destruct (r !! j); reflexivity.
Qed.

Lemma dtype_columns_upto k g hd df j :
  (k <= j)%nat -> dtype (columns_upto k g hd df) j = dtype df j.
Proof.
  intros H. unfold dtype, columns_upto. simpl. rewrite list_lookup_imap.
  destruct (header df !! j) as [h|]; [|reflexivity]. simpl.
  destruct (Nat.ltb_spec j k); [lia|reflexivity].
Qed.

Lemma column_step_upto k g hd df :
  column_step g hd (columns_upto k g hd df) k = columns_upto (S k) g hd df.
Proof.
  unfold column_step. rewrite dtype_columns_upto by lia.
  apply DataFrame_eq.
  - unfold assign_column, columns_upto. simpl. apply list_eq. intros j.
    rewrite list_lookup_alter, !list_lookup_imap.
    case_decide.
    + subst j.
      destruct (header df !! k) as [h|] eqn:Hj; [|reflexivity]. simpl.
      unfold dtype. rewrite Hj. simpl.
      destruct (Nat.ltb_spec k k); [lia|].
      destruct (Nat.ltb_spec k (S k)); [|lia]. reflexivity.
    + destruct (header df !! j) as [h|] eqn:Hj; [|reflexivity]. simpl.
      destruct (Nat.ltb_spec j k), (Nat.ltb_spec j (S k)); try lia; reflexivity.
  - rewrite rows_assign_map. unfold columns_upto. simpl. rewrite map_map.
    apply map_ext. intros r. apply list_eq. intros j.
    rewrite list_lookup_insert, !list_lookup_imap, length_imap.
    case_decide as Hd.
    + destruct Hd as [-> Hlt].
      destruct (lookup_lt_is_Some_2 r j Hlt) as [c Hc].
      unfold cell. rewrite list_lookup_imap, Hc. simpl.
      destruct (Nat.ltb_spec j j); [lia|].
      destruct (Nat.ltb_spec j (S j)); [|lia]. reflexivity.
    + destruct (r !! j) as [c|] eqn:Hc; [|reflexivity]. simpl.
      assert (k <> j) as Hne.
      { intros ->. apply Hd. split; [reflexivity|]. eapply lookup_lt_Some; eassumption. }
      destruct (Nat.ltb_spec j k), (Nat.ltb_spec j (S k)); try lia; reflexivity.
Qed.

Lemma header_length_columns_upto k g hd df :
  length (header (columns_upto k g hd df)) = length (header df).
Proof. unfold columns_upto. simpl. apply length_imap. Qed.

Lemma fold_columns step g hd df k :
  (forall o i, (i < length (header o))%nat -> step o i = column_step g hd o i) ->
  (k <= length (header df))%nat ->
  fold_left step (seq 0 k) df = columns_upto k g hd df.
Proof.
  intros Hstep. induction k as [|k IH]; intros Hk.
  - simpl. symmetry. apply columns_upto_0.
  - rewrite seq_S, fold_left_app. simpl. rewrite IH by lia.
    rewrite Hstep by (rewrite header_length_columns_upto; lia).
    apply column_step_upto.
Qed.

Lemma assign_column_same o i :
  (i < length (header o))%nat ->
  assign_column i (dtype o i) (map (fun c => c) (series o i)) o = o.
Proof.
  intros Hlt. apply DataFrame_eq.
  - unfold assign_column. simpl. apply list_eq. intros j.
    rewrite list_lookup_alter. case_decide; [subst j|reflexivity].
    unfold dtype. destruct (header o !! i) as [[n d]|]; reflexivity.
  - rewrite rows_assign_map. erewrite map_ext; [apply map_id|].
    intros r. simpl. apply list_insert_id'. intros H.
    destruct (lookup_lt_is_Some_2 r i H) as [c Hc]. unfold cell. rewrite Hc. reflexivity.
Qed.

Lemma format_dates_step o i :
  (i < length (header o))%nat ->
  match dtype o i with
  | DDatetime => assign_column i DObject (map dt_strftime_ymd (series o i)) o
  | _ => o
  end = column_step date_cell date_dtype o i.
Proof.
  intros Hlt. unfold column_step.
  destruct (dtype o i) eqn:E; cbv beta iota delta [date_cell date_dtype];
    try reflexivity;
    rewrite <- E; symmetry; apply assign_column_same; exact Hlt.
Qed.

Lemma format_dates_columns df :
  App.format_dates df = columns_upto (length (header df)) date_cell date_dtype df.
Proof.
  unfold App.format_dates. apply fold_columns; [|lia].
  intros o i Hlt. apply format_dates_step. exact Hlt.
Qed.

Lemma map_format_time_none (l : list Cell) :
  existsb App.is_time l = false -> map App.format_time l = map (fun c => c) l.
Proof.
  induction l as [|c l IH]; simpl; [reflexivity|].
  intros H. apply orb_false_iff in H. destruct H as [Hc Hl].
  rewrite IH by exact Hl. destruct c; try discriminate; reflexivity.
Qed.

Lemma format_times_step o i :
  (i < length (header o))%nat ->
  match dtype o i with
  | DObject =>
      if existsb App.is_time (series o i)
      then assign_column i DObject (map App.format_time (series o i)) o
      else o
  | _ => o
  end = column_step time_cell (fun dt => dt) o i.
Proof.
  intros Hlt. unfold column_step.
  destruct (dtype o i) eqn:E; cbv beta iota delta [time_cell];
    try (rewrite <- E; symmetry; apply assign_column_same; exact Hlt).
  destruct (existsb App.is_time (series o i)) eqn:Ex; [reflexivity|].
  change (fun c : Cell => App.format_time c) with App.format_time.
  rewrite (map_format_time_none _ Ex). rewrite <- E. symmetry.
  apply assign_column_same. exact Hlt.
Qed.

Lemma format_times_columns o :
  App.format_times o = columns_upto (length (header o)) time_cell (fun dt => dt) o.
Proof.
  unfold App.format_times. apply fold_columns; [|lia].
  intros o' i Hlt. apply format_times_step. exact Hlt.
Qed.

Lemma render_stages (dt : Dtype) (c : Cell) :
  App.none_if_null (time_cell (date_dtype dt) (date_cell dt c)) = render dt c.
Proof.
  unfold render. destruct dt; simpl; try reflexivity.
  destruct c; reflexivity.
Qed.

(** The serialiser of [app.py], cell by cell. *)
Lemma df_to_records_rows (df : DataFrame) :
  App._df_to_records df = map (render_row (header df)) (rows df).
Proof.
  unfold App._df_to_records, to_dict_records, App.nulls_to_none.
  rewrite format_times_columns, format_dates_columns.
  set (n := length (header df)).
  rewrite header_length_columns_upto. fold n.
  unfold columns. simpl. rewrite !map_map.
  apply map_ext. intros r. unfold render_row. apply list_eq. intros j.
  rewrite !lookup_zip_with.
  rewrite !list_lookup_fmap, !list_lookup_imap.
  destruct (header df !! j) as [h|] eqn:Hh; [|reflexivity]. simpl.
  pose proof (lookup_lt_Some _ _ _ Hh) as Hj. fold n in Hj.
  destruct (Nat.ltb_spec j n); [|lia]. simpl.
  destruct (r !! j) as [c|]; [|reflexivity]. simpl.
  destruct (Nat.ltb_spec j n); [|lia].
  f_equal. f_equal. rewrite <- render_stages. f_equal.
  unfold dtype at 1. simpl. rewrite list_lookup_imap, Hh. simpl.
  destruct (Nat.ltb_spec j n); [|lia]. simpl.
  unfold dtype. rewrite Hh. reflexivity.
Qed.

Lemma civil_roundtrip y m d :
  Py.valid_date y m d = true ->
  Py.civil_from_days (Py.days_from_civil y m d) = (y, m, d).
Proof.
  unfold Py.valid_date. intros H.
  apply andb_true_iff in H as [H Hd2]. apply andb_true_iff in H as [H Hd1].
  apply andb_true_iff in H as [Hm1 Hm2].
  apply Z.leb_le in Hm1, Hm2, Hd1, Hd2.
  unfold Py.days_in_month, Py.is_leap in Hd2.
  apply civil_roundtrip_prop; [lia| | |].
  - destruct (m =? 2); [destruct (_ || _); lia|].
    destruct (_ || _); lia.
  - intros Hm.
    destruct (Z.eqb_spec m 2); [lia|].
    destruct (Z.eqb_spec m 4), (Z.eqb_spec m 6), (Z.eqb_spec m 9), (Z.eqb_spec m 11);
      simpl in Hd2; lia.
  - intros ->. change (2 =? 2) with true in Hd2. cbv iota in Hd2.
    destruct (Z.eqb_spec (y mod 4) 0), (Z.eqb_spec (y mod 100) 0),
      (Z.eqb_spec (y mod 400) 0); simpl in Hd2; Z.div_mod_to_equations; lia.
Qed.












(** * Further properties *)

(** ** The calendar *)

Lemma doe_parts doe :
  0 <= doe < 146097 ->
  let yoe := (doe - doe / 1460 + doe / 36524 - doe / 146096) / 365 in
  let doy := doe - (365 * yoe + yoe / 4 - yoe / 100) in
  0 <= yoe <= 399 /\ 0 <= doy /\
  (doy <= 364 \/
   (doy = 365 /\ (yoe + 1) mod 4 = 0 /\ ((yoe + 1) mod 100 <> 0 \/ yoe = 399))).
Proof.
  intros H yoe doy. subst doy yoe.
  Z.div_mod_to_equations; lia.
Qed.

(** The parts [civil_from_days] computes, named. *)
Lemma civil_from_days_parts z :
  exists era yoe doy mp,
    0 <= yoe <= 399 /\ 0 <= doy /\
    (doy <= 364 \/
     (doy = 365 /\ (yoe + 1) mod 4 = 0 /\ ((yoe + 1) mod 100 <> 0 \/ yoe = 399))) /\
    mp = (5 * doy + 2) / 153 /\
    z = era * 146097 + (yoe * 365 + yoe / 4 - yoe / 100 + doy) - 719468 /\
    Py.civil_from_days z =
      (if (if mp <? 10 then mp + 3 else mp - 9) <=? 2
       then yoe + era * 400 + 1 else yoe + era * 400,
       if mp <? 10 then mp + 3 else mp - 9,
       doy - (153 * mp + 2) / 5 + 1).
Proof.
  set (era := (z + 719468) / 146097).
  set (doe := z + 719468 - era * 146097).
  assert (0 <= doe < 146097) as Hdoe.
  { subst doe era. Z.div_mod_to_equations; lia. }
  pose proof (doe_parts doe Hdoe) as Hp. cbv zeta in Hp.
  set (yoe := (doe - doe / 1460 + doe / 36524 - doe / 146096) / 365) in *.
  set (doy := doe - (365 * yoe + yoe / 4 - yoe / 100)) in *.
  destruct Hp as (Hy & Hd & Hl).
  exists era, yoe, doy, ((5 * doy + 2) / 153).
  split; [exact Hy|]. split; [exact Hd|]. split; [exact Hl|].
  split; [reflexivity|]. split; [subst doy doe; lia|].
  apply (civil_from_days_decomposed z era doe yoe doy); try reflexivity.
  - subst doe. lia.
  - exact Hdoe.
Qed.

Lemma days_from_civil_of_parts era yoe doy :
  0 <= yoe <= 399 -> 0 <= doy <= 365 ->
  let mp := (5 * doy + 2) / 153 in
  let m := if mp <? 10 then mp + 3 else mp - 9 in
  Py.days_from_civil (if m <=? 2 then yoe + era * 400 + 1 else yoe + era * 400) m
                     (doy - (153 * mp + 2) / 5 + 1)
  = era * 146097 + (yoe * 365 + yoe / 4 - yoe / 100 + doy) - 719468.
Proof.
  intros Hy Hd mp m.
  assert (0 <= mp <= 11) as Hmp by (subst mp; Z.div_mod_to_equations; lia).
  unfold Py.days_from_civil. cbv zeta.
  assert ((if m <=? 2 then (if m <=? 2 then yoe + era * 400 + 1 else yoe + era * 400) - 1
           else (if m <=? 2 then yoe + era * 400 + 1 else yoe + era * 400))
          = yoe + era * 400) as ->.
  { destruct (m <=? 2); lia. }
  assert ((yoe + era * 400) / 400 = era) as ->.
  { symmetry. apply (Z.div_unique _ _ _ yoe); lia. }
  assert ((m + 9) mod 12 = mp) as ->.
  { subst m. destruct (Z.ltb_spec mp 10); Z.div_mod_to_equations; lia. }
  replace (yoe + era * 400 - era * 400) with yoe by lia.
  lia.
Qed.

(** Every day number is the day number of its own civil date. *)
Lemma days_from_civil_from_days z :
  Py.days_from_civil (Py.year z) (Py.month z) (Py.day z) = z.
Proof.
  destruct (civil_from_days_parts z) as (era & yoe & doy & mp & Hy & Hd & Hl & Hmp & Hz & Hc).
  unfold Py.year, Py.month, Py.day. rewrite Hc. simpl fst. simpl snd.
  rewrite Hmp. rewrite days_from_civil_of_parts by lia. lia.
Qed.

(** The civil date of a day number is a date of the calendar. *)
Lemma civil_from_days_valid z :
  Py.valid_date (Py.year z) (Py.month z) (Py.day z) = true.
Proof.
  destruct (civil_from_days_parts z) as (era & yoe & doy & mp & Hy & Hd & Hl & Hmp & Hz & Hc).
  unfold Py.year, Py.month, Py.day. rewrite Hc. simpl fst. simpl snd.
  assert (0 <= mp <= 11) as Hmpr by (subst mp; Z.div_mod_to_equations; lia).
  set (m := if mp <? 10 then mp + 3 else mp - 9).
  set (d := doy - (153 * mp + 2) / 5 + 1).
  set (y := if m <=? 2 then yoe + era * 400 + 1 else yoe + era * 400).
  assert (1 <= m <= 12) as Hm by (subst m; destruct (Z.ltb_spec mp 10); lia).
  assert (1 <= d <= 31 /\
          (m = 4 \/ m = 6 \/ m = 9 \/ m = 11 -> d <= 30) /\
          (m = 2 -> d <= 29 /\ (d = 29 -> doy = 365))) as (Hd1 & Hd30 & Hfeb).
  { subst d m. rewrite Hmp in *. destruct (Z.ltb_spec ((5 * doy + 2) / 153) 10);
      Z.div_mod_to_equations; lia. }
  unfold Py.valid_date, Py.days_in_month, Py.is_leap.
  apply andb_true_iff. split; [apply andb_true_iff; split; [apply andb_true_iff; split|]|];
    try (apply Z.leb_le; lia).
  apply Z.leb_le.
  destruct (Z.eqb_spec m 2) as [Hm2|Hm2].
  - destruct (Hfeb Hm2) as [H29 Hleap].
    assert (y = yoe + era * 400 + 1) as Hyv by (subst y; rewrite Hm2; reflexivity).
    destruct (Z.eqb_spec (y mod 4) 0), (Z.eqb_spec (y mod 100) 0),
      (Z.eqb_spec (y mod 400) 0); simpl; try lia;
      (assert (d <> 29); [|lia]); intros Hd29; specialize (Hleap Hd29);
      destruct Hl as [Hl|(_ & H4 & H100)]; try lia;
      rewrite Hyv in *; Z.div_mod_to_equations; lia.
  - destruct (Z.eqb_spec m 4), (Z.eqb_spec m 6), (Z.eqb_spec m 9), (Z.eqb_spec m 11);
      simpl; lia.
Qed.

Lemma valid_date_prop y m d :
  Py.valid_date y m d = true ->
  1 <= m <= 12 /\ 1 <= d <= Py.days_in_month y m.
Proof.
  unfold Py.valid_date. intros H.
  apply andb_true_iff in H as [H Hd2]. apply andb_true_iff in H as [H Hd1].
  apply andb_true_iff in H as [Hm1 Hm2].
  apply Z.leb_le in Hm1, Hm2, Hd1, Hd2. lia.
Qed.

Lemma days_in_month_cases y m :
  1 <= m <= 12 ->
  (m = 2 /\ ((Py.days_in_month y m = 29 /\ y mod 4 = 0 /\ (y mod 100 <> 0 \/ y mod 400 = 0)) \/
             (Py.days_in_month y m = 28 /\ (y mod 4 <> 0 \/ (y mod 100 = 0 /\ y mod 400 <> 0))))) \/
  ((m = 4 \/ m = 6 \/ m = 9 \/ m = 11) /\ Py.days_in_month y m = 30) \/
  ((m = 1 \/ m = 3 \/ m = 5 \/ m = 7 \/ m = 8 \/ m = 10 \/ m = 12) /\ Py.days_in_month y m = 31).
Proof.
  intros Hm. unfold Py.days_in_month, Py.is_leap.
  destruct (Z.eqb_spec m 2).
  - left. split; [assumption|].
    destruct (Z.eqb_spec (y mod 4) 0), (Z.eqb_spec (y mod 100) 0),
      (Z.eqb_spec (y mod 400) 0); simpl;
      first [ left; split; [reflexivity | Z.div_mod_to_equations; lia]
            | right; split; [reflexivity | Z.div_mod_to_equations; lia] ].
  - right.
    destruct (Z.eqb_spec m 4), (Z.eqb_spec m 6), (Z.eqb_spec m 9), (Z.eqb_spec m 11);
      simpl; try (left; split; [lia|reflexivity]).
    right. split; [lia|reflexivity].
Qed.

(** Decide the tests of a goal whose conditions are closed. *)
Ltac closed_ifs :=
  repeat match goal with
         | |- context [if ?b then _ else _] =>
             let v := eval vm_compute in b in change b with v; cbv iota
         end.

(** The first day of the next month follows the last day of the month. *)
Lemma first_of_next_month y m :
  1 <= m <= 12 ->
  Py.days_from_civil (if m =? 12 then y + 1 else y) (if m =? 12 then 1 else m + 1) 1 =
  Py.days_from_civil y m (Py.days_in_month y m) + 1.
Proof.
  intros Hm. pose proof (days_in_month_cases y m Hm) as Hc.
  assert (m = 1 \/ m = 2 \/ m = 3 \/ m = 4 \/ m = 5 \/ m = 6 \/ m = 7 \/ m = 8 \/ m = 9 \/
          m = 10 \/ m = 11 \/ m = 12) as Hcases by lia.
  unfold Py.days_from_civil. cbv zeta.
  repeat (destruct Hcases as [Hcases|Hcases]; [subst m; closed_ifs; Z.div_mod_to_equations; lia|]).
  subst m; closed_ifs; Z.div_mod_to_equations; lia.
Qed.

Lemma days_from_civil_day y m d d' :
  Py.days_from_civil y m d - d = Py.days_from_civil y m d' - d'.
Proof. unfold Py.days_from_civil. cbv zeta. lia. Qed.

(** A date lies between the first of January and the last of December of
    its year. *)
Lemma within_year y m d :
  Py.valid_date y m d = true ->
  Py.days_from_civil y 1 1 <= Py.days_from_civil y m d <= Py.days_from_civil y 12 31.
Proof.
  intros Hv. apply valid_date_prop in Hv as [Hm Hd].
  pose proof (days_in_month_cases y m Hm) as Hc.
  assert (m = 1 \/ m = 2 \/ m = 3 \/ m = 4 \/ m = 5 \/ m = 6 \/ m = 7 \/ m = 8 \/ m = 9 \/
          m = 10 \/ m = 11 \/ m = 12) as Hcases by lia.
  unfold Py.days_from_civil. cbv zeta.
  repeat (destruct Hcases as [Hcases|Hcases]; [subst m; closed_ifs; Z.div_mod_to_equations; lia|]).
  subst m; closed_ifs; Z.div_mod_to_equations; lia.
Qed.

Lemma today_civil today :
  let y := Py.year today in let m := Py.month today in let d := Py.day today in
  Py.valid_date y m d = true /\ Py.days_from_civil y m d = today.
Proof. split; [apply civil_from_days_valid | apply days_from_civil_from_days]. Qed.

Lemma valid_first y m d : Py.valid_date y m d = true -> Py.valid_date y m 1 = true.
Proof.
  intros Hv. apply valid_date_prop in Hv as [Hm Hd].
  unfold Py.valid_date.
  apply andb_true_iff. split; [apply andb_true_iff; split; [apply andb_true_iff; split|]|];
    apply Z.leb_le; lia.
Qed.

Lemma valid_last y m d : Py.valid_date y m d = true -> Py.valid_date y m (Py.days_in_month y m) = true.
Proof.
  intros Hv. apply valid_date_prop in Hv as [Hm Hd].
  unfold Py.valid_date.
  apply andb_true_iff. split; [apply andb_true_iff; split; [apply andb_true_iff; split|]|];
    apply Z.leb_le; lia.
Qed.

Lemma year_month_of y m d :
  Py.valid_date y m d = true ->
  Py.year (Py.days_from_civil y m d) = y /\ Py.month (Py.days_from_civil y m d) = m /\
  Py.day (Py.days_from_civil y m d) = d.
Proof.
  intros Hv. unfold Py.year, Py.month, Py.day. rewrite (civil_roundtrip _ _ _ Hv). auto.
Qed.

(** [thismonth] in [app.py]: from the first to the last day of the month
    of today. *)
Lemma App_get_range_thismonth today :
  let y := Py.year today in let m := Py.month today in
  App.get_range today "thismonth" =
    (Some (Py.days_from_civil y m 1), Some (Py.days_from_civil y m (Py.days_in_month y m))).
Proof.
  intros y m. destruct (today_civil today) as [Hv Ht]. fold y m in Hv, Ht.
  change (App.get_range today "thismonth") with
    (Some (Py.replace_day1 today), Some (Py.add_month_first (Py.replace_day1 today) - 1)).
  unfold Py.replace_day1, Py.add_month_first. fold y m.
  destruct (year_month_of y m 1 (valid_first _ _ _ Hv)) as (Hy & Hm & _).
  rewrite Hy, Hm.
  pose proof (first_of_next_month y m (proj1 (valid_date_prop _ _ _ Hv))) as Hn.
  destruct (m =? 12); rewrite Hn; repeat f_equal; lia.
Qed.

(** ** Presets of [get_range] *)

Lemma weekday_range t : 0 <= Py.weekday t <= 6.
Proof. unfold Py.weekday. Z.div_mod_to_equations; lia. Qed.

Ltac preset_cases :=
  repeat match goal with
         | |- context [String.eqb ?a ?b] =>
             let E := fresh "E" in
             destruct (String.eqb a b) eqn:E;
             [apply String.eqb_eq in E; subst|]
         end.

(** X1.  Every range [get_range] returns is well ordered, and but for
    [yesterday] and [tomorrow] it contains today; in [app.py] and in
    [api/index.py]. *)
Theorem get_range_ordered_and_current (today : Py.date) (ft : string) (s e : Py.date) :
  (App.get_range today ft = (Some s, Some e) ->
   s <= e /\ (ft <> "yesterday" -> ft <> "tomorrow" -> s <= today <= e)) /\
  (Api.get_range today ft = (Some s, Some e) ->
   s <= e /\ (ft <> "yesterday" -> s <= today <= e)).
Proof.
  destruct (today_civil today) as [Hv Ht].
  pose proof (within_year _ _ _ Hv) as Hyear. rewrite Ht in Hyear.
  pose proof (weekday_range today) as Hw.
  pose proof (days_from_civil_day (Py.year today) (Py.month today) (Py.day today) 1) as Hd1.
  pose proof (days_from_civil_day (Py.year today) (Py.month today) (Py.day today)
                (Py.days_in_month (Py.year today) (Py.month today))) as Hdl.
  rewrite Ht in Hd1, Hdl.
  destruct (valid_date_prop _ _ _ Hv) as [Hm Hd].
  split.
  - intros H.
    destruct (String.eqb ft "thismonth") eqn:Em.
    + apply String.eqb_eq in Em. subst ft. rewrite App_get_range_thismonth in H.
      injection H as <- <-. split; [lia|]. intros _ _. lia.
    + unfold App.get_range in H. rewrite Em in H. revert H.
      preset_cases; intros [= <- <-]; (split; [lia | intros; try congruence; lia]).
  - unfold Api.get_range.
    preset_cases; intros [= <- <-]; (split; [lia | intros; try congruence; lia]).
Qed.

Lemma get_range_ordered_and_current_witness :
  App.get_range jan31 "last7" = (Some (jan31 - 6), Some jan31) /\
  jan31 - 6 <= jan31 /\ jan31 - 6 <= jan31 <= jan31.
Proof.
  split; [reflexivity|].
  destruct (proj1 (get_range_ordered_and_current jan31 "last7" (jan31 - 6) jan31) eq_refl)
    as [H1 H2].
  split; [exact H1|]. apply H2; discriminate.
Defined.

(** X2.  [thisweek] in [app.py] is the week from Monday to Sunday that
    contains today. *)
Theorem thisweek_is_monday_to_sunday (today : Py.date) :
  exists monday,
    App.get_range today "thisweek" = (Some monday, Some (monday + 6)) /\
    Py.weekday monday = 0 /\ Py.weekday (monday + 6) = 6 /\
    monday <= today <= monday + 6.
Proof.
  exists (today - Py.weekday today). split; [reflexivity|].
  unfold Py.weekday. repeat split; Z.div_mod_to_equations; lia.
Qed.

(** X3.  [thismonth] in [app.py] runs from the first to the last day of the
    month of today; [this_month] in [api/index.py] starts on the same day and
    ends today. *)
Theorem thismonth_is_the_calendar_month (today : Py.date) :
  let y := Py.year today in
  let m := Py.month today in
  let first := Py.days_from_civil y m 1 in
  let last := Py.days_from_civil y m (Py.days_in_month y m) in
  App.get_range today "thismonth" = (Some first, Some last) /\
  Api.get_range today "this_month" = (Some first, Some today) /\
  Py.civil_from_days first = (y, m, 1) /\
  Py.civil_from_days last = (y, m, Py.days_in_month y m) /\
  Py.civil_from_days (last + 1) = (if m =? 12 then y + 1 else y, if m =? 12 then 1 else m + 1, 1) /\
  first <= today <= last.
Proof.
  intros y m first last. destruct (today_civil today) as [Hv Ht]. fold y m in Hv, Ht.
  destruct (valid_date_prop _ _ _ Hv) as [Hm Hd].
  split; [apply App_get_range_thismonth|]. split; [reflexivity|].
  split; [apply civil_roundtrip; eapply valid_first; eassumption|].
  split; [apply civil_roundtrip; eapply valid_last; eassumption|].
  split.
  - subst last. rewrite <- (first_of_next_month y m Hm). apply civil_roundtrip.
    unfold Py.valid_date.
    destruct (Z.eqb_spec m 12); [reflexivity|].
    pose proof (days_in_month_cases (y) (m + 1)) as Hc.
    apply andb_true_iff. split; [apply andb_true_iff; split; [apply andb_true_iff; split|]|];
      apply Z.leb_le; lia.
  - pose proof (days_from_civil_day y m (Py.day today) 1) as Hd1.
    pose proof (days_from_civil_day y m (Py.day today) (Py.days_in_month y m)) as Hdl.
    rewrite Ht in Hd1, Hdl. subst first last. lia.
Qed.

(** X4.  [thisyear] ([app.py]) and [this_year] ([api/index.py]) run from the
    first of January to the last of December of the year of today. *)
Theorem thisyear_is_the_calendar_year (today : Py.date) :
  let y := Py.year today in
  let first := Py.days_from_civil y 1 1 in
  let last := Py.days_from_civil y 12 31 in
  App.get_range today "thisyear" = (Some first, Some last) /\
  Api.get_range today "this_year" = (Some first, Some last) /\
  Py.civil_from_days first = (y, 1, 1) /\
  Py.civil_from_days last = (y, 12, 31) /\
  first <= today <= last.
Proof.
  intros y first last. destruct (today_civil today) as [Hv Ht]. fold y in Hv, Ht.
  split; [reflexivity|]. split; [reflexivity|].
  split; [apply civil_roundtrip; reflexivity|].
  split; [apply civil_roundtrip; reflexivity|].
  pose proof (within_year _ _ _ Hv) as H. rewrite Ht in H. exact H.
Qed.


(** ** Bounds of the counters *)

Lemma count_at_range (df : DataFrame) (i : nat) (label : string) :
  0 <= count_at df i label <= len df.
Proof.
  unfold count_at, len. pose proof (List.filter_length_le
    (fun r => String.eqb (clean (cell r i)) label) (rows df)). lia.
Qed.

Lemma label_count_range (df : DataFrame) (col label : string) :
  0 <= label_count df col label <= len df.
Proof.
  unfold label_count. destruct (col_index col df).
  - apply count_at_range.
  - unfold len. lia.
Qed.

Lemma ipd_count_range (df : DataFrame) : 0 <= ipd_count_of df <= len df.
Proof.
  unfold ipd_count_of.
  destruct (_ =? 0); apply label_count_range.
Qed.

(** Rows counted under different labels are different rows. *)
Lemma hits_disjoint (x : string) (labels : list string) :
  NoDup labels ->
  fold_right Z.add 0 (map (fun l => if String.eqb x l then 1 else 0) labels) <= 1.
Proof.
  induction 1 as [|l ls Hnotin Hnd IH]; cbn [map fold_right]; [lia|].
  destruct (String.eqb x l) eqn:E; [|lia].
  apply String.eqb_eq in E. subst l.
  assert (fold_right Z.add 0 (map (fun l => if String.eqb x l then 1 else 0) ls) = 0) as ->;
    [|lia].
  clear IH Hnd. induction ls as [|l' ls IH]; cbn [map fold_right]; [reflexivity|].
  destruct (String.eqb x l') eqn:E'.
  - apply String.eqb_eq in E'. subst l'. exfalso. apply Hnotin. left.
  - rewrite IH; [reflexivity|]. intros H. apply Hnotin. right. exact H.
Qed.

Lemma count_rows_disjoint (f : list Cell -> string) (rs : list (list Cell))
    (labels : list string) :
  NoDup labels ->
  fold_right Z.add 0
    (map (fun l => Z.of_nat (length (List.filter (fun r => String.eqb (f r) l) rs))) labels)
  <= Z.of_nat (length rs).
Proof.
  intros Hnd. induction rs as [|r rs IH].
  - cbn [List.filter length]. clear Hnd.
    induction labels as [|l ls IHl]; cbn [map fold_right]; lia.
  - pose proof (hits_disjoint (f r) labels Hnd) as Hh.
    assert (fold_right Z.add 0
              (map (fun l => Z.of_nat (length (List.filter (fun r0 => String.eqb (f r0) l)
                                                           (r :: rs)))) labels)
            = fold_right Z.add 0 (map (fun l => if String.eqb (f r) l then 1 else 0) labels)
              + fold_right Z.add 0
                  (map (fun l => Z.of_nat (length (List.filter
                                   (fun r0 => String.eqb (f r0) l) rs))) labels)) as ->.
    { clear. induction labels as [|l ls IHl]; cbn [map fold_right]; [reflexivity|].
      rewrite IHl. cbn [List.filter]. destruct (String.eqb (f r) l); cbn [length]; lia. }
    cbn [length]. lia.
Qed.

Lemma count_at_disjoint (df : DataFrame) (i : nat) (labels : list string) :
  NoDup labels ->
  fold_right Z.add 0 (map (count_at df i) labels) <= len df.
Proof. apply (count_rows_disjoint (fun r => clean (cell r i))). Qed.

Lemma label_count_disjoint (df : DataFrame) (col : string) (labels : list string) :
  NoDup labels ->
  fold_right Z.add 0 (map (label_count df col) labels) <= len df.
Proof.
  intros Hnd. unfold label_count. destruct (col_index col df) as [i|].
  - apply count_at_disjoint. exact Hnd.
  - unfold len. induction labels; simpl in *; [lia|].
    apply NoDup_cons in Hnd. destruct Hnd as [_ Hnd]. specialize (IHlabels Hnd). lia.
Qed.

(** X7.  Every counter of the summary lies between 0 and [total_records].
    The three counters that [app.py] reads off the [ Status] column count
    different rows, so together they do not exceed [total_records]; the same
    holds for the two that [api/index.py] reads off the first column, and
    for [opd_count] and [ipd_count] of [netlify/functions/api.py], which
    come from one status column. *)
Theorem counters_within_total_records (df : DataFrame) :
  (exists c opd ipd sur dia nsu,
      App.calculate_counts df = Return c /\
      c !! "opd_count" = Some opd /\ c !! "ipd_count" = Some ipd /\
      c !! "surgery_suggested" = Some sur /\ c !! "diagnostic_suggested" = Some dia /\
      c !! "surgery_not_suggested" = Some nsu /\
      c !! "total_records" = Some (len df) /\
      0 <= opd <= len df /\ 0 <= ipd <= len df /\
      0 <= sur /\ 0 <= dia /\ 0 <= nsu /\ sur + dia + nsu <= len df) /\
  (exists c opd ipd,
      Netlify.calculate_counts df = Return c /\
      c !! "opd_count" = Some (Netlify.VInt opd) /\
      c !! "ipd_count" = Some (Netlify.VInt ipd) /\
      c !! "total_records" = Some (Netlify.VInt (len df)) /\
      0 <= opd /\ 0 <= ipd /\ opd + ipd <= len df) /\
  (columns df <> [] ->
   exists c opd ipd sur dia,
      Api.calculate_counts df = Return c /\
      c !! "opd_count" = Some opd /\ c !! "ipd_count" = Some ipd /\
      c !! "surgery_suggested" = Some sur /\ c !! "diagnostic_suggested" = Some dia /\
      c !! "total_records" = Some (len df) /\
      0 <= opd <= len df /\ 0 <= ipd <= len df /\
      0 <= sur /\ 0 <= dia /\ sur + dia <= len df).
Proof.
  split; [|split].
  - destruct (App_calculate_counts_spec df) as (c & Hc & H1 & H2 & H3 & H4 & H5 & H6).
    exists c. eexists _, _, _, _, _.
    split; [exact Hc|]. do 6 (split; [eassumption|]).
    pose proof (label_count_disjoint df " Status"
                  ["surgery suggested"; "diagnostic suggested"; "surgery not suggested"]) as Hd.
    simpl in Hd.
    pose proof (label_count_range df "OPD&IPD" "opd completed").
    pose proof (ipd_count_range df).
    pose proof (label_count_range df " Status" "surgery suggested").
    pose proof (label_count_range df " Status" "diagnostic suggested").
    pose proof (label_count_range df " Status" "surgery not suggested").
    assert (NoDup ["surgery suggested"; "diagnostic suggested"; "surgery not suggested"])
      as Hnd by (apply NoDup_ListNoDup; repeat constructor; simpl; intuition discriminate).
    specialize (Hd Hnd). repeat split; lia.
  - destruct (Netlify_calculate_counts_spec df) as (c & Hc & H1 & H2 & H3 & _).
    exists c. eexists _, _.
    split; [exact Hc|]. do 3 (split; [eassumption|]).
    assert (NoDup ["opd completed"; "ipd completed"])
      as Hnd by (apply NoDup_ListNoDup; repeat constructor; simpl; intuition discriminate).
    unfold status_count. destruct (Netlify.find_status_col (columns df)) as [col|].
    + pose proof (label_count_disjoint df col ["opd completed"; "ipd completed"] Hnd) as Hd.
      simpl in Hd.
      pose proof (label_count_range df col "opd completed").
      pose proof (label_count_range df col "ipd completed").
      repeat split; lia.
    + unfold len. repeat split; lia.
  - intros Hne. pose proof (Api_calculate_counts_spec df) as H.
    destruct (Api.calculate_counts df) as [c|e]; [|destruct H; contradiction].
    destruct H as (_ & H1 & H2 & H3 & H4 & H5).
    exists c. eexists _, _, _, _.
    split; [reflexivity|]. do 5 (split; [eassumption|]).
    pose proof (count_at_disjoint df 0 ["surgery suggested"; "diagnostic suggested"]) as Hd.
    simpl in Hd.
    pose proof (label_count_range df "OPD&IPD" "opd completed").
    pose proof (ipd_count_range df).
    pose proof (count_at_range df 0 "surgery suggested").
    pose proof (count_at_range df 0 "diagnostic suggested").
    assert (NoDup ["surgery suggested"; "diagnostic suggested"])
      as Hnd by (apply NoDup_ListNoDup; repeat constructor; simpl; intuition discriminate).
    specialize (Hd Hnd). repeat split; lia.
Qed.

Lemma counters_within_total_records_witness :
  columns status_table <> [] /\
  exists c opd ipd sur dia,
    Api.calculate_counts status_table = Return c /\
    c !! "opd_count" = Some opd /\ c !! "ipd_count" = Some ipd /\
    c !! "surgery_suggested" = Some sur /\ c !! "diagnostic_suggested" = Some dia /\
    c !! "total_records" = Some (len status_table) /\
    0 <= opd <= len status_table /\ 0 <= ipd <= len status_table /\
    0 <= sur /\ 0 <= dia /\ sur + dia <= len status_table.
Proof.
  assert (columns status_table <> []) as H by discriminate.
  split; [exact H|].
  exact (proj2 (proj2 (counters_within_total_records status_table)) H).
Defined.

(** ** Selections *)

Lemma select_rows_filter_le (p : list Cell -> bool) (rs : list (list Cell))
    (mask : list bool) :
  (length (List.filter p (select_rows rs mask)) <= length (List.filter p rs))%nat.
Proof.
  revert mask. induction rs as [|r rs IH]; intros [|b mask]; simpl; try lia.
  specialize (IH mask). destruct b; simpl; destruct (p r); simpl; lia.
Qed.

Lemma select_rows_length_le (rs : list (list Cell)) (mask : list bool) :
  (length (select_rows rs mask) <= length rs)%nat.
Proof.
  revert mask. induction rs as [|r rs IH]; intros [|b mask]; simpl; try lia.
  specialize (IH mask). destruct b; simpl; lia.
Qed.

Lemma label_count_selection (df : DataFrame) (mask : list bool) (col label : string) :
  label_count (loc_mask df mask) col label <= label_count df col label.
Proof.
  unfold label_count, col_index, columns, loc_mask, count_at. simpl.
  destruct (index_of col (map fst (header df))) as [i|]; [|lia].
  pose proof (select_rows_filter_le
                (fun r => String.eqb (clean (cell r i)) label) (rows df) mask). lia.
Qed.

(** X8.  Selecting rows never raises a counter read off one column: for
    every boolean mask, [opd_count], the three [ Status] counters and
    [total_records] of the selection are at most those of the whole table.
    ([ipd_count] is left out: its fallback to [IPD Status] applies to the
    selection on its own.) *)
Theorem selection_never_raises_a_counter (df : DataFrame) (mask : list bool) :
  exists c c' : gmap string Z,
    App.calculate_counts df = Return c /\
    App.calculate_counts (loc_mask df mask) = Return c' /\
    Forall (fun key => exists n n', c !! key = Some n /\ c' !! key = Some n' /\ 0 <= n' <= n)
           ["opd_count"; "surgery_suggested"; "diagnostic_suggested";
            "surgery_not_suggested"; "total_records"].
Proof.
  destruct (App_calculate_counts_spec df) as (c & Hc & H1 & _ & H3 & H4 & H5 & H6).
  destruct (App_calculate_counts_spec (loc_mask df mask))
    as (c' & Hc' & H1' & _ & H3' & H4' & H5' & H6').
  exists c, c'. split; [exact Hc|]. split; [exact Hc'|].
  repeat apply List.Forall_cons; try apply List.Forall_nil; cbv beta;
    eexists _, _; (split; [eassumption|]); (split; [eassumption|]);
    (split; [try apply label_count_nonneg; unfold len; lia|]);
    try apply label_count_selection.
  unfold len, loc_mask. simpl.
  pose proof (select_rows_length_le (rows df) mask). lia.
Qed.

(** ** Row order *)

Lemma count_at_perm (d d' : DataFrame) (i : nat) (label : string) :
  rows d' ≡ₚ rows d -> count_at d' i label = count_at d i label.
Proof.
  intros Hp. unfold count_at. f_equal.
  apply Permutation_length.
  induction Hp; simpl; try reflexivity.
  - destruct (String.eqb _ _); [constructor|]; assumption.
  - repeat destruct (String.eqb _ _); try reflexivity. constructor.
  - etransitivity; eassumption.
Qed.

(** X9.  The summary does not depend on the order of the rows: two tables
    with the same header whose rows are a permutation of each other get the
    same summary from [calculate_counts] of [app.py] and of
    [api/index.py]. *)
Theorem summary_ignores_row_order (d d' : DataFrame) :
  header d' = header d -> rows d' ≡ₚ rows d ->
  App.calculate_counts d' = App.calculate_counts d /\
  Api.calculate_counts d' = Api.calculate_counts d.
Proof.
  intros Hh Hp.
  assert (len d' = len d) as Hlen
    by (unfold len; rewrite (Permutation_length Hp); reflexivity).
  assert (forall name, col_index name d' = col_index name d) as Hci
    by (intros name; unfold col_index, columns; rewrite Hh; reflexivity).
  assert (columns d' = columns d) as Hcols by (unfold columns; rewrite Hh; reflexivity).
  split.
  - unfold App.calculate_counts. rewrite !Hci, Hlen.
    destruct (col_index "OPD&IPD" d) as [i|];
      destruct (col_index "IPD Status" d) as [j|];
      destruct (col_index " Status" d) as [k|];
      rewrite ?(count_in_selection _ k) by (simpl; tauto);
      rewrite ?count_eq_cleaned;
      rewrite ?(count_at_perm d d') by exact Hp; reflexivity.
  - unfold Api.calculate_counts. rewrite !Hci, Hlen, Hcols.
    destruct (col_index "OPD&IPD" d) as [i|];
      destruct (col_index "IPD Status" d) as [j|];
      rewrite ?count_eq_cleaned;
      rewrite ?(count_at_perm d d') by exact Hp; reflexivity.
Qed.

Lemma summary_ignores_row_order_witness :
  let d' := mkDF [("OPD&IPD", DObject)]
                 [[CStr "ipd completed"]; [CStr "OPD Completed"]; [CStr "Pending"];
                  [CStr "OPD Completed"]] in
  header d' = header status_table /\ rows d' ≡ₚ rows status_table /\
  App.calculate_counts d' = App.calculate_counts status_table /\
  Api.calculate_counts d' = Api.calculate_counts status_table.
Proof.
  intros d'.
  assert (rows d' ≡ₚ rows status_table) as Hp.
  { apply Permutation_swap. }
  split; [reflexivity|]. split; [exact Hp|].
  exact (summary_ignores_row_order status_table d' eq_refl Hp).
Defined.

(** ** Frames *)

Lemma frame_refl n w : frame n w w.
Proof. unfold frame. auto 6. Qed.

Lemma frame_trans n w1 w2 w3 : frame n w1 w2 -> frame n w2 w3 -> frame n w1 w3.
Proof.
  unfold frame. intros (A1 & A2 & A3 & A4 & A5) (B1 & B2 & B3 & B4 & B5).
  repeat split; try congruence; try lia.
  intros l Hl. rewrite B5, A5 by exact Hl. reflexivity.
Qed.

Lemma frame_append n w (h : list DataFrame) :
  (n <= length (heap w))%nat -> frame n w (with_heap w (heap w ++ h)).
Proof.
  intros Hn. unfold frame, with_heap, table_at. simpl. repeat split; auto.
  - rewrite length_app. lia.
  - intros l Hl. apply lookup_app_l. lia.
Qed.

Lemma frame_update_append n w l d1 (h : list DataFrame) :
  (n <= l)%nat -> (n <= length (heap w))%nat ->
  frame n w (with_heap w (<[l := d1]> (heap w) ++ h)).
Proof.
  intros Hn Hlen. unfold frame, with_heap, table_at. simpl. repeat split; auto.
  - rewrite length_app, length_insert. lia.
  - intros l2 Hl. rewrite lookup_app_l by (rewrite length_insert; lia).
    apply list_lookup_insert_ne. lia.
Qed.

Lemma frame_cache_entry w w' c d :
  df_cache w = Some c -> table_at w c = Some d -> frame (S c) w w' ->
  cache_entry w' = cache_entry w /\ requests w' = requests w.
Proof.
  intros Hc Hd (A1 & A2 & A3 & _ & A5). split; [|exact A3].
  unfold cache_entry. rewrite A1, A2, Hc. simpl. rewrite A5 by lia. reflexivity.
Qed.

Lemma copy_run w l d :
  table_at w l = Some d ->
  copy l w = (Return (length (heap w)), with_heap w (heap w ++ [d])).
Proof. unfold table_at, copy, bind, deref, new_object. intros ->. reflexivity. Qed.

Lemma table_at_new w (d : DataFrame) :
  table_at (with_heap w (heap w ++ [d])) (length (heap w)) = Some d.
Proof. unfold table_at, with_heap. simpl. apply lookup_new_object. Qed.

Lemma table_at_new_updated w l (d1 x : DataFrame) :
  table_at (with_heap w (<[l:=d1]> (heap w) ++ [x])) (length (heap w)) = Some x.
Proof.
  unfold table_at, with_heap. simpl.
  rewrite <- (length_insert (heap w) l d1). apply lookup_new_object.
Qed.

Lemma narrows_refl o : narrows o o.
Proof. split; [reflexivity | lia]. Qed.

Lemma narrows_trans o1 o2 o3 : narrows o1 o2 -> narrows o2 o3 -> narrows o1 o3.
Proof. intros [A1 A2] [B1 B2]. split; [congruence | lia]. Qed.

Lemma narrows_filtered (d : DataFrame) i s e : narrows d (filtered d i s e).
Proof. split; [reflexivity|]. unfold filtered. simpl. apply List.filter_length_le. Qed.

Lemma narrows_coerce_column parse i (d : DataFrame) : narrows d (coerce_column parse i d).
Proof.
  split.
  - unfold coerce_column. apply columns_assign_column.
  - unfold coerce_column. rewrite rows_assign_map, length_map. lia.
Qed.

(** The date block of the routes of [app.py] never raises; it touches no
    table below its argument and hands on a table that exists, with the
    same columns and no more rows. *)
Lemma App_date_block_run DATE parse n w out o b :
  table_at w out = Some o -> (n <= out)%nat ->
  exists out' w' o',
    App.date_block DATE parse out b w = (Return out', w') /\
    frame n w w' /\ table_at w' out' = Some o' /\ narrows o o' /\ (n <= out')%nat.
Proof.
  intros Ho Hn. pose proof (lookup_lt_Some _ _ _ Ho) as Hlt.
  assert (exists out' w' o', (Return out, w) = (Return out', w') /\
            frame n w w' /\ table_at w' out' = Some o' /\ narrows o o' /\
            (n <= out')%nat) as Hsame.
  { exists out, w, o. split; [reflexivity|]. split; [apply frame_refl|].
    split; [exact Ho|]. split; [apply narrows_refl | exact Hn]. }
  unfold App.date_block.
  destruct b as [[s|] [e|]]; try exact Hsame.
  rewrite (App_filter_df_run DATE parse w out o _ _ Ho).
  destruct (col_index DATE o) as [i|]; [|exact Hsame].
  destruct (dtype o i); try exact Hsame.
  - eexists _, _, _. split; [reflexivity|].
    split; [apply frame_update_append; lia|].
    split; [apply table_at_new_updated|].
    split; [|lia].
    exact (narrows_trans _ _ _ (narrows_coerce_column parse i o) (narrows_filtered _ i s e)).
  - eexists _, _, _. split; [reflexivity|].
    split; [apply frame_append; lia|].
    split; [apply table_at_new|]. split; [apply narrows_filtered | lia].
Qed.

Lemma col_index_of_column (o : DataFrame) (name : string) :
  In name (columns o) -> is_Some (col_index name o).
Proof. apply index_of_In. Qed.

Lemma select_equal_run n w out o name q :
  table_at w out = Some o -> In name (columns o) -> (n <= out)%nat ->
  exists w' o',
    select_equal out name q w = (Return (length (heap w)), w') /\
    frame n w w' /\ table_at w' (length (heap w)) = Some o' /\
    narrows o o' /\ header o' = header o /\
    exists i, col_index name o = Some i /\
      rows o' = List.filter
                  (fun r => String.eqb (Py.lower (astype_str (cell r i))) (Py.lower q))
                  (rows o).
Proof.
  intros Ho Hin Hn. pose proof (lookup_lt_Some _ _ _ Ho) as Hlt.
  destruct (col_index_of_column o name Hin) as [i Hi].
  unfold select_equal, bind, deref. unfold table_at in Ho. rewrite Ho, Hi.
  eexists _, _. split; [reflexivity|].
  split; [apply (frame_append n w [_]); lia|].
  split; [apply table_at_new|].
  split; [split; [reflexivity | apply select_rows_length_le]|].
  split; [reflexivity|].
  exists i. split; [reflexivity|]. simpl. unfold series. rewrite map_map.
  apply (select_rows_map
           (fun r => String.eqb (Py.lower (astype_str (cell r i))) (Py.lower q))).
Qed.

(** ** The field blocks *)

Lemma dict_set_entries k v d kv :
  In kv (Py.dict_set k v d) -> In kv d \/ snd kv = v.
Proof.
  induction d as [|[k' v'] r IH]; simpl.
  - intros [<-|[]]. right; reflexivity.
  - destruct (String.eqb k' k).
    + intros [<-|H]; [right; reflexivity | left; right; exact H].
    + intros [<-|H]; [left; left; reflexivity|].
      destruct (IH H) as [H'|H']; [left; right; exact H' | right; exact H'].
Qed.

Lemma fold_dict_set_entries (l : list string) (d : list (string * string)) kv :
  In kv (fold_left (fun d c => Py.dict_set (Py.lower c) c d) l d) ->
  In kv d \/ In (snd kv) l.
Proof.
  revert d. induction l as [|c l IH]; intros d; simpl; [auto|].
  intros H. destruct (IH _ H) as [H'|H'].
  - destruct (dict_set_entries _ _ _ _ H') as [H''|H'']; [auto|].
    right. left. symmetry. exact H''.
  - right. right. exact H'.
Qed.

(** The column the alias resolves to is a column of the table. *)
Lemma target_column_is_column o field t :
  App.target_column o field = Some t -> In t (columns o).
Proof.
  unfold App.target_column, Py.dict_get.
  destruct (List.find _ App.known_map) as [[k mapped]|]; simpl.
  - destruct (List.find _ (App.columns_lower o)) as [kv|] eqn:Hf; [|discriminate].
    simpl. intros [= <-]. apply List.find_some in Hf as [Hin _].
    destruct (fold_dict_set_entries _ _ _ Hin) as [[]|H]. exact H.
  - destruct (List.find _ (App.columns_lower o)) as [kv|] eqn:Hf; [|discriminate].
    simpl. intros [= <-]. apply List.find_some in Hf as [Hin _].
    destruct (fold_dict_set_entries _ _ _ Hin) as [[]|H]. exact H.
Qed.

(** The field blocks never raise; they touch no table and hand on a table
    that exists. *)
Lemma App_field_block_filter_run n w out o f q :
  table_at w out = Some o -> (n <= out)%nat ->
  exists out' w' o',
    App.field_block_filter out f q w = (Return out', w') /\
    frame n w w' /\ table_at w' out' = Some o' /\ narrows o o' /\ (n <= out')%nat.
Proof.
  intros Ho Hn. pose proof (lookup_lt_Some _ _ _ Ho) as Hlt.
  assert (exists out' w' o', (Return out, w) = (Return out', w') /\
            frame n w w' /\ table_at w' out' = Some o' /\ narrows o o' /\
            (n <= out')%nat) as Hsame.
  { exists out, w, o. split; [reflexivity|]. split; [apply frame_refl|].
    split; [exact Ho|]. split; [apply narrows_refl | exact Hn]. }
  unfold App.field_block_filter.
  destruct f as [f|]; [|exact Hsame]. destruct q as [q|]; [|exact Hsame].
  destruct (Py.truthy (Some f) && Py.truthy (Some q)); [|exact Hsame].
  unfold bind at 1, deref at 1. unfold table_at in Ho. rewrite Ho.
  destruct (List.find _ (columns o)) as [name|] eqn:Hf; [|exact Hsame].
  destruct (Py.truthy (Some name)); [|exact Hsame].
  apply List.find_some in Hf as [Hin _].
  destruct (select_equal_run n w out o name q Ho Hin Hn) as (w' & o' & Hrun & Hfr & Ht & Hnar & _).
  exists (length (heap w)), w', o'. rewrite Hrun.
  split; [reflexivity|]. split; [exact Hfr|]. split; [assumption|].
  split; [exact Hnar | lia].
Qed.

Lemma App_field_block_counts_run n w out o f q :
  table_at w out = Some o -> (n <= out)%nat ->
  exists out' w' o',
    App.field_block_counts out f q w = (Return out', w') /\
    frame n w w' /\ table_at w' out' = Some o' /\ narrows o o' /\ (n <= out')%nat.
Proof.
  intros Ho Hn. pose proof (lookup_lt_Some _ _ _ Ho) as Hlt.
  assert (exists out' w' o', (Return out, w) = (Return out', w') /\
            frame n w w' /\ table_at w' out' = Some o' /\ narrows o o' /\
            (n <= out')%nat) as Hsame.
  { exists out, w, o. split; [reflexivity|]. split; [apply frame_refl|].
    split; [exact Ho|]. split; [apply narrows_refl | exact Hn]. }
  unfold App.field_block_counts.
  destruct f as [f|]; [|exact Hsame]. destruct q as [q|]; [|exact Hsame].
  destruct (Py.truthy (Some f) && Py.truthy (Some q)); [|exact Hsame].
  unfold bind at 1, deref at 1. unfold table_at in Ho. rewrite Ho.
  destruct (App.target_column o f) as [t|] eqn:Ht; [|exact Hsame].
  destruct (Py.truthy (Some t)); [|exact Hsame].
  destruct (negb _); [|exact Hsame].
  pose proof (target_column_is_column _ _ _ Ht) as Hin.
  destruct (select_equal_run n w out o t q Ho Hin Hn) as (w' & o' & Hrun & Hfr & Ht' & Hnar & _).
  exists (length (heap w)), w', o'. rewrite Hrun.
  split; [reflexivity|]. split; [exact Hfr|]. split; [assumption|].
  split; [exact Hnar | lia].
Qed.

Lemma Api_field_block_run n w out o f q :
  table_at w out = Some o -> (n <= out)%nat ->
  exists out' w' o',
    Api.field_block out f q w = (Return out', w') /\
    frame n w w' /\ table_at w' out' = Some o' /\ narrows o o' /\ (n <= out')%nat.
Proof.
  intros Ho Hn. pose proof (lookup_lt_Some _ _ _ Ho) as Hlt.
  assert (exists out' w' o', (Return out, w) = (Return out', w') /\
            frame n w w' /\ table_at w' out' = Some o' /\ narrows o o' /\
            (n <= out')%nat) as Hsame.
  { exists out, w, o. split; [reflexivity|]. split; [apply frame_refl|].
    split; [exact Ho|]. split; [apply narrows_refl | exact Hn]. }
  unfold Api.field_block.
  destruct f as [f|]; [|exact Hsame]. destruct q as [q|]; [|exact Hsame].
  destruct (Py.truthy (Some f) && Py.truthy (Some q) && negb _); [|exact Hsame].
  unfold bind at 1, deref at 1. unfold table_at in Ho. rewrite Ho.
  destruct (List.find _ (columns o)) as [name|] eqn:Hf; [|exact Hsame].
  destruct (Py.truthy (Some name)); [|exact Hsame].
  apply List.find_some in Hf as [Hin _].
  destruct (select_equal_run n w out o name q Ho Hin Hn) as (w' & o' & Hrun & Hfr & Ht & Hnar & _).
  exists (length (heap w)), w', o'. rewrite Hrun.
  split; [reflexivity|]. split; [exact Hfr|]. split; [assumption|].
  split; [exact Hnar | lia].
Qed.

(** ** Routes *)

Lemma bind_run {A B} (c : M A) (k : A -> M B) w a w' :
  c w = (Return a, w') -> bind c k w = k a w'.
Proof. unfold bind. intros ->. reflexivity. Qed.

Lemma bind_raise {A B} (c : M A) (k : A -> M B) w e w' :
  c w = (Raise e, w') -> bind c k w = (Raise e, w').
Proof. unfold bind. intros ->. reflexivity. Qed.

Lemma deref_run w l d : table_at w l = Some d -> deref l w = (Return d, w).
Proof. unfold table_at, deref. intros ->. reflexivity. Qed.

Lemma deref_dangling w l : table_at w l = None -> deref l w = (Raise BadReference, w).
Proof. unfold table_at, deref. intros ->. reflexivity. Qed.

Lemma copy_dangling w l : table_at w l = None -> copy l w = (Raise BadReference, w).
Proof. intros H. unfold copy. apply bind_raise. apply deref_dangling. exact H. Qed.

Lemma df_to_records_length df :
  length (App._df_to_records df) = length (rows df).
Proof. rewrite df_to_records_rows. apply length_map. Qed.

(** What [fetch_excel] of [app.py] returns is the cached object itself. *)
Lemma App_fetch_excel_returns_cache EXCEL_URL API_KEY DATE net parse now w df w1 :
  App.fetch_excel EXCEL_URL API_KEY DATE net parse now w = (Return df, w1) ->
  df_cache w1 = Some df.
Proof.
  unfold App.fetch_excel, bind, get_world.
  destruct (App.cache_fresh now w) as [c|] eqn:Hf.
  - intros [= <- <-]. unfold App.cache_fresh in Hf.
    destruct (df_cache w); [|discriminate]. destruct (last_fetched w); [|discriminate].
    destruct (_ <? _); congruence.
  - unfold requests_get, lift, new_object, set_cache, ret. simpl.
    destruct (http_get net _ _) as [content|e1]; simpl; [|discriminate].
    destruct (read_excel net content) as [parsed|e2]; simpl; [|discriminate].
    destruct (col_index DATE parsed); unfold update; simpl; intros [= <- <-]; reflexivity.
Qed.

(** The filtering routes of [app.py] once the table is fetched: no
    exception, no change to the fetched table or below it, and an answer
    built from one table. *)
Lemma App_api_filter_after_fetch
    EXCEL_URL API_KEY DATE net parse strp now today args w df w1 d :
  App.fetch_excel EXCEL_URL API_KEY DATE net parse now w = (Return df, w1) ->
  table_at w1 df = Some d ->
  exists resp w',
    App.api_filter EXCEL_URL API_KEY DATE net parse strp now today args w = (resp, w') /\
    frame (S df) w1 w' /\
    match App.date_bounds strp today args with
    | None => resp = BadRequest "Invalid date format. Use YYYY-MM-DD."
    | Some _ =>
        exists o counts, narrows d o /\ App.calculate_counts o = Return counts /\
                         resp = RowsOk counts (App._df_to_records o)
    end.
Proof.
  intros Hfetch Hd. pose proof (lookup_lt_Some _ _ _ Hd) as Hlt.
  unfold App.api_filter, route.
  rewrite (bind_run _ _ _ _ _ Hfetch).
  rewrite (bind_run _ _ _ _ _ (copy_run _ _ _ Hd)).
  set (w2 := with_heap w1 (heap w1 ++ [d])).
  assert (frame (S df) w1 w2) as F1 by (apply frame_append; lia).
  destruct (App.date_bounds strp today args) as [b|].
  - destruct (App_date_block_run DATE parse (S df) w2 (length (heap w1)) d b
                (table_at_new w1 d) ltac:(lia)) as (out2 & w3 & o2 & R2 & F2 & T2 & A2 & N2).
    rewrite (bind_run _ _ _ _ _ R2).
    destruct (App_field_block_filter_run (S df) w3 out2 o2 (arg_field args) (arg_q args)
                T2 N2) as (out3 & w4 & o3 & R3 & F3 & T3 & A3 & N3).
    rewrite (bind_run _ _ _ _ _ R3).
    rewrite (bind_run _ _ _ _ _ (deref_run _ _ _ T3)).
    destruct (App_calculate_counts_spec o3) as (counts & Hc & _).
    unfold bind, lift, ret. rewrite Hc.
    eexists _, _. split; [reflexivity|].
    split; [exact (frame_trans _ _ _ _ F1 (frame_trans _ _ _ _ F2 F3))|].
    exists o3, counts. split; [exact (narrows_trans _ _ _ A2 A3)|].
    split; [exact Hc | reflexivity].
  - eexists _, _. split; [reflexivity|]. split; [exact F1 | reflexivity].
Qed.

Lemma App_api_counts_after_fetch
    EXCEL_URL API_KEY DATE net parse strp now today args w df w1 d :
  App.fetch_excel EXCEL_URL API_KEY DATE net parse now w = (Return df, w1) ->
  table_at w1 df = Some d ->
  exists resp w',
    App.api_counts EXCEL_URL API_KEY DATE net parse strp now today args w = (resp, w') /\
    frame (S df) w1 w' /\
    match App.date_bounds strp today args with
    | None => resp = BadRequest "Invalid date format. Use YYYY-MM-DD."
    | Some _ => exists o counts, narrows d o /\ App.calculate_counts o = Return counts /\
                resp = CountsOk (<["success" := JBool true]> (JInt <$> counts))
    end.
Proof.
  intros Hfetch Hd. pose proof (lookup_lt_Some _ _ _ Hd) as Hlt.
  unfold App.api_counts, route.
  rewrite (bind_run _ _ _ _ _ Hfetch).
  rewrite (bind_run _ _ _ _ _ (copy_run _ _ _ Hd)).
  set (w2 := with_heap w1 (heap w1 ++ [d])).
  assert (frame (S df) w1 w2) as F1 by (apply frame_append; lia).
  destruct (App.date_bounds strp today args) as [b|].
  - destruct (App_date_block_run DATE parse (S df) w2 (length (heap w1)) d b
                (table_at_new w1 d) ltac:(lia)) as (out2 & w3 & o2 & R2 & F2 & T2 & A2 & N2).
    rewrite (bind_run _ _ _ _ _ R2).
    destruct (App_field_block_counts_run (S df) w3 out2 o2 (arg_field args) (arg_q args)
                T2 N2) as (out3 & w4 & o3 & R3 & F3 & T3 & A3 & N3).
    rewrite (bind_run _ _ _ _ _ R3).
    rewrite (bind_run _ _ _ _ _ (deref_run _ _ _ T3)).
    destruct (App_calculate_counts_spec o3) as (counts & Hc & _).
    unfold bind, lift, ret. rewrite Hc.
    eexists _, _. split; [reflexivity|].
    split; [exact (frame_trans _ _ _ _ F1 (frame_trans _ _ _ _ F2 F3))|].
    exists o3, counts. split; [exact (narrows_trans _ _ _ A2 A3)|].
    split; [exact Hc | reflexivity].
  - eexists _, _. split; [reflexivity|]. split; [exact F1 | reflexivity].
Qed.

(** A route whose fetch raises, or hands on a reference to no table,
    answers 500 in the world the fetch left. *)
Lemma route_fetch_raise {C} f (k : ref -> M (Response C)) w e w1 :
  f w = (Raise e, w1) -> route (bind f k) w = (ServerError e, w1).
Proof. intros H. unfold route. rewrite (bind_raise _ _ _ _ _ H). reflexivity. Qed.

Lemma Api_date_block_run parse n w out o b :
  table_at w out = Some o -> (n <= out)%nat ->
  exists out' w' o',
    Api.date_block parse out b w = (Return out', w') /\
    frame n w w' /\ table_at w' out' = Some o' /\ narrows o o' /\ (n <= out')%nat.
Proof.
  intros Ho Hn. pose proof (lookup_lt_Some _ _ _ Ho) as Hlt.
  assert (exists out' w' o', (Return out, w) = (Return out', w') /\
            frame n w w' /\ table_at w' out' = Some o' /\ narrows o o' /\
            (n <= out')%nat) as Hsame.
  { exists out, w, o. split; [reflexivity|]. split; [apply frame_refl|].
    split; [exact Ho|]. split; [apply narrows_refl | exact Hn]. }
  unfold Api.date_block.
  destruct b as [[s|] [e|]]; try exact Hsame.
  rewrite (Api_filter_df_run parse w out o _ _ Ho).
  destruct (date_column_index o) as [i|]; [|exact Hsame].
  eexists _, _, _. split; [reflexivity|].
  split; [apply frame_update_append; lia|].
  split; [apply table_at_new_updated|].
  split; [|lia].
  exact (narrows_trans _ _ _ (narrows_coerce_column parse i o) (narrows_filtered _ i s e)).
Qed.

(** What [fetch_excel] of [api/index.py] returns is a copy: a new object
    above the cached one. *)
Lemma Api_fetch_excel_returns_copy SHEET net now now' w df w1 :
  Api.fetch_excel SHEET net now now' w = (Return df, w1) ->
  exists c d, df_cache w1 = Some c /\ (c < df)%nat /\
              table_at w1 c = Some d /\ table_at w1 df = Some d.
Proof.
  unfold Api.fetch_excel, bind at 1, get_world.
  destruct (Api.cache_fresh now w) as [c|] eqn:Hf.
  - unfold copy, bind, deref, new_object.
    destruct (heap w !! c) as [d|] eqn:Hd; [|discriminate].
    intros [= <- <-]. exists c, d. simpl.
    pose proof (lookup_lt_Some _ _ _ Hd).
    split.
    { unfold Api.cache_fresh in Hf.
      destruct (df_cache w); [|discriminate]. destruct (last_fetched w); [|discriminate].
      destruct (_ <? _); congruence. }
    split; [lia|]. unfold table_at. simpl.
    split; [rewrite lookup_app_l by lia; exact Hd | apply lookup_new_object].
  - destruct SHEET as [[|a r]|]; try (unfold raise; discriminate).
    unfold requests_get, lift, new_object, set_cache, copy, bind, deref. simpl.
    destruct (http_get net _ _) as [content|e1]; simpl; [|discriminate].
    destruct (read_excel net content) as [parsed|e2]; simpl; [|discriminate].
    rewrite lookup_new_object. intros [= <- <-].
    exists (length (heap w)), parsed. simpl. split; [reflexivity|].
    split; [rewrite length_app; simpl; lia|]. unfold table_at. simpl.
    split.
    + rewrite lookup_app_l by (rewrite length_app; simpl; lia). apply lookup_new_object.
    + apply lookup_new_object.
Qed.

Lemma Api_calculate_counts_returns (o : DataFrame) :
  columns o <> [] -> exists c, Api.calculate_counts o = Return c.
Proof.
  intros Hne. pose proof (Api_calculate_counts_spec o) as H.
  destruct (Api.calculate_counts o) as [c|e]; [exists c; reflexivity|].
  destruct H as [_ H]. contradiction.
Qed.

(** [api_filter] of [api/index.py] once the table is fetched changes
    nothing below the copy it was handed; it answers 500 for a table
    without columns and for a date that does not parse, and otherwise with
    the summary of the whole table and the summary and rows of a table with
    the same columns and no more rows. *)
Lemma Api_api_filter_after_fetch
    SHEET net parse strp replace_missing now now' today args w df w1 d :
  Api.fetch_excel SHEET net now now' w = (Return df, w1) ->
  table_at w1 df = Some d ->
  exists resp w',
    Api.api_filter SHEET net parse strp replace_missing now now' today args w = (resp, w') /\
    frame (S df) w1 w' /\
    match Api.calculate_counts d, Api.date_bounds strp today args with
    | Raise e, _ => resp = ServerError e
    | Return _, Raise e => resp = ServerError e
    | Return total, Return _ =>
        exists o filtered,
          narrows d o /\ Api.calculate_counts o = Return filtered /\
          resp = RowsOk (total, filtered) (Api._df_to_records replace_missing o)
    end.
Proof.
  intros Hfetch Hd. pose proof (lookup_lt_Some _ _ _ Hd) as Hlt.
  unfold Api.api_filter, route.
  rewrite (bind_run _ _ _ _ _ Hfetch).
  rewrite (bind_run _ _ _ _ _ (deref_run _ _ _ Hd)).
  unfold bind at 1, lift at 1.
  pose proof (Api_calculate_counts_spec d) as Hspec.
  destruct (Api.calculate_counts d) as [total|e];
    [|eexists _, _; split; [reflexivity|]; split; [apply frame_refl | reflexivity]].
  destruct Hspec as (Hne & _).
  rewrite (bind_run _ _ _ _ _ (copy_run _ _ _ Hd)).
  set (w2 := with_heap w1 (heap w1 ++ [d])).
  assert (frame (S df) w1 w2) as F2 by (apply frame_append; lia).
  assert (table_at w2 (length (heap w1)) = Some d) as T2 by apply table_at_new.
  unfold bind at 1, lift at 1.
  destruct (Api.date_bounds strp today args) as [b|e];
    [|eexists _, _; split; [reflexivity|]; split; [exact F2 | reflexivity]].
  destruct (Api_date_block_run parse (S df) w2 _ d b T2 ltac:(lia))
    as (out3 & w3 & o3 & R3 & F3 & T3 & A3 & N3).
  rewrite (bind_run _ _ _ _ _ R3).
  destruct (Api_field_block_run (S df) w3 out3 o3 (arg_field args) (arg_q args) T3 N3)
    as (out4 & w4 & o4 & R4 & F4 & T4 & A4 & N4).
  rewrite (bind_run _ _ _ _ _ R4).
  rewrite (bind_run _ _ _ _ _ (deref_run _ _ _ T4)).
  pose proof (frame_trans _ _ _ _ F2 (frame_trans _ _ _ _ F3 F4)) as F.
  pose proof (narrows_trans _ _ _ A3 A4) as A.
  destruct (Api_calculate_counts_returns o4) as [filtered Hc].
  { destruct A as [-> _]. exact Hne. }
  unfold bind, lift, ret. rewrite Hc.
  eexists _, _. split; [reflexivity|]. split; [exact F|].
  exists o4, filtered. split; [exact A|]. split; [exact Hc | reflexivity].
Qed.

Lemma frame_weaken n m w w' : (m <= n)%nat -> frame n w w' -> frame m w w'.
Proof.
  intros Hm (A1 & A2 & A3 & A4 & A5). unfold frame. repeat split; auto.
  intros l Hl. apply A5. lia.
Qed.

(** The routes of [app.py] end with the cache entry and the request log
    that [fetch_excel] left. *)
Lemma routes_cache_after_fetch
    EXCEL_URL API_KEY DATE net parse strp now today args w :
  let fetched := snd (App.fetch_excel EXCEL_URL API_KEY DATE net parse now w) in
  Forall (fun w' => cache_entry w' = cache_entry fetched /\ requests w' = requests fetched)
    [snd (App.api_data EXCEL_URL API_KEY DATE net parse now w);
     snd (App.api_filter EXCEL_URL API_KEY DATE net parse strp now today args w);
     snd (App.api_counts EXCEL_URL API_KEY DATE net parse strp now today args w)].
Proof.
  cbv zeta.
  destruct (App.fetch_excel EXCEL_URL API_KEY DATE net parse now w) as [[df|e] w1] eqn:Hf.
  - pose proof (App_fetch_excel_returns_cache _ _ _ _ _ _ _ _ _ Hf) as Hc.
    cbn [snd].
    destruct (table_at w1 df) as [d|] eqn:Hd.
    + destruct (App_api_filter_after_fetch EXCEL_URL API_KEY DATE net parse strp now today
                  args w df w1 d Hf Hd) as (r1 & w2 & R1 & F1 & _).
      destruct (App_api_counts_after_fetch EXCEL_URL API_KEY DATE net parse strp now today
                  args w df w1 d Hf Hd) as (r2 & w3 & R2 & F2 & _).
      rewrite R1, R2. cbn [snd].
      repeat apply List.Forall_cons; try apply List.Forall_nil;
        try (eapply frame_cache_entry; eassumption).
      unfold App.api_data, route.
      rewrite (bind_run _ _ _ _ _ Hf), (bind_run _ _ _ _ _ (deref_run _ _ _ Hd)).
      unfold bind, lift, ret.
      destruct (App.calculate_counts d); split; reflexivity.
    + unfold App.api_data, App.api_filter, App.api_counts, route.
      rewrite !(bind_run _ _ _ _ _ Hf).
      rewrite !(bind_raise _ _ _ _ _ (copy_dangling _ _ Hd)).
      rewrite !(bind_raise _ _ _ _ _ (deref_dangling _ _ Hd)).
      repeat apply List.Forall_cons; try apply List.Forall_nil; split; reflexivity.
  - unfold App.api_data, App.api_filter, App.api_counts.
    rewrite !(route_fetch_raise _ _ _ _ _ Hf).
    repeat apply List.Forall_cons; try apply List.Forall_nil; split; reflexivity.
Qed.

(** X5.  The routes touch the cache only by fetching.  Whatever the query
    and whatever the fetch does, [api_data], [api_filter] and [api_counts] of
    [app.py] and [api_filter] of [api/index.py] end with the cache entry (the
    cached table and its timestamp) and the request log that [fetch_excel]
    left: the filters work on a copy, even though [fetch_excel] of [app.py]
    hands out the cached object itself and [filter_df] overwrites the date
    column of the table it is given. *)
Theorem routes_touch_the_cache_only_by_fetching
    EXCEL_URL API_KEY DATE SHEET net parse strp replace_missing now now' today args w :
  let fetched := snd (App.fetch_excel EXCEL_URL API_KEY DATE net parse now w) in
  let fetched' := snd (Api.fetch_excel SHEET net now now' w) in
  Forall (fun w' => cache_entry w' = cache_entry fetched /\ requests w' = requests fetched)
    [snd (App.api_data EXCEL_URL API_KEY DATE net parse now w);
     snd (App.api_filter EXCEL_URL API_KEY DATE net parse strp now today args w);
     snd (App.api_counts EXCEL_URL API_KEY DATE net parse strp now today args w)] /\
  let w' := snd (Api.api_filter SHEET net parse strp replace_missing now now' today args w) in
  cache_entry w' = cache_entry fetched' /\ requests w' = requests fetched'.
Proof.
  cbv zeta. split; [apply routes_cache_after_fetch|].
  destruct (Api.fetch_excel SHEET net now now' w) as [[df|e] w1] eqn:Hf.
  - destruct (Api_fetch_excel_returns_copy _ _ _ _ _ _ _ Hf) as (c & d & Hc & Hlt & Tc & Td).
    destruct (Api_api_filter_after_fetch SHEET net parse strp replace_missing now now' today
                args w df w1 d Hf Td) as (r & w2 & R & F & _).
    rewrite R. cbn [snd].
    apply (frame_cache_entry w1 w2 c d Hc Tc).
    apply (frame_weaken (S df)); [lia | exact F].
  - unfold Api.api_filter. rewrite (route_fetch_raise _ _ _ _ _ Hf). split; reflexivity.
Qed.

(** X6.  What [api_filter] of [app.py] answers.  When [fetch_excel] raises,
    the answer is the 500 carrying that exception.  When it returns a table,
    the answer is the 400 exactly when [start] and [end] are both given and
    one of them is no date, and otherwise the 200 whose [total_records] is
    the number of rows sent, which is at most the number of rows of the
    table fetched. *)
Theorem api_filter_answers
    EXCEL_URL API_KEY DATE net parse strp now today args w :
  let resp := fst (App.api_filter EXCEL_URL API_KEY DATE net parse strp now today args w) in
  match App.fetch_excel EXCEL_URL API_KEY DATE net parse now w with
  | (Raise e, _) => resp = ServerError e
  | (Return df, fetched) =>
      is_Some (table_at fetched df) ->
      match App.date_bounds strp today args with
      | None =>
          resp = BadRequest "Invalid date format. Use YYYY-MM-DD." /\
          Py.truthy (arg_start args) && Py.truthy (arg_end args) = true /\
          (arg_start args ≫= strp = None \/ arg_end args ≫= strp = None)
      | Some _ =>
          exists counts data d,
            resp = RowsOk counts data /\
            counts !! "total_records" = Some (Z.of_nat (length data)) /\
            table_at fetched df = Some d /\ (length data <= length (rows d))%nat
      end
  end.
Proof.
  cbv zeta.
  destruct (App.fetch_excel EXCEL_URL API_KEY DATE net parse now w) as [[df|e] w1] eqn:Hf.
  - intros [d Hd].
    destruct (App_api_filter_after_fetch EXCEL_URL API_KEY DATE net parse strp now today
                args w df w1 d Hf Hd) as (r & w' & R & _ & Hr).
    rewrite R. cbn [fst].
    destruct (App.date_bounds strp today args) as [b|] eqn:Hb.
    + destruct Hr as (o & counts & [_ Hle] & Hc & ->).
      exists counts, (App._df_to_records o), d. split; [reflexivity|].
      destruct (App_calculate_counts_spec o) as (c' & Hc' & _ & _ & _ & _ & _ & Ht).
      rewrite Hc in Hc'. injection Hc' as <-.
      rewrite Ht, df_to_records_length. split; [reflexivity|]. split; [exact Hd | exact Hle].
    + split; [exact Hr|].
      unfold App.date_bounds in Hb.
      destruct (Py.truthy (arg_start args) && Py.truthy (arg_end args)).
      * split; [reflexivity|].
        destruct (arg_start args ≫= strp); [|left; reflexivity].
        destruct (arg_end args ≫= strp); [discriminate|right; reflexivity].
      * destruct (Py.truthy _); discriminate.
  - unfold App.api_filter. rewrite (route_fetch_raise _ _ _ _ _ Hf). reflexivity.
Qed.

Lemma api_filter_answers_witness :
  is_Some (table_at cached 0%nat) /\
  exists counts data d,
    fst (App.api_filter sheet_url "YOUR_API_KEY" "Date" net_up parse_iso strptime
           (Py.td_of_seconds 10) jan31 no_filter cached) = RowsOk counts data /\
    counts !! "total_records" = Some (Z.of_nat (length data)) /\
    table_at cached 0%nat = Some d /\ (length data <= length (rows d))%nat.
Proof.
  assert (is_Some (table_at cached 0%nat)) as H by (eexists; reflexivity).
  split; [exact H|].
  exact (api_filter_answers sheet_url "YOUR_API_KEY" "Date" net_up parse_iso
           strptime (Py.td_of_seconds 10) jan31 no_filter cached H).
Defined.



(** ** The date column of the cache *)

(** X13.  In [app.py] the date column of the cached table always has dtype
    datetime: [fetch_excel] keeps that true whatever it does, and so does
    every route, which is why [filter_df], called by a route, has nothing to
    convert: given a date-ready table it leaves every existing table, its
    argument among them, as it was. *)
Theorem cached_date_column_is_datetime
    EXCEL_URL API_KEY DATE net parse strp now today args w :
  cache_ready DATE w ->
  Forall (cache_ready DATE)
    [snd (App.fetch_excel EXCEL_URL API_KEY DATE net parse now w);
     snd (App.api_data EXCEL_URL API_KEY DATE net parse now w);
     snd (App.api_filter EXCEL_URL API_KEY DATE net parse strp now today args w);
     snd (App.api_counts EXCEL_URL API_KEY DATE net parse strp now today args w)] /\
  (forall l d s e,
      table_at w l = Some d -> date_ready DATE d ->
      forall l', (l' < length (heap w))%nat ->
                 table_at (snd (App.filter_df DATE parse l s e w)) l' = table_at w l').
Proof.
  intros Hready.
  assert (cache_ready DATE (snd (App.fetch_excel EXCEL_URL API_KEY DATE net parse now w)))
    as Hfetch.
  { destruct (App.fetch_excel EXCEL_URL API_KEY DATE net parse now w) as [[df|e] w1] eqn:Hf.
    - destruct (App.cache_fresh now w) as [c|] eqn:Hc.
      + rewrite (App_fetch_excel_fresh _ _ _ _ _ _ _ _ Hc) in Hf.
        injection Hf as <- <-. exact Hready.
      + destruct (App_fetch_excel_miss _ _ _ _ _ _ _ _ _ Hc Hf) as (d & Hd & Hr & Hcache & _).
        cbn [snd]. intros d'. unfold cache_entry. rewrite Hcache. simpl. rewrite Hd.
        intros [= <-]. exact Hr.
    - destruct (App_fetch_excel_raise _ _ _ _ _ _ _ _ _ Hf) as (H1 & H2 & H3).
      cbn [snd]. intros d. rewrite (cache_entry_same w w1 H1 H2 H3). apply Hready. }
  split.
  - pose proof (routes_cache_after_fetch EXCEL_URL API_KEY DATE net parse strp now today
                  args w) as Hroutes.
    rewrite List.Forall_forall in Hroutes.
    apply List.Forall_cons; [exact Hfetch|].
    apply List.Forall_forall. intros w' Hin d.
    rewrite (proj1 (Hroutes w' Hin)). apply Hfetch.
  - intros l d s e Hl Hd l' Hlt.
    rewrite (App_filter_df_run DATE parse w l d s e Hl).
    destruct (col_index DATE d) as [i|] eqn:Hi; [|reflexivity].
    destruct s; [|reflexivity]. destruct e; [|reflexivity].
    rewrite (Hd i Hi). unfold table_at. simpl. apply lookup_app_l. exact Hlt.
Qed.

Lemma cached_date_column_is_datetime_witness :
  cache_ready "Date" cached /\
  cache_ready "Date"
    (snd (App.api_filter sheet_url "YOUR_API_KEY" "Date" net_up parse_iso strptime
            (Py.td_of_seconds 61) jan31 no_filter cached)).
Proof.
  assert (cache_ready "Date" cached) as H.
  { intros d [= <-] i [= <-]. reflexivity. }
  split; [exact H|].
  pose proof (proj1 (cached_date_column_is_datetime sheet_url "YOUR_API_KEY" "Date" net_up
                       parse_iso strptime (Py.td_of_seconds 61) jan31 no_filter cached H))
    as HF.
  rewrite List.Forall_forall in HF. apply HF. right. right. left. reflexivity.
Defined.

(** ** Filtering twice *)

Lemma filter_filter_narrow {A} (p p' : A -> bool) (l : list A) :
  (forall x, p' x = true -> p x = true) ->
  List.filter p' (List.filter p l) = List.filter p' l.
Proof.
  intros H. induction l as [|x l IH]; simpl; [reflexivity|].
  destruct (p x) eqn:Hp; simpl.
  - rewrite IH. reflexivity.
  - destruct (p' x) eqn:Hp'; [|exact IH]. rewrite (H x Hp') in Hp. discriminate.
Qed.

Lemma in_range_narrow s e s' e' t :
  s <= s' -> e' <= e -> in_range s' e' t = true -> in_range s e t = true.
Proof.
  intros Hs He. destruct t as [t|]; simpl; [|discriminate].
  rewrite !andb_true_iff, !Z.leb_le. lia.
Qed.

Lemma filtered_narrow (d : DataFrame) (i : nat) s e s' e' :
  s <= s' -> e' <= e ->
  filtered (filtered d i s e) i s' e' = filtered d i s' e'.
Proof.
  intros Hs He. unfold filtered. simpl. f_equal.
  apply filter_filter_narrow. intros r. apply in_range_narrow; assumption.
Qed.

(** X14.  Filtering by a range and then by a range inside it is filtering
    by the inner range: [filter_df] of [app.py], run on the table it
    returned for [[s, e]], returns for [[s', e']] with [s <= s'] and
    [e' <= e] the table it returns for [[s', e']] at once.  In particular
    filtering twice by one range changes nothing. *)
Theorem filter_df_by_nested_ranges DATE parse w l d s e s' e' :
  table_at w l = Some d -> s <= s' -> e' <= e ->
  let first := App.filter_df DATE parse l (Some s) (Some e) w in
  let direct := App.filter_df DATE parse l (Some s') (Some e') w in
  match fst first, fst direct with
  | Return out1, Return out3 =>
      let second := App.filter_df DATE parse out1 (Some s') (Some e') (snd first) in
      match fst second with
      | Return out2 =>
          is_Some (table_at (snd direct) out3) /\
          table_at (snd second) out2 = table_at (snd direct) out3
      | Raise _ => False
      end
  | _, _ => False
  end.
Proof.
  intros Hl Hs He. cbv zeta. pose proof (lookup_lt_Some _ _ _ Hl) as Hlt.
  rewrite !(App_filter_df_run DATE parse w l d _ _ Hl).
  destruct (col_index DATE d) as [i|] eqn:Hi.
  2:{ cbn [fst snd]. rewrite (App_filter_df_run DATE parse w l d _ _ Hl), Hi.
      cbn [fst snd]. split; [eexists; exact Hl | reflexivity]. }
  pose proof (col_index_lt _ _ _ Hi) as Hilt.
  destruct (dtype d i) eqn:Hdt; cbn [fst snd];
    try (rewrite (App_filter_df_run DATE parse w l d _ _ Hl), Hi, Hdt;
         cbn [fst snd]; split; [eexists; exact Hl | reflexivity]).
  - set (d1 := coerce_column parse i d).
    set (w1 := with_heap w (<[l:=d1]> (heap w) ++ [filtered d1 i s e])).
    assert (table_at w1 (length (heap w)) = Some (filtered d1 i s e)) as T1
      by apply table_at_new_updated.
    rewrite (App_filter_df_run DATE parse w1 _ _ _ _ T1).
    assert (col_index DATE (filtered d1 i s e) = Some i) as ->.
    { change (col_index DATE d1 = Some i). unfold col_index, d1, coerce_column.
      rewrite columns_assign_column. exact Hi. }
    assert (dtype (filtered d1 i s e) i = DDatetime) as ->.
    { change (dtype d1 i = DDatetime). unfold d1, coerce_column.
      apply dtype_assign_column. exact Hilt. }
    cbn [fst snd]. rewrite table_at_new, table_at_new_updated.
    split; [eexists; reflexivity|].
    rewrite filtered_narrow by assumption. reflexivity.
  - set (w1 := with_heap w (heap w ++ [filtered d i s e])).
    assert (table_at w1 (length (heap w)) = Some (filtered d i s e)) as T1
      by apply table_at_new.
    rewrite (App_filter_df_run DATE parse w1 _ _ _ _ T1).
    assert (col_index DATE (filtered d i s e) = Some i) as -> by exact Hi.
    assert (dtype (filtered d i s e) i = DDatetime) as -> by exact Hdt.
    cbn [fst snd]. rewrite !table_at_new.
    split; [eexists; reflexivity|].
    rewrite filtered_narrow by assumption. reflexivity.
Qed.

Lemma filter_df_by_nested_ranges_witness :
  let w := holding text_dates in
  let first := App.filter_df "Date" parse_iso 0%nat (Some jan01) (Some (jan31 + 29)) w in
  let direct := App.filter_df "Date" parse_iso 0%nat (Some jan01) (Some jan31) w in
  table_at w 0%nat = Some text_dates /\ jan01 <= jan01 /\ jan31 <= jan31 + 29 /\
  match fst first, fst direct with
  | Return out1, Return out3 =>
      let second := App.filter_df "Date" parse_iso out1 (Some jan01) (Some jan31)
                      (snd first) in
      match fst second with
      | Return out2 =>
          is_Some (table_at (snd direct) out3) /\
          table_at (snd second) out2 = table_at (snd direct) out3
      | Raise _ => False
      end
  | _, _ => False
  end.
Proof.
  split; [reflexivity|]. split; [lia|]. split; [lia|].
  apply (filter_df_by_nested_ranges "Date" parse_iso (holding text_dates) 0%nat text_dates
           jan01 (jan31 + 29) jan01 jan31); [reflexivity | lia | lia].
Defined.

(** ** [/api/unique/<field_name>] *)

Lemma unique_from_spec (seen l : list Cell) :
  NoDup (unique_from seen l) /\
  forall c, c ∈ unique_from seen l <-> c ∈ l /\ c ∉ seen.
Proof.
  revert seen. induction l as [|x l IH]; intros seen; simpl.
  - split; [constructor|]. intros c. rewrite elem_of_nil. tauto.
  - case_bool_decide as Hx.
    + destruct (IH seen) as [Hnd Hin]. split; [exact Hnd|].
      intros c. rewrite Hin, elem_of_cons. split; [tauto|].
      intros [[->|H] Hn]; [contradiction | tauto].
    + destruct (IH (x :: seen)) as [Hnd Hin]. split.
      * constructor; [|exact Hnd]. rewrite Hin, elem_of_cons. tauto.
      * intros c. rewrite !elem_of_cons, Hin, elem_of_cons.
        destruct (decide (c = x)) as [->|Hne]; tauto.
Qed.

(** [dropna().unique()]: the cells that are not null, each once. *)
Lemma dropna_unique_spec (l : list Cell) :
  NoDup (dropna_unique l) /\
  forall c, c ∈ dropna_unique l <-> c ∈ l /\ isna c = false.
Proof.
  unfold dropna_unique.
  destruct (unique_from_spec [] (List.filter (fun c => negb (isna c)) l)) as [Hnd Hin].
  split; [exact Hnd|]. intros c. rewrite Hin, elem_of_nil, !list_elem_of_In, List.filter_In.
  rewrite negb_true_iff. tauto.
Qed.

Lemma str_le_total : Total Unique.str_le.
Proof. intros a b. apply String.leb_total. Qed.

Lemma preferred_is_column (cols : list string) (f p : string) :
  Unique.preferred cols f = Some p -> In p cols.
Proof. unfold Unique.preferred. intros H. apply List.find_some in H. tauto. Qed.

(** X10.  On a cache hit [/api/unique/<field_name>] raises nothing and
    leaves the world as it was.  It reads the first column whose lowered
    name contains the name looked for, and answers 404 exactly when there is
    none or its name is empty; otherwise it lists, in ascending text order,
    the text of the cells of that column that are not null, each distinct
    cell once. *)
Theorem unique_values_on_cache_hit
    EXCEL_URL API_KEY DATE net parse conv now field_name w c d :
  table_at w c = Some d -> App.cache_fresh now w = Some c ->
  exists a,
    Unique.api_unique_values EXCEL_URL API_KEY DATE net parse conv now field_name w
      = (Return a, w) /\
    match Unique.preferred (columns d) field_name with
    | Some (String x p) =>
        exists i cells,
          col_index (String x p) d = Some i /\
          NoDup cells /\
          (forall v, v ∈ cells <-> v ∈ series d i /\ isna v = false) /\
          exists values,
            a = Unique.Values values /\
            Sorted Unique.str_le values /\ values ≡ₚ conv cells
    | _ => a = Unique.NotFound ("Column for '" +:+ field_name +:+ "' not found")
    end.
Proof.
  intros Hd Hf. unfold Unique.api_unique_values.
  rewrite (bind_run _ _ _ _ _ (App_fetch_excel_fresh _ _ _ _ _ _ _ _ Hf)).
  rewrite (bind_run _ _ _ _ _ (deref_run _ _ _ Hd)).
  destruct (Unique.preferred (columns d) field_name) as [[|x p]|] eqn:Hp;
    [eexists; split; reflexivity | | eexists; split; reflexivity].
  destruct (col_index_of_column d _ (preferred_is_column _ _ _ Hp)) as [i Hi].
  cbn [Py.truthy]. rewrite Hi.
  eexists. split; [reflexivity|].
  exists i, (dropna_unique (series d i)). split; [reflexivity|].
  destruct (dropna_unique_spec (series d i)) as [Hnd Hin].
  split; [exact Hnd|]. split; [exact Hin|].
  eexists. split; [reflexivity|]. unfold Unique.sorted. split.
  - apply (@Sorted_merge_sort _ Unique.str_le _ str_le_total).
  - apply merge_sort_Permutation.
Qed.

Lemma unique_values_on_cache_hit_witness :
  table_at cached 0%nat = Some dated_table /\
  App.cache_fresh (Py.td_of_seconds 10) cached = Some 0%nat /\
  exists a,
    Unique.api_unique_values sheet_url "YOUR_API_KEY" "Date" net_up parse_iso
      (map astype_str) (Py.td_of_seconds 10) "bd" cached = (Return a, cached) /\
    match Unique.preferred (columns dated_table) "bd" with
    | Some (String x p) =>
        exists i cells,
          col_index (String x p) dated_table = Some i /\
          NoDup cells /\
          (forall v, v ∈ cells <-> v ∈ series dated_table i /\ isna v = false) /\
          exists values,
            a = Unique.Values values /\
            Sorted Unique.str_le values /\ values ≡ₚ map astype_str cells
    | _ => a = Unique.NotFound ("Column for '" +:+ "bd" +:+ "' not found")
    end.
Proof.
  split; [reflexivity|]. split; [reflexivity|].
  exact (unique_values_on_cache_hit sheet_url "YOUR_API_KEY" "Date" net_up parse_iso
           (map astype_str) (Py.td_of_seconds 10) "bd" cached 0%nat dated_table
           eq_refl eq_refl).
Defined.

(** ** Which column a field names *)

Lemma dict_set_new k v (d : list (string * string)) :
  ~ In k (map fst d) -> Py.dict_set k v d = (d ++ [(k, v)])%list.
Proof.
  induction d as [|[k' v'] r IH]; simpl; [reflexivity|].
  intros H. destruct (String.eqb_spec k' k) as [->|Hne]; [tauto|].
  rewrite IH by tauto. reflexivity.
Qed.

(** With column names that differ even when lowered, the dict
    [{c.lower(): c for c in columns}] lists the columns in their order. *)
Lemma columns_lower_entries (cols : list string) (d : list (string * string)) :
  NoDup (map Py.lower cols) ->
  (forall c, In c cols -> ~ In (Py.lower c) (map fst d)) ->
  fold_left (fun d c => Py.dict_set (Py.lower c) c d) cols d =
  (d ++ map (fun c => (Py.lower c, c)) cols)%list.
Proof.
  revert d. induction cols as [|c cols IH]; intros d Hnd Hd; simpl.
  - rewrite app_nil_r. reflexivity.
  - apply NoDup_cons in Hnd. destruct Hnd as [Hc Hnd].
    rewrite dict_set_new by (apply Hd; left; reflexivity).
    rewrite IH.
    + rewrite <- app_assoc. reflexivity.
    + exact Hnd.
    + intros c' Hin. rewrite map_app, in_app_iff. simpl.
      intros [H|[H|[]]].
      * apply (Hd c'); [right; exact Hin | exact H].
      * apply Hc. rewrite H. apply list_elem_of_In. apply in_map. exact Hin.
Qed.

Lemma find_map_entries (p : string -> bool) (cols : list string) :
  snd <$> List.find (fun kv : string * string => p (fst kv))
                    (map (fun c => (Py.lower c, c)) cols) =
  List.find (fun c => p (Py.lower c)) cols.
Proof.
  induction cols as [|c cols IH]; simpl; [reflexivity|].
  destruct (p (Py.lower c)); [reflexivity | exact IH].
Qed.

(** The column [api_counts] filters on, when the lowered column names are
    distinct. *)
Lemma target_column_distinct (o : DataFrame) (f : string) :
  NoDup (map Py.lower (columns o)) ->
  App.target_column o f =
  match Py.dict_get (Py.lower f) App.known_map with
  | Some mapped => List.find (fun c => Py.contains (Py.lower mapped) (Py.lower c)) (columns o)
  | None => List.find (fun c => String.eqb (Py.lower c) (Py.lower f)) (columns o)
  end.
Proof.
  intros Hnd. unfold App.target_column, App.columns_lower.
  rewrite (columns_lower_entries (columns o) [] Hnd) by (intros c _ []).
  cbn [app].
  destruct (Py.dict_get (Py.lower f) App.known_map) as [mapped|].
  - apply (find_map_entries (Py.contains (Py.lower mapped))).
  - unfold Py.dict_get.
    apply (find_map_entries (fun k => String.eqb k (Py.lower f))).
Qed.

(** X11.  The dropdown and the counter agree on the column of an alias:
    when the column names differ even when lowered, the column whose values
    [/api/unique/<field>] lists for [bd], [city], [hospital] or [state] is
    the column [/api/counts] filters on for that field; and for a field
    that is no alias [/api/counts] filters on the column [/api/filter]
    filters on, the first whose lowered name is the lowered field. *)
Theorem routes_agree_on_the_column (o : DataFrame) (f : string) :
  NoDup (map Py.lower (columns o)) ->
  match Py.dict_get (Py.lower f) App.known_map with
  | Some _ => App.target_column o f = Unique.preferred (columns o) f
  | None =>
      App.target_column o f =
      List.find (fun c => String.eqb (Py.lower c) (Py.lower f)) (columns o)
  end.
Proof.
  intros Hnd. rewrite (target_column_distinct o f Hnd). unfold Unique.preferred.
  destruct (Py.dict_get (Py.lower f) App.known_map); reflexivity.
Qed.

Lemma routes_agree_on_the_column_witness :
  NoDup (map Py.lower (columns dated_table)) /\
  App.target_column dated_table "BD" = Unique.preferred (columns dated_table) "BD".
Proof.
  assert (NoDup (map Py.lower (columns dated_table))) as H
    by (apply NoDup_ListNoDup; repeat constructor; simpl; intuition discriminate).
  split; [exact H|].
  exact (routes_agree_on_the_column dated_table "BD" H).
Defined.

Lemma alias_bd (f : string) :
  Py.dict_get (Py.lower f) App.known_map = None -> String.eqb (Py.lower f) "bd" = false.
Proof.
  intros H. destruct (String.eqb_spec (Py.lower f) "bd") as [E|]; [|reflexivity].
  rewrite E in H. discriminate.
Qed.

(** The field blocks of [api_counts] and of [api_filter] are one
    computation for a field that is no alias, on a table whose lowered
    column names are distinct. *)
Lemma field_blocks_agree w out o f q :
  table_at w out = Some o ->
  NoDup (map Py.lower (columns o)) ->
  (forall name, f = Some name -> Py.dict_get (Py.lower name) App.known_map = None) ->
  App.field_block_counts out f q w = App.field_block_filter out f q w.
Proof.
  intros Ho Hnd Hf.
  unfold App.field_block_counts, App.field_block_filter.
  destruct f as [f|]; [|reflexivity]. destruct q as [q|]; [|reflexivity].
  destruct (Py.truthy (Some f) && Py.truthy (Some q)); [|reflexivity].
  unfold bind, deref. unfold table_at in Ho. rewrite Ho.
  rewrite (target_column_distinct o f Hnd), (Hf f eq_refl).
  destruct (List.find _ (columns o)) as [t|]; [|reflexivity].
  rewrite (alias_bd f (Hf f eq_refl)). reflexivity.
Qed.

(** X12.  [/api/counts] and [/api/filter] give the same counts.  On a cache
    hit, for a table whose lowered column names are distinct and a [field]
    that is none of the aliases [bd], [city], [hospital] and [state] (or no
    field at all), the two routes answer the same query with the same
    counters, or both with the 400, and leave the same world.  The dict of
    [/api/counts] is the summary of [/api/filter], each counter under its
    key, with the entry [success: true] that [api_counts] adds to it. *)
Theorem counts_route_agrees_with_filter_route
    EXCEL_URL API_KEY DATE net parse strp now today args w c d :
  table_at w c = Some d -> App.cache_fresh now w = Some c ->
  NoDup (map Py.lower (columns d)) ->
  (forall name, arg_field args = Some name ->
                Py.dict_get (Py.lower name) App.known_map = None) ->
  let filter := App.api_filter EXCEL_URL API_KEY DATE net parse strp now today args w in
  let counts := App.api_counts EXCEL_URL API_KEY DATE net parse strp now today args w in
  snd counts = snd filter /\
  match fst filter, fst counts with
  | RowsOk summary _, CountsOk summary' =>
      summary' = <["success" := JBool true]> (JInt <$> summary)
  | BadRequest e, BadRequest e' => e' = e
  | _, _ => False
  end.
Proof.
  intros Hd Hfresh Hnd Hf. pose proof (lookup_lt_Some _ _ _ Hd) as Hlt.
  unfold App.api_filter, App.api_counts, route. cbv zeta.
  rewrite !(bind_run _ _ _ _ _ (App_fetch_excel_fresh _ _ _ _ _ _ _ _ Hfresh)).
  rewrite !(bind_run _ _ _ _ _ (copy_run _ _ _ Hd)).
  set (w1 := with_heap w (heap w ++ [d])).
  destruct (App.date_bounds strp today args) as [b|]; [|split; reflexivity].
  destruct (App_date_block_run DATE parse (S c) w1 (length (heap w)) d b
              (table_at_new w d) ltac:(lia)) as (out2 & w2 & o2 & R2 & _ & T2 & [C2 _] & N2).
  rewrite !(bind_run _ _ _ _ _ R2).
  destruct (App_field_block_filter_run (S c) w2 out2 o2 (arg_field args) (arg_q args)
              T2 N2) as (out3 & w3 & o3 & R3 & _ & T3 & _ & _).
  pose proof R3 as R3'.
  rewrite <- (field_blocks_agree w2 out2 o2 (arg_field args) (arg_q args) T2
                ltac:(rewrite C2; exact Hnd) Hf) in R3'.
  rewrite (bind_run _ _ _ _ _ R3), (bind_run _ _ _ _ _ R3').
  rewrite !(bind_run _ _ _ _ _ (deref_run _ _ _ T3)).
  destruct (App_calculate_counts_spec o3) as (counts & Hc & _).
  unfold bind, lift, ret. rewrite Hc. split; reflexivity.
Qed.

Lemma counts_route_agrees_with_filter_route_witness :
  let args := mkArgs (Some "custom") (Some "2024-01-01") (Some "2024-01-31")
                     (Some "Date") (Some "2024-01-15 00:00:00") in
  let filter := App.api_filter sheet_url "YOUR_API_KEY" "Date" net_up parse_iso strptime
                  (Py.td_of_seconds 10) jan31 args cached in
  let counts := App.api_counts sheet_url "YOUR_API_KEY" "Date" net_up parse_iso strptime
                  (Py.td_of_seconds 10) jan31 args cached in
  snd counts = snd filter /\
  match fst filter, fst counts with
  | RowsOk summary _, CountsOk summary' =>
      summary' = <["success" := JBool true]> (JInt <$> summary)
  | BadRequest e, BadRequest e' => e' = e
  | _, _ => False
  end.
Proof.
  assert (NoDup (map Py.lower (columns dated_table))) as H
    by (apply NoDup_ListNoDup; repeat constructor; simpl; intuition discriminate).
  refine (counts_route_agrees_with_filter_route sheet_url "YOUR_API_KEY" "Date" net_up
            parse_iso strptime (Py.td_of_seconds 10) jan31 _ cached 0%nat dated_table
            eq_refl eq_refl H _).
  intros name [= <-]. reflexivity.
Defined.


(** ** Export links *)

Lemma span_id_spec (s a b : string) :
  App.span_id s = (a, b) ->
  s = a +:+ b /\ forallb App.is_id_char (list_ascii_of_string a) = true.
Proof.
  revert a b. induction s as [|c s IH]; intros a b; simpl.
  - intros [= <- <-]. split; reflexivity.
  - destruct (App.is_id_char c) eqn:Hc.
    + destruct (App.span_id s) as [a' b'] eqn:Hs. intros [= <- <-].
      destruct (IH a' b' eq_refl) as [-> Hall]. split; [reflexivity|].
      simpl. rewrite Hc. exact Hall.
    + intros [= <- <-]. split; reflexivity.
Qed.

Lemma substring_all (s : string) : String.substring 0 (String.length s) s = s.
Proof. induction s as [|c s IH]; simpl; [reflexivity|]. rewrite IH. reflexivity. Qed.

Lemma prefix_split (p s : string) :
  String.prefix p s = true -> exists r, s = p +:+ r.
Proof.
  revert s. induction p as [|a p IH]; intros s.
  - intros _. exists s. reflexivity.
  - destruct s as [|b s]; simpl; [discriminate|].
    destruct (ascii_dec a b) as [<-|]; [|discriminate].
    intros H. destruct (IH s H) as [r ->]. exists r. reflexivity.
Qed.

Lemma prefix_app (p r : string) : String.prefix p (p +:+ r) = true.
Proof.
  induction p as [|a p IH]; simpl; [destruct r; reflexivity|].
  destruct (ascii_dec a a); [exact IH | congruence].
Qed.

Lemma append_assoc (a b c : string) : (a +:+ b) +:+ c = a +:+ b +:+ c.
Proof.
  induction a as [|x a IH]; [reflexivity|].
  change (String x ((a +:+ b) +:+ c) = String x (a +:+ b +:+ c)).
  f_equal. exact IH.
Qed.

Lemma contains_prefix (needle hay : string) :
  String.prefix needle hay = true -> Py.contains needle hay = true.
Proof. destruct hay; simpl; intros ->; reflexivity. Qed.

Lemma contains_app (needle a b : string) :
  Py.contains needle (a +:+ needle +:+ b) = true.
Proof.
  induction a as [|c a IH].
  - change ("" +:+ needle +:+ b) with (needle +:+ b).
    apply contains_prefix. apply prefix_app.
  - change (String c a +:+ needle +:+ b) with (String c (a +:+ needle +:+ b)).
    cbn [Py.contains]. rewrite IH.
    match goal with |- (if ?x then _ else _) = _ => destruct x; reflexivity end.
Qed.

Lemma match_sheet_id_spec (s sheet_id : string) :
  App.match_sheet_id s = Some sheet_id ->
  sheet_id <> "" /\
  forallb App.is_id_char (list_ascii_of_string sheet_id) = true /\
  exists b, s = "/d/" +:+ sheet_id +:+ "/" +:+ b.
Proof.
  unfold App.match_sheet_id.
  destruct (String.prefix "/d/" s) eqn:Hp; [|discriminate].
  destruct (prefix_split _ _ Hp) as [r ->].
  change (String.substring 3 (String.length ("/d/" +:+ r) - 3) ("/d/" +:+ r))
    with (String.substring 0 (String.length r - 0) r).
  rewrite Nat.sub_0_r, substring_all.
  destruct (App.span_id r) as [a rest] eqn:Hs.
  destruct (span_id_spec _ _ _ Hs) as [-> Hall].
  destruct a as [|c a]; [discriminate|].
  destruct (String.prefix "/" rest) eqn:Hr; [|discriminate].
  intros [= <-]. destruct (prefix_split _ _ Hr) as [b ->].
  split; [discriminate|]. split; [exact Hall|]. exists b. reflexivity.
Qed.

Lemma search_sheet_id_spec (s sheet_id : string) :
  App.search_sheet_id s = Some sheet_id ->
  sheet_id <> "" /\
  forallb App.is_id_char (list_ascii_of_string sheet_id) = true /\
  exists a b, s = a +:+ "/d/" +:+ sheet_id +:+ "/" +:+ b.
Proof.
  induction s as [|c s IH].
  - simpl. discriminate.
  - cbn [App.search_sheet_id].
    destruct (App.match_sheet_id (String c s)) as [m|] eqn:Hm.
    + intros [= <-]. destruct (match_sheet_id_spec _ _ Hm) as (H1 & H2 & b & H3).
      split; [exact H1|]. split; [exact H2|]. exists "", b. exact H3.
    + intros H. destruct (IH H) as (H1 & H2 & a & b & ->).
      split; [exact H1|]. split; [exact H2|]. exists (String c a), b. reflexivity.
Qed.

(** X15.  [_to_export_url] of [app.py] is idempotent, and a link it changes
    becomes the export link of the sheet id found in it: a non-empty run of
    letters, digits, [_] and [-] that stands in the link between [/d/] and
    the next [/]. *)
Theorem to_export_url_converts_once (url : string) :
  App._to_export_url (App._to_export_url url) = App._to_export_url url /\
  (App._to_export_url url <> url ->
   exists a sheet_id b,
     url = a +:+ "/d/" +:+ sheet_id +:+ "/" +:+ b /\
     sheet_id <> "" /\
     forallb App.is_id_char (list_ascii_of_string sheet_id) = true /\
     App._to_export_url url =
       "https://docs.google.com/spreadsheets/d/" +:+ sheet_id +:+ "/export?format=xlsx").
Proof.
  unfold App._to_export_url at 2 3 4.
  destruct (negb (Py.contains "docs.google.com/spreadsheets" url) || Py.contains "/export" url)
    eqn:Hc.
  - split; [|congruence]. unfold App._to_export_url. rewrite Hc. reflexivity.
  - destruct (App.search_sheet_id url) as [sheet_id|] eqn:Hs.
    + split.
      * unfold App._to_export_url.
        assert (Py.contains "/export"
                  ("https://docs.google.com/spreadsheets/d/" +:+ sheet_id +:+
                   "/export?format=xlsx") = true) as ->.
        { change ("https://docs.google.com/spreadsheets/d/" +:+ sheet_id +:+
                  "/export?format=xlsx")
            with ("https://docs.google.com/spreadsheets/d/" +:+
                  (sheet_id +:+ "/export" +:+ "?format=xlsx")).
          rewrite <- append_assoc. apply contains_app. }
        rewrite orb_true_r. reflexivity.
      * intros _. destruct (search_sheet_id_spec _ _ Hs) as (H1 & H2 & a & b & H3).
        exists a, sheet_id, b. repeat split; try assumption.
        unfold App._to_export_url. rewrite Hc, Hs. reflexivity.
    + split; [|congruence]. unfold App._to_export_url. rewrite Hc, Hs. reflexivity.
Qed.

Lemma to_export_url_converts_once_witness :
  App._to_export_url sheet_url <> sheet_url /\
  exists a sheet_id b,
    sheet_url = a +:+ "/d/" +:+ sheet_id +:+ "/" +:+ b /\
    sheet_id <> "" /\
    forallb App.is_id_char (list_ascii_of_string sheet_id) = true /\
    App._to_export_url sheet_url =
      "https://docs.google.com/spreadsheets/d/" +:+ sheet_id +:+ "/export?format=xlsx".
Proof.
  assert (App._to_export_url sheet_url <> sheet_url) as H by (vm_compute; discriminate).
  split; [exact H|].
  exact (proj2 (to_export_url_converts_once sheet_url) H).
Defined.
